(** * Gammapy: sky models, safe-mask maker and energy-dependence estimator

    A shallow embedding of

    - [gammapy/modeling/models/cube.py]  ([SkyModel.evaluate],
      [FoVBackgroundModel], [BackgroundModel.evaluate] and
      [BackgroundModel.stack]; [__init__], [to_dict] and [from_dict] of
      [SkyModel], [FoVBackgroundModel] and [BackgroundModel]),
    - [gammapy/makers/safe.py]           ([SafeMaskMaker]),
    - [gammapy/estimators/energydependence.py]
      ([EnergyDependenceEstimator] and [weighted_chi2_parameter]),

    followed by the properties proved about them.

    Conventions of the embedding.

    - A Python call that may raise is a function into [outcome]; the
      exception classes that the three files raise or let through are the
      constructors of [exn].
    - Unit-aware floating-point values ([astropy.units.Quantity], numpy
      scalars) are the elements of a type [num] with the operations of the
      class [Arith]; nothing is assumed about rounding.  An instance over
      the rationals extended with NaN is used to run the code on concrete
      data.
    - Functions of astropy, numpy, [gammapy.maps], [gammapy.irf],
      [gammapy.datasets] and [gammapy.modeling] that the three files call
      but do not define are fields of the interface classes [MapApi],
      [MapsApi], [FitApi], [NumpyApi] and [ModelsApi]. *)

From Stdlib Require Import ZArith QArith Qabs Bool.
From stdpp Require Import base option list strings gmap sets.

Local Close Scope Q_scope.
Local Open Scope Z_scope.
Local Open Scope nat_scope.
Local Open Scope string_scope.
Local Open Scope list_scope.
Local Open Scope stdpp_scope.

(** ** Python exceptions and fallible calls *)

Inductive exn : Type :=
| ValueError
| IndexError
| KeyError
| TypeError
| AttributeError.

Inductive outcome (A : Type) : Type :=
| Ok (a : A)
| Raise (e : exn).

Arguments Ok {A} a.
Arguments Raise {A} e.

#[export] Instance outcome_ret : MRet outcome := λ A a, Ok a.

#[export] Instance outcome_bind : MBind outcome :=
  λ A B f m, match m with Ok a => f a | Raise e => Raise e end.

(** [l[i]] on a Python sequence. *)
Definition getitem {A : Type} (l : list A) (i : nat) : outcome A :=
  match l !! i with
  | Some x => Ok x
  | None => Raise IndexError
  end.

(** Truth value of an optional object of a class that does not redefine
    its truth value: [None] is false, every instance is true. *)
Definition truthy {A : Type} (o : option A) : bool :=
  match o with
  | Some _ => true
  | None => false
  end.

(** ** Numbers *)

Class Arith (num : Type) : Type := {
  of_Z : Z → num;
  nadd : num → num → num;
  nsub : num → num → num;
  nmul : num → num → num;
  ndiv : num → num → num;
  nmax : num → num → num;
  nleb : num → num → bool;
  nltb : num → num → bool;
  nisnan : num → bool;
  nisfinite : num → bool
}.

(** The order facts used about [<=] on values that are not NaN. *)
Class ArithOrder (num : Type) `{!Arith num} : Prop := {
  nleb_total : ∀ x y : num,
    nisnan x = false → nisnan y = false → nleb x y = true ∨ nleb y x = true;
  nleb_trans : ∀ x y z : num,
    nleb x y = true → nleb y z = true → nleb x z = true
}.

(** [np.sum] of a sequence. *)
Definition np_sum {num : Type} `{!Arith num} (l : list num) : num :=
  foldl nadd (of_Z 0) l.

(** [np.argmax] of a one-dimensional array: the running maximum is
    replaced only by an element that is not [<=] it, and a NaN stops the
    scan. *)
Fixpoint argmax_from {num : Type} `{!Arith num} (best_i : nat) (best : num) (i : nat)
    (l : list num) : nat :=
  match l with
  | [] => best_i
  | x :: l' =>
      if nisnan best then best_i
      else if negb (nleb x best) then argmax_from i x (S i) l'
      else argmax_from best_i best (S i) l'
  end.

Definition np_argmax {num : Type} `{!Arith num} (l : list num) : outcome nat :=
  match l with
  | [] => Raise ValueError
  | x :: l' => Ok (argmax_from 0 x 1 l')
  end.

(** [i] is the first index at which the sequence [l] takes its largest
    value [v]: no element exceeds [v], and every element before [i] is
    strictly below [v]. *)
Definition is_first_max {num : Type} `{!Arith num} (l : list num) (i : nat)
    (v : num) : Prop :=
  l !! i = Some v
  ∧ (∀ j w, l !! j = Some w → nleb w v = true)
  ∧ (∀ j w, j < i → l !! j = Some w → nleb v w = false).

(** ** cube.py *)

Module SkyModel.
Section SkyModel.
Context {num : Type} `{!Arith num}.
(** Longitude or latitude, energy and time coordinates. *)
Context {Coord Energy Time : Type}.

(** The three component models are seen through their call operator.
    A spatial model is called with or without the energy. *)
Record SpectralModel : Type := {
  spectral_call : Energy → num
}.

Record SpatialModel : Type := {
  is_energy_dependent : bool;
  spatial_call : Coord → Coord → option Energy → num
}.

Record TemporalModel : Type := {
  temporal_call : Time → num
}.

Record t : Type := {
  spectral_model : SpectralModel;
  spatial_model : option SpatialModel;
  temporal_model : option TemporalModel;
  name : string
}.

Definition evaluate (self : t) (lon lat : Coord) (energy : Energy)
    (time : option Time) : num :=
  let value := spectral_call (spectral_model self) energy in
  let value :=
    match spatial_model self with
    | Some sm =>
        let spatial :=
          if is_energy_dependent sm
          then spatial_call sm lon lat (Some energy)
          else spatial_call sm lon lat None in
        nmul value spatial
    | None => value
    end in
  let value :=
    match temporal_model self, time with
    | Some tm, Some tv => nmul value (temporal_call tm tv)
    | _, _ => value
    end in
  value.

(** The factors named by the specification: each is present or omitted. *)
Definition spatial_factor (self : t) (lon lat : Coord) (energy : Energy)
    : option num :=
  sm ← spatial_model self;
  Some (spatial_call sm lon lat
          (if is_energy_dependent sm then Some energy else None)).

Definition temporal_factor (self : t) (time : option Time) : option num :=
  tm ← temporal_model self;
  tv ← time;
  Some (temporal_call tm tv).

Definition factorised_product (self : t) (lon lat : Coord)
    (energy : Energy) (time : option Time) : num :=
  foldl nmul (spectral_call (spectral_model self) energy)
    (omap id [spatial_factor self lon lat energy;
              temporal_factor self time]).
End SkyModel.
Arguments SpectralModel : clear implicits.
Arguments SpatialModel : clear implicits.
Arguments TemporalModel : clear implicits.
Arguments t : clear implicits.
End SkyModel.

Module FoVBackgroundModel.
(** [FoVBackgroundModel.__init__]: the data set name is mandatory. *)
Record t : Type := {
  datasets_names : list string
}.

Definition init (dataset_name : option string) : outcome t :=
  match dataset_name with
  | None => Raise ValueError
  | Some n => Ok {| datasets_names := [n] |}
  end.
End FoVBackgroundModel.

(** A model parameter ([gammapy.modeling.Parameter]). *)
Record ParameterObj (num : Type) : Type := {
  par_name : string;
  value : num;
  error : num;
  unit : string;
  frozen : bool
}.
Arguments par_name {num} _.
Arguments value {num} _.
Arguments error {num} _.
Arguments unit {num} _.
Arguments frozen {num} _.

Module BackgroundModel.

(** Objects are held in a store and named by their address: two
    background models can be one object or share one spectral model, and
    two spectral models can share one [Parameter] object (a linked
    parameter is one object that several models refer to). *)
Definition loc : Type := nat.

(** The spectral model of a background model carries the attributes
    [norm] and [tilt] that [stack] assigns to: it is a
    [PowerLawNormSpectralModel], the class default.  Its attributes refer
    to [Parameter] objects. *)
Record SpectralModel : Type := {
  norm : loc;
  tilt : loc;
  reference : loc
}.

(** A map: its geometry and its data, one list of pixels per energy bin. *)
Record Map (num Geom : Type) : Type := {
  geom : Geom;
  data : list (list num)
}.
Arguments geom {num Geom} _.
Arguments data {num Geom} _.

(** The calls into [gammapy.maps] and [spectral.py]. *)
Class MapApi (num Geom Weights : Type) : Type := {
  (** [geom.axes["energy"].center] *)
  energy_axis_center : Geom → list num;
  (** [spectral_model(energy).value] at one energy, for a spectral model
      whose parameters [norm], [tilt] and [reference] are the given ones *)
  spectral_evaluate :
    ParameterObj num → ParameterObj num → ParameterObj num → num → num;
  (** [Map.stack(other, weights)], as the value of the receiver afterwards *)
  map_stack : Map num Geom → Map num Geom → option Weights → Map num Geom
}.

Section BackgroundModel.
Context {num : Type} `{!Arith num}.
Context {Geom Weights : Type} `{!MapApi num Geom Weights}.

Record t : Type := {
  map : Map num Geom;
  spectral_model : loc;
  name : string
}.

Record Heap : Type := {
  parameters : gmap nat (ParameterObj num);
  spectral_models : gmap nat SpectralModel;
  background_models : gmap nat t
}.

(** [spectral_model(energy).value], one value for each energy: the call
    reads the parameters of the model as they are now. *)
Definition spectral_call (h : Heap) (sm : SpectralModel) (energy : list num)
    : option (list num) :=
  norm_par ← parameters h !! norm sm;
  tilt_par ← parameters h !! tilt sm;
  reference_par ← parameters h !! reference sm;
  Some (spectral_evaluate norm_par tilt_par reference_par <$> energy).

(** [self.map.copy(data=self.map.data * value)]: every energy plane of the
    map is multiplied by the value at the centre of its energy bin. *)
Definition scaled (m : Map num Geom) (value : list num) : Map num Geom :=
  let back_values :=
    zip_with (λ plane v, (λ x, nmul x v) <$> plane) (data m) value in
  {| geom := geom m; data := back_values |}.

(** [BackgroundModel.evaluate] *)
Definition evaluate (h : Heap) (self : t) : option (Map num Geom) :=
  sm ← spectral_models h !! spectral_model self;
  value ← spectral_call h sm (energy_axis_center (geom (map self)));
  Some (scaled (map self) value).

(** [p.value = v] *)
Definition set_value (p : ParameterObj num) (v : num) : ParameterObj num :=
  {| par_name := par_name p;
     value := v;
     error := error p;
     unit := unit p;
     frozen := frozen p |}.

(** [p.value = v] on the [Parameter] object at address [p]. *)
Definition assign_value (h : Heap) (p : loc) (v : num) : option Heap :=
  par ← parameters h !! p;
  Some {| parameters := <[p := set_value par v]> (parameters h);
          spectral_models := spectral_models h;
          background_models := background_models h |}.

(** [BackgroundModel.stack].  The result is [None] only when an address
    is not allocated, which no Python reference is. *)
Definition stack (h : Heap) (self other : loc) (weights : option Weights)
    : option Heap :=
  self_obj ← background_models h !! self;
  other_obj ← background_models h !! other;
  bkg ← evaluate h self_obj;
  other_bkg ← evaluate h other_obj;
  let bkg := map_stack bkg other_bkg weights in
  let self_obj :=
    {| map := bkg;
       spectral_model := spectral_model self_obj;
       name := name self_obj |} in
  let h :=
    {| parameters := parameters h;
       spectral_models := spectral_models h;
       background_models := <[self := self_obj]> (background_models h) |} in
  (* reset parameter values *)
  sm ← spectral_models h !! spectral_model self_obj;
  h ← assign_value h (norm sm) (of_Z 1);
  sm ← spectral_models h !! spectral_model self_obj;
  assign_value h (tilt sm) (of_Z 0).
End BackgroundModel.
Arguments t : clear implicits.
Arguments Heap : clear implicits.
End BackgroundModel.

(** ** safe.py *)

Module SafeMaskMaker.

(** A boolean array over the data shape of a geometry, read at an energy
    bin and a spatial pixel.  An array that has spatial axes only is
    broadcast along the energy axis where it is used. *)
Definition Mask : Type := nat → nat → bool.

Definition mask_and (a b : Mask) : Mask := λ e p, a e p && b e p.

(** [d[key]] on a dict. *)
Definition dict_getitem {V : Type} (d : gmap string V) (key : string)
    : outcome V :=
  match d !! key with
  | Some v => Ok v
  | None => Raise KeyError
  end.

(** The calls into astropy, [gammapy.maps], [gammapy.irf] and
    [spectral.py], with the classes of their arguments. *)
Class MapsApi (num : Type) : Type := {
  SkyCoord : Type;
  Geom : Type;
  MapAxis : Type;
  ExposureMap : Type;
  RegionNDMap : Type;
  TemplateSpectralModel : Type;
  EDispKernelMap : Type;
  EDispMap : Type;
  EDispKernel : Type;
  AngleArg : Type;
  (** [Angle(offset_max)] *)
  Angle : AngleArg → outcome num;
  (** [pointing.directional_offset_by(position_angle, separation)] *)
  directional_offset_by : SkyCoord → num → num → SkyCoord;
  (** [value * u.TeV] *)
  TeV : num → num;
  (** [geom.separation(skydir)], by spatial pixel *)
  separation : Geom → SkyCoord → nat → num;
  (** [geom.energy_mask(energy_min, energy_max)] *)
  energy_mask : Geom → option num → option num → Mask;
  center_skydir : Geom → SkyCoord;
  (** [geom.axes["energy"]], its [edges] and its [pix_to_coord] *)
  energy_axis : Geom → MapAxis;
  edges : MapAxis → list num;
  pix_to_coord : MapAxis → nat → num;
  (** [exposure.get_spectrum(position)], [exposure.meta],
      [spectrum / livetime] and [spectrum.quantity.max()] *)
  get_spectrum : ExposureMap → SkyCoord → RegionNDMap;
  exposure_meta : ExposureMap → gmap string num;
  region_div : RegionNDMap → num → RegionNDMap;
  quantity_max : RegionNDMap → num;
  (** [TemplateSpectralModel.from_region_map], the attributes [energy]
      and [values] and the method [inverse] of the model *)
  from_region_map : RegionNDMap → TemplateSpectralModel;
  template_energy : TemplateSpectralModel → list num;
  template_values : TemplateSpectralModel → list num;
  inverse : TemplateSpectralModel → num → num → num → list num;
  (** [EDispKernelMap.get_edisp_kernel(position)],
      [EDispMap.get_edisp_kernel(position, e_reco)] and
      [kernel.get_bias_energy(bias)] *)
  get_edisp_kernel : EDispKernelMap → option SkyCoord → EDispKernel;
  get_edisp_kernel_reco : EDispMap → option SkyCoord → list num → EDispKernel;
  get_bias_energy : EDispKernel → num → list num
}.

Section SafeMaskMaker.
Context {num : Type} `{!Arith num} `{!MapsApi num}.

Inductive EDisp : Type :=
| IsEDispKernelMap (e : EDispKernelMap)
| IsEDispMap (e : EDispMap).

(** The attributes of a data set that the maker reads, and [mask_safe],
    which it writes.  [npred_background_spectrum] is the data of
    [dataset.npred_background().get_spectrum()] along the energy axis. *)
Record Dataset : Type := {
  _geom : Geom;
  exposure : option ExposureMap;
  background : option (nat → nat → num);
  edisp : option EDisp;
  stat_type : string;
  npred_background_spectrum : list num;
  mask_safe : option Mask
}.

(** [aeff_meta] is [observation.aeff.meta]. *)
Record Observation : Type := {
  pointing_radec : SkyCoord;
  aeff_meta : gmap string num
}.

Record t : Type := {
  methods : gset string;
  aeff_percent : num;
  bias_percent : num;
  position : option SkyCoord;
  fixed_offset : option num;
  offset_max : num
}.

Definition available_methods : gset string :=
  {[ "aeff-default"; "aeff-max"; "edisp-bias"; "offset-max"; "bkg-peak" ]}.

Definition init (methods : list string) (aeff_percent bias_percent : num)
    (position : option SkyCoord) (fixed_offset : option num)
    (offset_max : AngleArg) : outcome t :=
  let methods : gset string := list_to_set methods in
  if negb (bool_decide (methods ⊆ available_methods)) then Raise ValueError
  else
    offset_max ← Angle offset_max;
    if truthy position && truthy fixed_offset then Raise ValueError
    else
      Ok {| methods := methods;
            aeff_percent := aeff_percent;
            bias_percent := bias_percent;
            position := position;
            fixed_offset := fixed_offset;
            offset_max := offset_max |}.

Definition make_mask_offset_max (self : t) (dataset : Dataset)
    (observation : option Observation) : outcome Mask :=
  match observation with
  | None => Raise ValueError
  | Some obs =>
      let separation := separation (_geom dataset) (pointing_radec obs) in
      Ok (λ _ p, nltb (separation p) (offset_max self))
  end.

Definition make_mask_energy_aeff_default (dataset : Dataset)
    (observation : option Observation) : outcome Mask :=
  match observation with
  | None => Raise ValueError
  | Some obs =>
      let '(energy_min, energy_max) :=
        match aeff_meta obs !! "HI_THRES", aeff_meta obs !! "LO_THRES" with
        | Some hi, Some lo => (Some (TeV lo), Some (TeV hi))
        | _, _ => (None, None)
        end in
      Ok (energy_mask (_geom dataset) energy_min energy_max)
  end.

(** [np.where(values > 0)[0][0]] *)
Fixpoint first_positive (values : list num) : outcome nat :=
  match values with
  | [] => Raise IndexError
  | v :: values' =>
      if nltb (of_Z 0) v then Ok 0
      else i ← first_positive values'; Ok (S i)
  end.

(** The position at which [make_mask_energy_aeff_max] reads the
    exposure. *)
Definition aeff_max_position (self : t) (dataset : Dataset)
    (observation : option Observation) : outcome SkyCoord :=
  match fixed_offset self with
  | Some off =>
      match observation with
      | Some obs =>
          Ok (directional_offset_by (pointing_radec obs) (of_Z 0) off)
      | None => Raise ValueError
      end
  | None =>
      match position self with
      | Some pos => Ok pos
      | None => Ok (center_skydir (_geom dataset))
      end
  end.

Definition make_mask_energy_aeff_max (self : t) (dataset : Dataset)
    (observation : option Observation) : outcome Mask :=
  let geom := _geom dataset in
  position ← aeff_max_position self dataset observation;
  exposure ← match exposure dataset with
              | Some e => Ok e
              | None => Raise AttributeError
              end;
  livetime ← dict_getitem (exposure_meta exposure) "livetime";
  let aeff := region_div (get_spectrum exposure position) livetime in
  let model := from_region_map aeff in
  let energy_true := template_energy model in
  idx ← first_positive (template_values model);
  energy_min ← getitem energy_true idx;
  energy_max ← getitem energy_true 0;
  let aeff_thres :=
    nmul (ndiv (aeff_percent self) (of_Z 100)) (quantity_max aeff) in
  let inversion := inverse model aeff_thres energy_min energy_max in
  inversion0 ← getitem inversion 0;
  let energy_min :=
    if negb (nisnan inversion0) then inversion0 else energy_min in
  Ok (energy_mask geom (Some energy_min) None).

Definition make_mask_energy_edisp_bias (self : t) (dataset : Dataset)
    (observation : option Observation) : outcome Mask :=
  let geom := _geom dataset in
  position ←
    match fixed_offset self with
    | Some off =>
        match observation with
        | Some obs =>
            Ok (Some (directional_offset_by (pointing_radec obs) (of_Z 0) off))
        | None => Raise ValueError
        end
    | None => Ok None
    end;
  let position :=
    match position with
    | Some p => Some p
    | None => SafeMaskMaker.position self
    end in
  kernel ←
    match edisp dataset with
    | Some (IsEDispKernelMap e) => Ok (get_edisp_kernel e position)
    | Some (IsEDispMap e) =>
        let e_reco := edges (energy_axis (_geom dataset)) in
        Ok (get_edisp_kernel_reco e position e_reco)
    | None => Raise AttributeError
    end;
  let energy_min :=
    get_bias_energy kernel (ndiv (bias_percent self) (of_Z 100)) in
  energy_min0 ← getitem energy_min 0;
  Ok (energy_mask geom (Some energy_min0) None).

Definition make_mask_energy_bkg_peak (dataset : Dataset) : outcome Mask :=
  let geom := _geom dataset in
  let background_spectrum := npred_background_spectrum dataset in
  idx ← np_argmax background_spectrum;
  let energy_axis := energy_axis geom in
  let energy_min := pix_to_coord energy_axis idx in
  Ok (energy_mask geom (Some energy_min) None).

Definition make_mask_bkg_invalid (dataset : Dataset) : outcome Mask :=
  match background dataset with
  | None => Raise AttributeError
  | Some bkg =>
      let mask : Mask := λ e p, nisfinite (bkg e p) in
      if negb (bool_decide (stat_type dataset = "wstat"))
      then Ok (mask_and mask (λ e p, nltb (of_Z 0) (bkg e p)))
      else Ok mask
  end.

(** [if cond: mask_safe &= m] *)
Definition iand_if (cond : bool) (mask_safe : Mask) (m : outcome Mask)
    : outcome Mask :=
  if cond then m' ← m; Ok (mask_and mask_safe m') else Ok mask_safe.

Definition selected (self : t) (method : string) : bool :=
  bool_decide (method ∈ methods self).

(** [dataset.mask_safe = Map.from_geom(dataset._geom, data=mask,
    dtype=bool)], as the data set afterwards. *)
Definition set_mask_safe (dataset : Dataset) (mask : Mask) : Dataset :=
  {| _geom := _geom dataset;
     exposure := exposure dataset;
     background := background dataset;
     edisp := edisp dataset;
     stat_type := stat_type dataset;
     npred_background_spectrum := npred_background_spectrum dataset;
     mask_safe := Some mask |}.

Definition run (self : t) (dataset : Dataset)
    (observation : option Observation) : outcome Dataset :=
  let mask_safe : Mask := λ _ _, true in
  mask_safe ← iand_if (truthy (background dataset)) mask_safe
                 (make_mask_bkg_invalid dataset);
  mask_safe ← iand_if (selected self "offset-max") mask_safe
                 (make_mask_offset_max self dataset observation);
  mask_safe ← iand_if (selected self "aeff-default") mask_safe
                 (make_mask_energy_aeff_default dataset observation);
  mask_safe ← iand_if (selected self "aeff-max") mask_safe
                 (make_mask_energy_aeff_max self dataset None);
  mask_safe ← iand_if (selected self "edisp-bias") mask_safe
                 (make_mask_energy_edisp_bias self dataset None);
  mask_safe ← iand_if (selected self "bkg-peak") mask_safe
                 (make_mask_energy_bkg_peak dataset);
  Ok (set_mask_safe dataset mask_safe).

(** The mask that [run] asks of the method called [method]. *)
Definition method_mask (self : t) (dataset : Dataset)
    (observation : option Observation) (method : string) : outcome Mask :=
  if bool_decide (method = "offset-max")
  then make_mask_offset_max self dataset observation
  else if bool_decide (method = "aeff-default")
  then make_mask_energy_aeff_default dataset observation
  else if bool_decide (method = "aeff-max")
  then make_mask_energy_aeff_max self dataset None
  else if bool_decide (method = "edisp-bias")
  then make_mask_energy_edisp_bias self dataset None
  else if bool_decide (method = "bkg-peak")
  then make_mask_energy_bkg_peak dataset
  else Raise ValueError.
End SafeMaskMaker.
End SafeMaskMaker.

(** ** energydependence.py *)

Module EnergyDependenceEstimator.

(** [parameters.free_parameters] and [parameters.names] *)
Definition free_parameters {num : Type} (ps : list (ParameterObj num))
    : list (ParameterObj num) :=
  filter (λ p, frozen p = false) ps.

Definition names {num : Type} (ps : list (ParameterObj num)) : list string :=
  par_name <$> ps.

(** [parameters[name]] *)
Fixpoint parameters_getitem {num : Type} (ps : list (ParameterObj num))
    (name : string) : outcome (ParameterObj num) :=
  match ps with
  | [] => Raise IndexError
  | p :: ps' =>
      if bool_decide (par_name p = name) then Ok p
      else parameters_getitem ps' name
  end.

(** The result of a fit: the attributes read by the estimator. *)
Record FitResult (num : Type) : Type := {
  total_stat : num;
  parameters : list (ParameterObj num)
}.
Arguments total_stat {num} _.
Arguments parameters {num} _.

(** [result.parameters.free_parameters.names] *)
Definition free_names {num : Type} (r : FitResult num) : list string :=
  names (free_parameters (parameters r)).

(** The dict returned by [TestStatisticNested.run]: the entries read. *)
Record TestResult (num : Type) : Type := {
  ts : num;
  fit_results : FitResult num
}.
Arguments ts {num} _.
Arguments fit_results {num} _.

(** The models given to a slice: the copy of the source model and the
    background model of the slice. *)
Inductive Model (SkyModelObj : Type) : Type :=
| Sky (m : SkyModelObj)
| FoVBkg (b : FoVBackgroundModel.t).
Arguments Sky {SkyModelObj} m.
Arguments FoVBkg {SkyModelObj} b.

(** A data set sliced in energy, with its [models]. *)
Record SlicedDataset (Sliced SkyModelObj : Type) : Type := {
  sliced : Sliced;
  models : list (Model SkyModelObj)
}.
Arguments sliced {Sliced SkyModelObj} _.
Arguments models {Sliced SkyModelObj} _.

(** The calls into [gammapy.datasets], [gammapy.modeling] and
    [gammapy.stats], with the classes of their arguments. *)
Class FitApi (num : Type) : Type := {
  MapDataset : Type;
  SkyModelObj : Type;
  Sliced : Type;
  Fit : Type;
  Source : Type;
  (** [dataset.mask_fit = dataset.counts.geom.energy_mask(energy_min=e,
      energy_max=None)], as the data set afterwards *)
  set_mask_fit : MapDataset → num → MapDataset;
  (** [datasets.models[source]] *)
  models_getitem : list MapDataset → Source → outcome SkyModelObj;
  (** [dataset.slice_by_energy(emin, emax)] and the [name] of the slice *)
  slice_by_energy : MapDataset → num → num → Sliced;
  sliced_name : Sliced → string;
  (** [model.copy()] *)
  model_copy : SkyModelObj → SkyModelObj;
  (** [model.spatial_model.parameters]; there may be no spatial model *)
  spatial_parameters : SkyModelObj → outcome (list (ParameterObj num));
  (** [setattr(model.spatial_model, name, parameter)], as the model
      afterwards *)
  set_spatial_parameter :
    SkyModelObj → string → ParameterObj num → SkyModelObj;
  (** [sliced.models.parameters] of one slice, [slices.parameters] of a
      [Datasets] of slices *)
  models_parameters : list (Model SkyModelObj) → list (ParameterObj num);
  datasets_parameters :
    list (SlicedDataset Sliced SkyModelObj) → list (ParameterObj num);
  (** [fit.run(dataset)] and [fit.run(datasets)]: the result, and the data
      sets with their fitted parameters *)
  fit_run_dataset :
    Fit → SlicedDataset Sliced SkyModelObj →
    FitResult num * SlicedDataset Sliced SkyModelObj;
  fit_run_datasets :
    Fit → list (SlicedDataset Sliced SkyModelObj) →
    FitResult num * list (SlicedDataset Sliced SkyModelObj);
  (** [TestStatisticNested(parameters, null_values, n_sigma=-inf,
      fit).run(sliced)] *)
  nested_test_run :
    Fit → list (ParameterObj num) → list num →
    SlicedDataset Sliced SkyModelObj → TestResult num;
  (** [ts_to_sigma(ts, df)] at one value of [ts]; on a sequence it is
      applied to each element *)
  ts_to_sigma : num → Z → num
}.

(** [free_x, free_y = np.shape(rows)] for a list of lists of strings: the
    unpacking needs a two-dimensional shape, which an empty or a ragged
    list does not have. *)
Definition np_shape2 {A : Type} (rows : list (list A)) : outcome (nat * nat) :=
  match rows with
  | [] => Raise ValueError
  | r :: rest =>
      if forallb (λ r', Nat.eqb (length r') (length r)) rest
      then Ok (length rows, length r)
      else Raise ValueError
  end.

Section EnergyDependenceEstimator.
Context {num : Type} `{!Arith num} `{!FitApi num}.

Local Abbreviation Slice := (SlicedDataset Sliced SkyModelObj).

Record t : Type := {
  energy_edges : list num;
  source : Source;
  fit : Fit
}.

(** [self.num_energy_bands = len(self.energy_edges) - 1] *)
Definition num_energy_bands (self : t) : Z :=
  (Z.of_nat (length (energy_edges self)) - 1)%Z.

(** [zip(self.energy_edges[:-1], self.energy_edges[1:])] *)
Definition bands (self : t) : list (num * num) :=
  zip (take (length (energy_edges self) - 1) (energy_edges self))
      (drop 1 (energy_edges self)).

(** The first loop of both estimators: the fit mask of every data set. *)
Definition set_masks (self : t) (datasets : list MapDataset)
    : outcome (list MapDataset) :=
  mapM (λ dataset,
          e0 ← getitem (energy_edges self) 0;
          Ok (set_mask_fit dataset e0)) datasets.

(** The body of the slicing loops. *)
Definition make_slice (model : SkyModelObj) (band : num * num)
    (dataset : MapDataset) : outcome Slice :=
  let sliced_src := slice_by_energy dataset band.1 band.2 in
  bkg_sliced_model ← FoVBackgroundModel.init (Some (sliced_name sliced_src));
  Ok {| sliced := sliced_src;
        models := [Sky (model_copy model); FoVBkg bkg_sliced_model] |}.

Definition make_slices (self : t) (datasets : list MapDataset)
    (model : SkyModelObj) : outcome (list Slice) :=
  per_band ← mapM (λ band, mapM (make_slice model band) datasets) (bands self);
  Ok (concat per_band).

(** The slices that the loops build, band by band and, within a band,
    data set by data set. *)
Definition slice_of (model : SkyModelObj) (band : num * num)
    (dataset : MapDataset) : Slice :=
  let sliced_src := slice_by_energy dataset band.1 band.2 in
  {| sliced := sliced_src;
     models :=
       [Sky (model_copy model);
        FoVBkg {| FoVBackgroundModel.datasets_names :=
                    [sliced_name sliced_src] |}] |}.

Definition all_slices (self : t) (datasets : list MapDataset)
    (model : SkyModelObj) : list Slice :=
  concat ((λ band, slice_of model band <$> datasets) <$> bands self).

(** [sliced.models[0].spatial_model.parameters] *)
Definition slice_spatial_parameters (s : Slice)
    : outcome (list (ParameterObj num)) :=
  m ← getitem (models s) 0;
  match m with
  | Sky m => spatial_parameters m
  | FoVBkg _ => Raise AttributeError
  end.

Record BkgSrcResult : Type := {
  src_Emin : list num;
  src_Emax : list num;
  src_delta_ts : list num;
  src_df : list Z;
  src_significance : list num
}.

Definition nested_test (self : t) (sliced : Slice) : outcome (TestResult num) :=
  let parameters := free_parameters (models_parameters (models sliced)) in
  spatial ← slice_spatial_parameters sliced;
  let null_values := of_Z 0 :: (value <$> free_parameters spatial) in
  Ok (nested_test_run (fit self) parameters null_values sliced).

Definition estimate_source_significance (self : t)
    (datasets : list MapDataset) : outcome (list MapDataset * BkgSrcResult) :=
  datasets ← set_masks self datasets;
  model ← models_getitem datasets (source self);
  slices_src ← make_slices self datasets model;
  test_results ← mapM (nested_test self) slices_src;
  let delta_ts_bkg_src := ts <$> test_results in
  let df_src :=
    (λ r, length (free_names (fit_results r))) <$> test_results in
  let df_bkg := 1%Z in
  df_src0 ← getitem df_src 0;
  let df_bkg_src := (Z.of_nat df_src0 - df_bkg)%Z in
  let sigma_ts_bkg_src :=
    (λ x, ts_to_sigma x df_bkg_src) <$> delta_ts_bkg_src in
  Ok (datasets,
      {| src_Emin := take (length (energy_edges self) - 1) (energy_edges self);
         src_Emax := drop 1 (energy_edges self);
         src_delta_ts := delta_ts_bkg_src;
         src_df := replicate (Z.to_nat (num_energy_bands self)) df_bkg_src;
         src_significance := sigma_ts_bkg_src |}).

(** A column of the table of fitted values. *)
Inductive Column : Type :=
| Strings (l : list string)
| Values (l : list num)
| Quantities (l : list num) (unit : string).

Record EdepResult : Type := {
  delta_ts : num;
  df : Z;
  result : gmap string Column
}.

Fixpoint foldlM {A B : Type} (f : B → A → outcome B) (b : B) (l : list A)
    : outcome B :=
  match l with
  | [] => Ok b
  | x :: l' => b' ← f b x; foldlM f b' l'
  end.

(** [results_src.append(self.fit.run(sliced))] for every slice. *)
Definition fit_slices (self : t) (slices_src : list Slice)
    : list (FitResult num) * list Slice :=
  let fitted := fit_run_dataset (fit self) <$> slices_src in
  (fst <$> fitted, snd <$> fitted).

(** [sliced.models[0]], which has a [spatial_model] attribute. *)
Definition slice_sky_model (s : Slice) : outcome SkyModelObj :=
  m ← getitem (models s) 0;
  match m with
  | Sky m => Ok m
  | FoVBkg _ => Raise AttributeError
  end.

(** [setattr(slice_j.models[0].spatial_model, param,
             slice0.models[0].spatial_model.parameters[param])] *)
Definition link_parameter (slice0 slice_j : Slice) (param : string)
    : outcome Slice :=
  mj ← slice_sky_model slice_j;
  ps0 ← slice_spatial_parameters slice0;
  p ← parameters_getitem ps0 param;
  Ok {| sliced := sliced slice_j;
        models := <[0 := Sky (set_spatial_parameter mj param p)]>
                    (models slice_j) |}.

Definition link_slices (parameters : list string) (slices_src : list Slice)
    : outcome (list Slice) :=
  slice0 ← getitem slices_src 0;
  rest ← mapM (λ slice_j, foldlM (link_parameter slice0) slice_j parameters)
           (drop 1 slices_src);
  Ok (slice0 :: rest).

(** [[result.parameters[param].attr for param in parameters]] *)
Definition parameter_column {X : Type} (attr : ParameterObj num → X)
    (r : FitResult num) (parameters : list string) : outcome (list X) :=
  mapM (λ param,
          p ← parameters_getitem (EnergyDependenceEstimator.parameters r) param;
          Ok (attr p)) parameters.

(** The table of the joint values (row H0) and of the values of the
    first [num_energy_bands] sliced fits (rows H1). *)
Definition build_result (self : t) (parameters : list string)
    (result_joint : FitResult num) (results_src : list (FitResult num))
    : outcome (gmap string Column) :=
  joint_values ← parameter_column value result_joint parameters;
  joint_errors ← parameter_column error result_joint parameters;
  _ ← (if (num_energy_bands self <? 0)%Z then Raise ValueError else Ok ());
  per_band ←
    mapM (λ i,
            r ← getitem results_src i;
            vs ← parameter_column value r parameters;
            es ← parameter_column error r parameters;
            Ok (vs, es))
         (seq 0 (Z.to_nat (num_energy_bands self)));
  let result : gmap string Column := ∅ in
  let result :=
    <["Hypothesis" :=
        Strings ("H0" :: replicate (Z.to_nat (num_energy_bands self)) "H1")]>
      result in
  e_first ← getitem (energy_edges self) 0;
  let result :=
    <["Emin" :=
        Values (e_first ::
                take (length (energy_edges self) - 1) (energy_edges self))]>
      result in
  e_last ← getitem (energy_edges self) (length (energy_edges self) - 1);
  let result :=
    <["Emax" := Values (e_last :: drop 1 (energy_edges self))]> result in
  units ← parameter_column unit result_joint parameters;
  foldlM (λ result i,
            name ← getitem parameters i;
            joint_value ← getitem joint_values i;
            joint_error ← getitem joint_errors i;
            u ← getitem units i;
            row_values ← mapM (λ ve : list num * list num, getitem ve.1 i)
                           per_band;
            row_errors ← mapM (λ ve : list num * list num, getitem ve.2 i)
                           per_band;
            let result :=
              <[name := Quantities (joint_value :: row_values) u]> result in
            Ok (<[name +:+ "_err" :=
                    Quantities (joint_error :: row_errors) u]> result))
         result (seq 0 (length parameters)).

Definition estimate_energy_dependence (self : t)
    (datasets : list MapDataset) : outcome (list MapDataset * EdepResult) :=
  datasets ← set_masks self datasets;
  model ← models_getitem datasets (source self);
  (* the individually sliced components *)
  slices_src ← make_slices self datasets model;
  let '(results_src, slices_src) := fit_slices self slices_src in
  let results_src_total_stat := total_stat <$> results_src in
  shape ← np_shape2 (free_names <$> results_src);
  let '(free_x, free_y) := shape in
  let df_src := free_x * free_y in
  (* the joint fit *)
  spatial ← spatial_parameters model;
  let parameters := names (free_parameters spatial) in
  slices_src ← link_slices parameters slices_src;
  let '(result_joint, slices_src) :=
    fit_run_datasets (fit self) slices_src in
  let delta_ts_joint :=
    nsub (total_stat result_joint) (np_sum results_src_total_stat) in
  let df_joint :=
    length (names (free_parameters (datasets_parameters slices_src))) in
  let df := (Z.of_nat df_src - Z.of_nat df_joint)%Z in
  result ← build_result self parameters result_joint results_src;
  Ok (datasets,
      {| delta_ts := delta_ts_joint; df := df; result := result |}).

(** The argument of [run]: a [Datasets], or an object of another class. *)
Inductive PyObject : Type :=
| IsDatasets (datasets : list MapDataset)
| IsMapDataset (dataset : MapDataset)
| IsNone.

Inductive RunEntry : Type :=
| EnergyDependence (r : EdepResult)
| SrcAboveBkg (r : BkgSrcResult).

Definition run (self : t) (dataset : PyObject)
    : outcome (list MapDataset * gmap string RunEntry) :=
  match dataset with
  | IsDatasets datasets =>
      r1 ← estimate_energy_dependence self datasets;
      r2 ← estimate_source_significance self r1.1;
      Ok (r2.1,
          <["src_above_bkg" := SrcAboveBkg r2.2]>
            (<["energy_dependence" := EnergyDependence r1.2]> ∅))
  | _ => Raise ValueError
  end.
End EnergyDependenceEstimator.
End EnergyDependenceEstimator.

(** ** A concrete instance, to run the code *)

Module Demo.

(** Exact rationals extended with NaN.  Infinities are not represented:
    a division by zero gives NaN. *)
Inductive xq : Type :=
| XNaN
| XQ (q : Q).

Definition lift2 (f : Q → Q → Q) (x y : xq) : xq :=
  match x, y with
  | XQ a, XQ b => XQ (Qred (f a b))
  | _, _ => XNaN
  end.

Definition xdiv (x y : xq) : xq :=
  match x, y with
  | XQ a, XQ b => if Qeq_bool b 0 then XNaN else XQ (Qred (a / b))
  | _, _ => XNaN
  end.

Definition xmax (x y : xq) : xq :=
  match x, y with
  | XQ a, XQ b => if Qle_bool a b then XQ b else XQ a
  | _, _ => XNaN
  end.

Definition xleb (x y : xq) : bool :=
  match x, y with
  | XQ a, XQ b => Qle_bool a b
  | _, _ => false
  end.

Definition xltb (x y : xq) : bool :=
  match x, y with
  | XQ a, XQ b => negb (Qle_bool b a)
  | _, _ => false
  end.

Definition xisnan (x : xq) : bool :=
  match x with
  | XNaN => true
  | XQ _ => false
  end.

#[export] Instance xq_arith : Arith xq := {|
  of_Z := λ z, XQ (inject_Z z);
  nadd := lift2 Qplus;
  nsub := lift2 Qminus;
  nmul := lift2 Qmult;
  ndiv := xdiv;
  nmax := xmax;
  nleb := xleb;
  nltb := xltb;
  nisnan := xisnan;
  nisfinite := λ x, negb (xisnan x)
|}.

Definition xz (z : Z) : xq := XQ (inject_Z z).

(** *** Maps and responses *)

(** A geometry: the edges of a linear energy axis and the sky positions
    of the spatial pixels, on a line. *)
Record DGeom : Type := {
  g_edges : list Q;
  g_pixels : list Q
}.

(** An exposure: effective area times live time at the energy nodes, the
    same at every position, and the meta data. *)
Record DExposure : Type := {
  x_nodes : list (xq * xq);
  x_meta : gmap string xq
}.

Definition d_separation (g : DGeom) (c : xq) (p : nat) : xq :=
  match g_pixels g !! p, c with
  | Some x, XQ c => XQ (Qred (Qabs (x - c)))
  | _, _ => XNaN
  end.

(** [(edges[:-1] >= energy_min) & (edges[1:] <= energy_max)], a missing
    bound standing for the end of the axis. *)
Definition d_energy_mask (g : DGeom) (energy_min energy_max : option xq)
    : SafeMaskMaker.Mask :=
  λ e _,
    match g_edges g !! e, g_edges g !! S e with
    | Some lo, Some hi =>
        match energy_min with
        | Some m => xleb m (XQ lo)
        | None => true
        end &&
        match energy_max with
        | Some m => xleb (XQ hi) m
        | None => true
        end
    | _, _ => false
    end.

(** The coordinate of an integer pixel of an axis given by its edges is
    the centre of the bin. *)
Definition d_pix_to_coord (ax : list Q) (i : nat) : xq :=
  match ax !! i, ax !! S i with
  | Some lo, Some hi => XQ (Qred ((lo + hi) / 2))
  | _, _ => XNaN
  end.

(** The first node, between the bounds, whose value reaches the
    threshold; NaN when there is none. *)
Fixpoint d_inverse (nodes : list (xq * xq)) (v lo hi : xq) : list xq :=
  match nodes with
  | [] => [XNaN]
  | (e, a) :: nodes' =>
      if xleb lo e && xleb e hi && xleb v a then [e]
      else d_inverse nodes' v lo hi
  end.

Definition is_digit (c : Ascii.ascii) : option Z :=
  let n := Z.of_nat (Ascii.nat_of_ascii c) in
  if ((48 <=? n) && (n <=? 57))%Z then Some (n - 48)%Z else None.

(** Angles written as a natural number followed by [" deg"]. *)
Fixpoint parse_deg (s : string) (acc : option Z) : outcome xq :=
  match s with
  | EmptyString => Raise ValueError
  | String c s' =>
      match is_digit c with
      | Some d => parse_deg s' (Some (10 * default 0%Z acc + d)%Z)
      | None =>
          match acc with
          | Some n => if bool_decide (s = " deg") then Ok (xz n)
                      else Raise ValueError
          | None => Raise ValueError
          end
      end
  end.

#[export] Instance maps_api : SafeMaskMaker.MapsApi xq := {|
  SafeMaskMaker.SkyCoord := xq;
  SafeMaskMaker.Geom := DGeom;
  SafeMaskMaker.MapAxis := list Q;
  SafeMaskMaker.ExposureMap := DExposure;
  SafeMaskMaker.RegionNDMap := list (xq * xq);
  SafeMaskMaker.TemplateSpectralModel := list (xq * xq);
  SafeMaskMaker.EDispKernelMap := xq;
  SafeMaskMaker.EDispMap := xq;
  SafeMaskMaker.EDispKernel := xq;
  SafeMaskMaker.AngleArg := string;
  SafeMaskMaker.Angle := λ s, parse_deg s None;
  SafeMaskMaker.directional_offset_by := λ c _ off, nadd c off;
  SafeMaskMaker.TeV := λ x, x;
  SafeMaskMaker.separation := d_separation;
  SafeMaskMaker.energy_mask := d_energy_mask;
  SafeMaskMaker.center_skydir := λ _, xz 0;
  SafeMaskMaker.energy_axis := g_edges;
  SafeMaskMaker.edges := λ ax, XQ <$> ax;
  SafeMaskMaker.pix_to_coord := d_pix_to_coord;
  SafeMaskMaker.get_spectrum := λ x _, x_nodes x;
  SafeMaskMaker.exposure_meta := x_meta;
  SafeMaskMaker.region_div := λ m t, (λ ea : xq * xq, (ea.1, ndiv ea.2 t)) <$> m;
  SafeMaskMaker.quantity_max := λ m, foldr nmax (xz 0) (snd <$> m);
  SafeMaskMaker.from_region_map := λ m, m;
  SafeMaskMaker.template_energy := λ m, fst <$> m;
  SafeMaskMaker.template_values := λ m, snd <$> m;
  SafeMaskMaker.inverse := d_inverse;
  SafeMaskMaker.get_edisp_kernel := λ k _, k;
  SafeMaskMaker.get_edisp_kernel_reco := λ k _ _, k;
  SafeMaskMaker.get_bias_energy := λ k bias, [nmul k (nadd (xz 1) bias)]
|}.

(** *** Background maps *)

(** [x ** (-t)] for a whole number [t]. *)
Definition xpow_neg (x t : xq) : xq :=
  match x, t with
  | XQ a, XQ b =>
      if Pos.eqb (Qden b) 1 then XQ (Qred (Qpower a (- Qnum b))) else XNaN
  | _, _ => XNaN
  end.

(** A geometry is given by the centres of its energy bins; the spectral
    model is the power law [norm * (energy / reference) ** (-tilt)];
    stacking adds the data, without weights. *)
#[export] Instance map_api : BackgroundModel.MapApi xq (list xq) () := {|
  BackgroundModel.energy_axis_center := λ g, g;
  BackgroundModel.spectral_evaluate := λ norm tilt reference e,
    nmul (value norm) (xpow_neg (ndiv e (value reference)) (value tilt));
  BackgroundModel.map_stack := λ a b _,
    {| BackgroundModel.geom := BackgroundModel.geom a;
       BackgroundModel.data :=
         zip_with (zip_with nadd) (BackgroundModel.data a)
           (BackgroundModel.data b) |}
|}.

Definition par (name : string) (v : Z) (is_frozen : bool) : ParameterObj xq :=
  {| par_name := name; value := xz v; error := xz 0; unit := "1";
     frozen := is_frozen |}.

(** *** Data sets and fits *)

Record DModel : Type := {
  dm_name : string;
  dm_spectral : list (ParameterObj xq);
  dm_spatial : option (list (ParameterObj xq))
}.

(** A data set: its name, a number standing for its counts, its models
    and its fit mask. *)
Record DDataset : Type := {
  dd_name : string;
  dd_stat : Z;
  dd_models : list DModel;
  dd_mask_fit : option xq
}.

Record DSliced : Type := {
  ds_parent : DDataset;
  ds_emin : xq;
  ds_emax : xq
}.

Definition d_models_getitem (datasets : list DDataset) (source : string)
    : outcome DModel :=
  match list_find (λ m, dm_name m = source) (datasets ≫= dd_models) with
  | Some (_, m) => Ok m
  | None => Raise ValueError
  end.

Definition d_set_spatial_parameter (m : DModel) (name : string)
    (p : ParameterObj xq) : DModel :=
  {| dm_name := dm_name m;
     dm_spectral := dm_spectral m;
     dm_spatial :=
       match dm_spatial m with
       | Some ps =>
           Some ((λ q, if bool_decide (par_name q = name) then p else q)
                   <$> ps)
       | None => None
       end |}.

(** The parameters of a background model: a free norm, a frozen tilt. *)
Definition bkg_parameters : list (ParameterObj xq) :=
  [par "norm" 1 false; par "tilt" 0 true].

Definition d_model_parameters (with_spatial : bool)
    (m : EnergyDependenceEstimator.Model DModel) : list (ParameterObj xq) :=
  match m with
  | EnergyDependenceEstimator.Sky m =>
      dm_spectral m
      ++ (if with_spatial then default [] (dm_spatial m) else [])
  | EnergyDependenceEstimator.FoVBkg _ => bkg_parameters
  end.

Definition DSlice : Type :=
  EnergyDependenceEstimator.SlicedDataset DSliced DModel.

(** The parameters of a list of slices, the spatial parameters of the
    slices after the first being those of the first. *)
Definition d_datasets_parameters (slices : list DSlice)
    : list (ParameterObj xq) :=
  match slices with
  | [] => []
  | s0 :: rest =>
      (EnergyDependenceEstimator.models s0 ≫= d_model_parameters true)
      ++ (rest ≫= λ s,
            EnergyDependenceEstimator.models s ≫= d_model_parameters false)
  end.

Definition d_stat (s : DSlice) : xq :=
  xz (dd_stat (ds_parent (EnergyDependenceEstimator.sliced s))).

Definition d_fit_run_dataset (s : DSlice)
    : EnergyDependenceEstimator.FitResult xq * DSlice :=
  ({| EnergyDependenceEstimator.total_stat := d_stat s;
      EnergyDependenceEstimator.parameters :=
        EnergyDependenceEstimator.models s ≫= d_model_parameters true |},
   s).

(** The joint fit is worse than the sliced fits together, here by 3. *)
Definition d_fit_run_datasets (slices : list DSlice)
    : EnergyDependenceEstimator.FitResult xq * list DSlice :=
  ({| EnergyDependenceEstimator.total_stat :=
        nadd (np_sum (d_stat <$> slices)) (xz 3);
      EnergyDependenceEstimator.parameters := d_datasets_parameters slices |},
   slices).

#[export] Instance fit_api : EnergyDependenceEstimator.FitApi xq := {|
  EnergyDependenceEstimator.MapDataset := DDataset;
  EnergyDependenceEstimator.SkyModelObj := DModel;
  EnergyDependenceEstimator.Sliced := DSliced;
  EnergyDependenceEstimator.Fit := ();
  EnergyDependenceEstimator.Source := string;
  EnergyDependenceEstimator.set_mask_fit := λ d e,
    {| dd_name := dd_name d; dd_stat := dd_stat d;
       dd_models := dd_models d; dd_mask_fit := Some e |};
  EnergyDependenceEstimator.models_getitem := d_models_getitem;
  EnergyDependenceEstimator.slice_by_energy := λ d a b,
    {| ds_parent := d; ds_emin := a; ds_emax := b |};
  EnergyDependenceEstimator.sliced_name := λ s, dd_name (ds_parent s) +:+ "-slice";
  EnergyDependenceEstimator.model_copy := λ m, m;
  EnergyDependenceEstimator.spatial_parameters := λ m,
    match dm_spatial m with
    | Some ps => Ok ps
    | None => Raise AttributeError
    end;
  EnergyDependenceEstimator.set_spatial_parameter := d_set_spatial_parameter;
  EnergyDependenceEstimator.models_parameters := λ ms,
    ms ≫= d_model_parameters true;
  EnergyDependenceEstimator.datasets_parameters := d_datasets_parameters;
  EnergyDependenceEstimator.fit_run_dataset := λ _, d_fit_run_dataset;
  EnergyDependenceEstimator.fit_run_datasets := λ _, d_fit_run_datasets;
  EnergyDependenceEstimator.nested_test_run := λ _ _ _ s,
    {| EnergyDependenceEstimator.ts := d_stat s;
       EnergyDependenceEstimator.fit_results := (d_fit_run_dataset s).1 |};
  EnergyDependenceEstimator.ts_to_sigma := λ x df, ndiv x (xz df)
|}.

(** *** Concrete data *)

Definition source_model : DModel :=
  {| dm_name := "source";
     dm_spectral := [par "index" 2 false; par "amplitude" 1 false];
     dm_spatial :=
       Some [par "lon_0" 0 false; par "lat_0" 0 false; par "sigma" 1 false] |}.

Definition dataset_a : DDataset :=
  {| dd_name := "a"; dd_stat := 5; dd_models := [source_model];
     dd_mask_fit := None |}.

Definition dataset_b : DDataset :=
  {| dd_name := "b"; dd_stat := 7; dd_models := [source_model];
     dd_mask_fit := None |}.

(** One energy band, from 1 to 10. *)
Definition estimator : EnergyDependenceEstimator.t :=
  {| EnergyDependenceEstimator.energy_edges := [xz 1; xz 10];
     EnergyDependenceEstimator.source := "source";
     EnergyDependenceEstimator.fit := () |}.

Definition spectral_model_0 : BackgroundModel.SpectralModel :=
  {| BackgroundModel.norm := 0;
     BackgroundModel.tilt := 1;
     BackgroundModel.reference := 2 |}.

(** A spectral model whose [norm] is linked to that of [spectral_model_0]:
    it is the same [Parameter] object. *)
Definition spectral_model_1 : BackgroundModel.SpectralModel :=
  {| BackgroundModel.norm := 0;
     BackgroundModel.tilt := 3;
     BackgroundModel.reference := 4 |}.

Definition background_a : BackgroundModel.t xq (list xq) :=
  {| BackgroundModel.map :=
       {| BackgroundModel.geom := [xz 1; xz 2];
          BackgroundModel.data := [[xz 1; xz 2]; [xz 3; xz 4]] |};
     BackgroundModel.spectral_model := 0;
     BackgroundModel.name := "bkg-a" |}.

Definition background_b : BackgroundModel.t xq (list xq) :=
  {| BackgroundModel.map :=
       {| BackgroundModel.geom := [xz 1; xz 2];
          BackgroundModel.data := [[xz 10; xz 20]; [xz 30; xz 40]] |};
     BackgroundModel.spectral_model := 0;
     BackgroundModel.name := "bkg-b" |}.

Definition background_c : BackgroundModel.t xq (list xq) :=
  {| BackgroundModel.map :=
       {| BackgroundModel.geom := [xz 1; xz 2];
          BackgroundModel.data := [[xz 5; xz 6]; [xz 7; xz 8]] |};
     BackgroundModel.spectral_model := 1;
     BackgroundModel.name := "bkg-c" |}.

(** Two background models that share one spectral model, and a third
    whose spectral model shares the [norm] parameter with it. *)
Definition heap : BackgroundModel.Heap xq (list xq) :=
  {| BackgroundModel.parameters :=
       <[4 := par "reference" 1 true]>
         (<[3 := par "tilt" 2 true]>
            (<[2 := par "reference" 1 true]>
               (<[1 := par "tilt" 1 true]> {[ 0 := par "norm" 2 false ]})));
     BackgroundModel.spectral_models :=
       <[1 := spectral_model_1]> {[ 0 := spectral_model_0 ]};
     BackgroundModel.background_models :=
       <[2 := background_c]>
         (<[1 := background_b]> {[ 0 := background_a ]}) |}.

(** Three energy bins with edges 1, 2, 4, 8 and two pixels. *)
Definition geom : DGeom :=
  {| g_edges := [1; 2; 4; 8]%Q; g_pixels := [0; 1]%Q |}.

Definition exposure : DExposure :=
  {| x_nodes := [(xz 1, xz 50); (xz 2, xz 100); (xz 4, xz 100)];
     x_meta := {[ "livetime" := xz 10 ]} |}.

(** The predicted background is largest in the second and the third
    bin. *)
Definition dataset : SafeMaskMaker.Dataset :=
  {| SafeMaskMaker._geom := geom;
     SafeMaskMaker.exposure := Some exposure;
     SafeMaskMaker.background := Some (λ _ _, xz 1);
     SafeMaskMaker.edisp := None;
     SafeMaskMaker.stat_type := "cash";
     SafeMaskMaker.npred_background_spectrum := [xz 3; xz 7; xz 7];
     SafeMaskMaker.mask_safe := None |}.

Definition observation : SafeMaskMaker.Observation :=
  {| SafeMaskMaker.pointing_radec := xz 0;
     SafeMaskMaker.aeff_meta := {[ "LO_THRES" := xz 2 ]} |}.

Definition maker : SafeMaskMaker.t :=
  {| SafeMaskMaker.methods := {[ "aeff-default"; "bkg-peak" ]};
     SafeMaskMaker.aeff_percent := xz 10;
     SafeMaskMaker.bias_percent := xz 10;
     SafeMaskMaker.position := None;
     SafeMaskMaker.fixed_offset := None;
     SafeMaskMaker.offset_max := xz 3 |}.

Definition maker_fixed_offset : SafeMaskMaker.t :=
  {| SafeMaskMaker.methods := list_to_set ["aeff-max"];
     SafeMaskMaker.aeff_percent := xz 10;
     SafeMaskMaker.bias_percent := xz 10;
     SafeMaskMaker.position := None;
     SafeMaskMaker.fixed_offset := Some (xz 1);
     SafeMaskMaker.offset_max := xz 3 |}.

(** A data set whose exposure vanishes at every energy node. *)
Definition exposure_zero : DExposure :=
  {| x_nodes := [(xz 1, xz 0); (xz 2, xz 0)];
     x_meta := {[ "livetime" := xz 10 ]} |}.

Definition dataset_zero_exposure : SafeMaskMaker.Dataset :=
  {| SafeMaskMaker._geom := geom;
     SafeMaskMaker.exposure := Some exposure_zero;
     SafeMaskMaker.background := None;
     SafeMaskMaker.edisp := None;
     SafeMaskMaker.stat_type := "cash";
     SafeMaskMaker.npred_background_spectrum := [];
     SafeMaskMaker.mask_safe := None |}.

(** [maker] with "aeff-max" selected as well. *)
Definition maker_three_methods : SafeMaskMaker.t :=
  {| SafeMaskMaker.methods := {[ "aeff-default"; "bkg-peak"; "aeff-max" ]};
     SafeMaskMaker.aeff_percent := xz 10;
     SafeMaskMaker.bias_percent := xz 10;
     SafeMaskMaker.position := None;
     SafeMaskMaker.fixed_offset := None;
     SafeMaskMaker.offset_max := xz 3 |}.

(** Estimators without an energy band. *)
Definition estimator_no_edge : EnergyDependenceEstimator.t :=
  {| EnergyDependenceEstimator.energy_edges := [];
     EnergyDependenceEstimator.source := "source";
     EnergyDependenceEstimator.fit := () |}.

Definition estimator_one_edge : EnergyDependenceEstimator.t :=
  {| EnergyDependenceEstimator.energy_edges := [xz 1];
     EnergyDependenceEstimator.source := "source";
     EnergyDependenceEstimator.fit := () |}.
End Demo.

(** ** energydependence.py: the table of fitted values and
       [weighted_chi2_parameter] *)

Module WeightedChi2.

(** [np.average(values, weights=weights)] *)
Class NumpyApi (num : Type) : Type := {
  np_average : list num → list num → outcome num
}.

Section WeightedChi2.
Context {num : Type} `{!Arith num} `{!EnergyDependenceEstimator.FitApi num}.
Context `{!NumpyApi num}.
Import EnergyDependenceEstimator.
Local Abbreviation Column := (@EnergyDependenceEstimator.Column num).

Definition column_length (c : Column) : nat :=
  match c with
  | Strings l => length l
  | Values l => length l
  | Quantities l _ => length l
  end.

(** The body of the last loop of [build_result]: the two columns of the
    parameter of index [i]. *)
Definition add_parameter_columns (parameters : list string)
    (joint_values joint_errors : list num) (units : list string)
    (per_band : list (list num * list num))
    (result : gmap string Column) (i : nat) : outcome (gmap string Column) :=
  name ← getitem parameters i;
  joint_value ← getitem joint_values i;
  joint_error ← getitem joint_errors i;
  u ← getitem units i;
  row_values ← mapM (λ ve : list num * list num, getitem ve.1 i) per_band;
  row_errors ← mapM (λ ve : list num * list num, getitem ve.2 i) per_band;
  let result := <[name := Quantities (joint_value :: row_values) u]> result in
  Ok (<[name +:+ "_err" := Quantities (joint_error :: row_errors) u]> result).

(** [Table(data)]: the columns of a table have one length. *)
Definition Table (data : gmap string Column) : outcome (gmap string Column) :=
  match map_to_list data with
  | [] => Ok data
  | (_, c) :: rest =>
      if forallb (λ kc : string * Column,
                    Nat.eqb (column_length kc.2) (column_length c)) rest
      then Ok data
      else Raise ValueError
  end.

(** [column[1:]] as numbers; arithmetic on a column of strings is a type
    error. *)
Definition column_tail (c : Column) : outcome (list num) :=
  match c with
  | Strings _ => Raise TypeError
  | Values l => Ok (drop 1 l)
  | Quantities l _ => Ok (drop 1 l)
  end.

(** A value of the dictionary that [weighted_chi2_parameter] returns. *)
Inductive Entry : Type :=
| Floats (l : list num)
| Ints (l : list Z).

Definition weighted_chi2_parameter (results_edep : gmap string Column)
    (parameter : string) : outcome (gmap string Entry) :=
  table_edep ← Table results_edep;
  values ← SafeMaskMaker.dict_getitem table_edep parameter;
  errors ← SafeMaskMaker.dict_getitem table_edep (parameter +:+ "_err");
  values ← column_tail values;
  errors ← column_tail errors;
  let weights := (λ e, ndiv (of_Z 1) (nmul e e)) <$> errors in
  avg ← np_average values weights;
  let chi2_value :=
    np_sum (zip_with (λ v e, ndiv (nmul (nsub v avg) (nsub v avg))
                               (nmul e e)) values errors) in
  let df := (Z.of_nat (length values) - 1)%Z in
  let sigma_value := ts_to_sigma chi2_value df in
  let chi2_result : gmap string Entry := ∅ in
  let chi2_result :=
    <["chi2 " +:+ parameter := Floats [chi2_value]]> chi2_result in
  let chi2_result := <["df" := Ints [df]]> chi2_result in
  let chi2_result :=
    <["significance" := Floats [sigma_value]]> chi2_result in
  Ok chi2_result.
End WeightedChi2.
End WeightedChi2.

Module DemoStats.
Import Demo.

(** The weighted mean. *)
#[export] Instance numpy_api : WeightedChi2.NumpyApi xq := {|
  WeightedChi2.np_average := λ values weights,
    Ok (ndiv (np_sum (zip_with nmul values weights)) (np_sum weights))
|}.

Definition par_with_error (name : string) (v e : Z) : ParameterObj xq :=
  {| par_name := name; value := xz v; error := xz e; unit := "deg";
     frozen := false |}.

Definition gaussian_source : DModel :=
  {| dm_name := "source";
     dm_spectral := [par "index" 2 false];
     dm_spatial := Some [par_with_error "sigma" 3 1] |}.

Definition dataset_c : DDataset :=
  {| dd_name := "c"; dd_stat := 4; dd_models := [gaussian_source];
     dd_mask_fit := None |}.

(** Two energy bands: 1 to 10 and 10 to 100. *)
Definition estimator_two_bands : EnergyDependenceEstimator.t :=
  {| EnergyDependenceEstimator.energy_edges := [xz 1; xz 10; xz 100];
     EnergyDependenceEstimator.source := "source";
     EnergyDependenceEstimator.fit := () |}.

(** The fit results of the two slices of [dataset_c], and a joint fit. *)
Definition slices_two_bands : list DSlice :=
  EnergyDependenceEstimator.all_slices estimator_two_bands
    [EnergyDependenceEstimator.set_mask_fit dataset_c (xz 1)]
    gaussian_source.

Definition results_two_bands : list (EnergyDependenceEstimator.FitResult xq) :=
  (EnergyDependenceEstimator.fit_slices estimator_two_bands
     slices_two_bands).1.

Definition joint_two_bands : EnergyDependenceEstimator.FitResult xq :=
  (d_fit_run_datasets slices_two_bands).1.

(** The table of the two bands. *)
Definition table_of_two_bands
    : gmap string (@EnergyDependenceEstimator.Column xq) :=
  match EnergyDependenceEstimator.build_result estimator_two_bands ["sigma"]
          joint_two_bands results_two_bands with
  | Ok table => table
  | Raise _ => ∅
  end.

(** Fit results for two energy bands and two data sets, in the order of
    the slices: the first band of the first and of the second data set,
    then the second band of the first and of the second data set. *)
Definition fit_result_sigma (v : Z)
    : EnergyDependenceEstimator.FitResult xq :=
  {| EnergyDependenceEstimator.total_stat := xz 0;
     EnergyDependenceEstimator.parameters := [par_with_error "sigma" v 1] |}.

Definition results_two_datasets
    : list (EnergyDependenceEstimator.FitResult xq) :=
  [fit_result_sigma 11; fit_result_sigma 12;
   fit_result_sigma 21; fit_result_sigma 22].

Definition table_of_two_datasets
    : gmap string (@EnergyDependenceEstimator.Column xq) :=
  match EnergyDependenceEstimator.build_result estimator_two_bands ["sigma"]
          (fit_result_sigma 15) results_two_datasets with
  | Ok table => table
  | Raise _ => ∅
  end.
End DemoStats.

(** ** cube.py: [to_dict] and [from_dict] *)

Module ModelDict.

(** The calls into [spectral.py], [spatial.py], [temporal.py],
    [gammapy.maps] and [gammapy.utils], with the classes of their
    arguments.  The dictionary of a component model is built and read by
    the component. *)
Class ModelsApi : Type := {
  SpectralModel : Type;
  SpatialModel : Type;
  TemporalModel : Type;
  SpectralDict : Type;
  SpatialDict : Type;
  TemporalDict : Type;
  MapT : Type;
  (** [model.to_dict(full_output)] and, through the registry,
      [model_class.from_dict(data)] *)
  spectral_to_dict : SpectralModel → bool → SpectralDict;
  spectral_from_dict : SpectralDict → outcome SpectralModel;
  spatial_to_dict : SpatialModel → bool → SpatialDict;
  spatial_from_dict : SpatialDict → outcome SpatialModel;
  temporal_to_dict : TemporalModel → bool → TemporalDict;
  temporal_from_dict : TemporalDict → outcome TemporalModel;
  (** [PowerLawNormSpectralModel()] and [model.tilt.frozen = True] *)
  PowerLawNormSpectralModel : SpectralModel;
  freeze_tilt : SpectralModel → SpectralModel;
  (** [make_name(name)]: the name, or a new one for None *)
  make_name : option string → string;
  (** the test of [SkyModel._check_unit] on the evaluated model *)
  unit_is_equivalent :
    SpectralModel → option SpatialModel → option TemporalModel → bool;
  (** [Map.read(filename)], the one-bin map made when there is no file,
      and [map.geom.axes["energy"].node_type] *)
  map_read : string → outcome MapT;
  placeholder_map : MapT;
  node_type : MapT → string
}.

Section ModelDict.
Context `{!ModelsApi}.

(** The values found in the dictionaries of the three model classes.
    An entry of another class than the one the code expects is outside
    this model: reading it is reported as a [TypeError]. *)
Inductive Value : Type :=
| VNone
| VStr (s : string)
| VNames (l : list string)
| VSpectral (d : SpectralDict)
| VSpatial (d : SpatialDict)
| VTemporal (d : TemporalDict)
| VApplyIrf (d : gmap string bool)
| VMap (m : MapT).

(** [data.get(key)] *)
Definition get (data : gmap string Value) (key : string) : Value :=
  default VNone (data !! key).

Definition as_name (v : Value) : outcome (option string) :=
  match v with
  | VNone => Ok None
  | VStr s => Ok (Some s)
  | _ => Raise TypeError
  end.

Definition as_names (v : Value) : outcome (option (list string)) :=
  match v with
  | VNone => Ok None
  | VNames l => Ok (Some l)
  | _ => Raise TypeError
  end.

(** The optional spectral model of the two background classes:
    [spectral_data = data.get("spectral")], decoded when it is not
    None. *)
Definition decode_optional_spectral (data : gmap string Value)
    : outcome (option SpectralModel) :=
  match get data "spectral" with
  | VNone => Ok None
  | VSpectral d => m ← spectral_from_dict d; Ok (Some m)
  | _ => Raise TypeError
  end.
End ModelDict.
End ModelDict.

Module FoVBackground.
Section FoVBackground.
Context `{!ModelDict.ModelsApi}.
Import ModelDict.

Record t : Type := {
  spectral_model : SpectralModel;
  datasets_names : list string
}.

Definition tag : string := "FoVBackgroundModel".

Definition init (spectral_model : option SpectralModel)
    (dataset_name : option string) : outcome t :=
  match dataset_name with
  | None => Raise ValueError
  | Some dataset_name =>
      let spectral_model :=
        match spectral_model with
        | None => PowerLawNormSpectralModel
        | Some m => m
        end in
      Ok {| spectral_model := spectral_model;
            datasets_names := [dataset_name] |}
  end.

(** [self.datasets_names[0] + "-bkg"] *)
Definition name (self : t) : outcome string :=
  n ← getitem (datasets_names self) 0;
  Ok (n +:+ "-bkg").

Definition to_dict (self : t) (full_output : bool) : gmap string Value :=
  let data : gmap string Value := ∅ in
  let data := <["type" := VStr tag]> data in
  let data :=
    <["spectral" := VSpectral (spectral_to_dict (spectral_model self)
                                 full_output)]> data in
  <["datasets_names" := VNames (datasets_names self)]> data.

Definition from_dict (data : gmap string Value) : outcome t :=
  spectral_model ← decode_optional_spectral data;
  datasets_names ← as_names (get data "datasets_names");
  match datasets_names with
  | None => Raise ValueError
  | Some datasets_names =>
      if Nat.ltb 1 (length datasets_names) then Raise ValueError
      else
        match datasets_names !! 0 with
        | None => Raise IndexError
        | Some n => init spectral_model (Some n)
        end
  end.
End FoVBackground.
End FoVBackground.

Module BackgroundDict.
Section BackgroundDict.
Context `{!ModelDict.ModelsApi}.
Import ModelDict.

(** The [map] argument: a [Map], or an object of another class. *)
Inductive MapArg : Type :=
| IsMap (m : MapT)
| NotMap.

Record t : Type := {
  map : MapArg;
  spectral_model : SpectralModel;
  name : string;
  filename : option string;
  datasets_names : option (list string)
}.

Definition tag : string := "BackgroundModel".

Definition init (map : MapArg) (spectral_model : option SpectralModel)
    (name : option string) (filename : option string)
    (datasets_names : option (list string)) : outcome t :=
  _ ← match map with
      | IsMap m =>
          if bool_decide (node_type m ≠ "edges") then Raise ValueError
          else Ok ()
      | NotMap => Ok ()
      end;
  let name := make_name name in
  let spectral_model :=
    match spectral_model with
    | None => freeze_tilt PowerLawNormSpectralModel
    | Some m => m
    end in
  _ ← match datasets_names with
      | Some l => if bool_decide (length l ≠ 1) then Raise ValueError
                  else Ok ()
      | None => Ok ()
      end;
  Ok {| map := map; spectral_model := spectral_model; name := name;
        filename := filename; datasets_names := datasets_names |}.

Definition to_dict (self : t) (full_output : bool) : gmap string Value :=
  let data : gmap string Value := ∅ in
  let data := <["name" := VStr (name self)]> data in
  let data := <["type" := VStr tag]> data in
  let data :=
    <["spectral" := VSpectral (spectral_to_dict (spectral_model self)
                                 full_output)]> data in
  let data :=
    match filename self with
    | Some f => <["filename" := VStr f]> data
    | None => data
    end in
  match datasets_names self with
  | Some l => <["datasets_names" := VNames l]> data
  | None => data
  end.

Definition from_dict (data : gmap string Value) : outcome t :=
  spectral_model ← decode_optional_spectral data;
  bkg_map ←
    match data !! "filename" with
    | Some v =>
        f ← as_name v;
        match f with
        | Some f => m ← map_read f; Ok (IsMap m)
        | None => Raise TypeError
        end
    | None =>
        match data !! "map" with
        | Some (VMap m) => Ok (IsMap m)
        | Some _ => Ok NotMap
        | None => Ok (IsMap placeholder_map)
        end
    end;
  name ← SafeMaskMaker.dict_getitem data "name";
  name ← as_name name;
  datasets_names ← as_names (get data "datasets_names");
  filename ← as_name (get data "filename");
  init bkg_map spectral_model name filename datasets_names.
End BackgroundDict.
End BackgroundDict.

Module SkyModelDict.
Section SkyModelDict.
Context `{!ModelDict.ModelsApi}.
Import ModelDict.

Record t : Type := {
  spectral_model : SpectralModel;
  spatial_model : option SpatialModel;
  temporal_model : option TemporalModel;
  name : string;
  apply_irf : gmap string bool;
  datasets_names : option (list string)
}.

Definition tag : string := "SkyModel".

Definition _apply_irf_default : gmap string bool :=
  <["edisp" := true]> (<["psf" := true]> (<["exposure" := true]> ∅)).

Definition init (spectral_model : SpectralModel)
    (spatial_model : option SpatialModel)
    (temporal_model : option TemporalModel) (name : option string)
    (apply_irf : option (gmap string bool))
    (datasets_names : option (list string)) : outcome t :=
  let name := make_name name in
  let apply_irf := default _apply_irf_default apply_irf in
  if negb (unit_is_equivalent spectral_model spatial_model temporal_model)
  then Raise ValueError
  else
    Ok {| spectral_model := spectral_model;
          spatial_model := spatial_model;
          temporal_model := temporal_model;
          name := name;
          apply_irf := apply_irf;
          datasets_names := datasets_names |}.

Definition to_dict (self : t) (full_output : bool) : gmap string Value :=
  let data : gmap string Value := ∅ in
  let data := <["name" := VStr (name self)]> data in
  let data := <["type" := VStr tag]> data in
  let data :=
    <["spectral" := VSpectral (spectral_to_dict (spectral_model self)
                                 full_output)]> data in
  let data :=
    match spatial_model self with
    | Some m => <["spatial" := VSpatial (spatial_to_dict m full_output)]> data
    | None => data
    end in
  let data :=
    match temporal_model self with
    | Some m =>
        <["temporal" := VTemporal (temporal_to_dict m full_output)]> data
    | None => data
    end in
  let data :=
    if bool_decide (apply_irf self ≠ _apply_irf_default)
    then <["apply_irf" := VApplyIrf (apply_irf self)]> data
    else data in
  match datasets_names self with
  | Some l => <["datasets_names" := VNames l]> data
  | None => data
  end.

Definition from_dict (data : gmap string Value) : outcome t :=
  spectral ← SafeMaskMaker.dict_getitem data "spectral";
  spectral_model ←
    match spectral with
    | VSpectral d => spectral_from_dict d
    | _ => Raise TypeError
    end;
  spatial_model ←
    match get data "spatial" with
    | VNone => Ok None
    | VSpatial d => m ← spatial_from_dict d; Ok (Some m)
    | _ => Raise TypeError
    end;
  temporal_model ←
    match get data "temporal" with
    | VNone => Ok None
    | VTemporal d => m ← temporal_from_dict d; Ok (Some m)
    | _ => Raise TypeError
    end;
  name ← SafeMaskMaker.dict_getitem data "name";
  name ← as_name name;
  apply_irf ←
    match data !! "apply_irf" with
    | None => Ok (Some _apply_irf_default)
    | Some VNone => Ok None
    | Some (VApplyIrf d) => Ok (Some d)
    | Some _ => Raise TypeError
    end;
  datasets_names ← as_names (get data "datasets_names");
  init spectral_model spatial_model temporal_model name apply_irf
    datasets_names.
End SkyModelDict.
End SkyModelDict.

Module DemoModels.

Definition registry : list string :=
  ["PowerLawSpectralModel"; "PowerLawNormSpectralModel";
   "GaussianSpatialModel"; "ConstantTemporalModel"].

(** A component model is given by the name of its class, which is also
    its dictionary; a class that is not registered cannot be read. *)
Definition from_registry (d : string) : outcome string :=
  if bool_decide (d ∈ registry) then Ok d else Raise KeyError.

#[export] Instance models_api : ModelDict.ModelsApi := {|
  ModelDict.SpectralModel := string;
  ModelDict.SpatialModel := string;
  ModelDict.TemporalModel := string;
  ModelDict.SpectralDict := string;
  ModelDict.SpatialDict := string;
  ModelDict.TemporalDict := string;
  ModelDict.MapT := list Z;
  ModelDict.spectral_to_dict := λ m _, m;
  ModelDict.spectral_from_dict := from_registry;
  ModelDict.spatial_to_dict := λ m _, m;
  ModelDict.spatial_from_dict := from_registry;
  ModelDict.temporal_to_dict := λ m _, m;
  ModelDict.temporal_from_dict := from_registry;
  ModelDict.PowerLawNormSpectralModel := "PowerLawNormSpectralModel";
  ModelDict.freeze_tilt := λ m, m;
  ModelDict.make_name := λ name, default "5f2c9a1e" name;
  ModelDict.unit_is_equivalent := λ _ _ _, true;
  ModelDict.map_read := λ _, Raise KeyError;
  ModelDict.placeholder_map := [0%Z];
  ModelDict.node_type := λ _, "edges"
|}.

Definition fov_background : FoVBackground.t :=
  {| FoVBackground.spectral_model := "PowerLawNormSpectralModel";
     FoVBackground.datasets_names := ["dataset-1"] |}.

(** A background model whose map has three values and no file. *)
Definition background : BackgroundDict.t :=
  {| BackgroundDict.map := BackgroundDict.IsMap [1%Z; 2%Z; 3%Z];
     BackgroundDict.spectral_model := "PowerLawNormSpectralModel";
     BackgroundDict.name := "bkg";
     BackgroundDict.filename := None;
     BackgroundDict.datasets_names := Some ["dataset-1"] |}.

Definition sky_model : SkyModelDict.t :=
  {| SkyModelDict.spectral_model := "PowerLawSpectralModel";
     SkyModelDict.spatial_model := Some "GaussianSpatialModel";
     SkyModelDict.temporal_model := None;
     SkyModelDict.name := "source";
     SkyModelDict.apply_irf :=
       <["psf" := false]> SkyModelDict._apply_irf_default;
     SkyModelDict.datasets_names := Some ["dataset-1"] |}.
End DemoModels.

(** * Properties *)

(** ** [SkyModel.evaluate] *)

Section SkyModel_properties.
Context {num : Type} `{!Arith num} {Coord Energy Time : Type}.
Implicit Types self : SkyModel.t num Coord Energy Time.

Lemma factorised_product_cases self (lon lat : Coord) (energy : Energy)
    (time : option Time) :
  SkyModel.factorised_product self lon lat energy time =
    let spectral :=
      SkyModel.spectral_call (SkyModel.spectral_model self) energy in
    match SkyModel.spatial_factor self lon lat energy,
          SkyModel.temporal_factor self time with
    | Some spatial, Some temporal => nmul (nmul spectral spatial) temporal
    | Some spatial, None => nmul spectral spatial
    | None, Some temporal => nmul spectral temporal
    | None, None => spectral
    end.
Proof.
  unfold SkyModel.factorised_product.
  destruct (SkyModel.spatial_factor self lon lat energy),
    (SkyModel.temporal_factor self time); reflexivity.
Qed.

Lemma temporal_factor_None self (time : option Time) :
  SkyModel.temporal_factor self time = None ↔
  SkyModel.temporal_model self = None ∨ time = None.
Proof.
  unfold SkyModel.temporal_factor.
  destruct (SkyModel.temporal_model self), time; simpl; split;
    intros; try done; try (by left); try (by right).
  destruct H as [?|?]; done.
Qed.

(** C6.  [SkyModel.evaluate] is the factorised product: the spectral
    model at the energy, times the spatial model at (lon, lat) — at
    (lon, lat, energy) when it is energy dependent — if a spatial model is
    set, times the temporal model at the time if a temporal model is set
    and the time is not None; a factor that is not present is omitted. *)
Theorem evaluate_is_factorised_product self (lon lat : Coord)
    (energy : Energy) (time : option Time) :
  SkyModel.evaluate self lon lat energy time =
    SkyModel.factorised_product self lon lat energy time
  ∧ (SkyModel.spatial_factor self lon lat energy =
       (λ sm, SkyModel.spatial_call sm lon lat
                (if SkyModel.is_energy_dependent sm
                 then Some energy else None))
         <$> SkyModel.spatial_model self)
  ∧ (SkyModel.temporal_factor self time =
       match SkyModel.temporal_model self, time with
       | Some tm, Some tv => Some (SkyModel.temporal_call tm tv)
       | _, _ => None
       end).
Proof.
  split; [|split].
  - rewrite factorised_product_cases.
    unfold SkyModel.evaluate, SkyModel.spatial_factor,
      SkyModel.temporal_factor.
    destruct (SkyModel.spatial_model self) as [sm|],
      (SkyModel.temporal_model self) as [tm|], time as [tv|]; simpl;
      try reflexivity;
      destruct (SkyModel.is_energy_dependent sm); reflexivity.
  - unfold SkyModel.spatial_factor.
    destruct (SkyModel.spatial_model self); reflexivity.
  - unfold SkyModel.temporal_factor.
    destruct (SkyModel.temporal_model self), time; reflexivity.
Qed.
End SkyModel_properties.

(** ** [BackgroundModel.stack] *)

Section BackgroundModel_properties.
Context {num : Type} `{!Arith num}.
Context {Geom Weights : Type} `{!BackgroundModel.MapApi num Geom Weights}.
Implicit Types h : BackgroundModel.Heap num Geom.

Lemma spectral_call_allocated h (sm : BackgroundModel.SpectralModel)
    (norm_par tilt_par reference_par : ParameterObj num) (energy : list num) :
  BackgroundModel.parameters h !! BackgroundModel.norm sm = Some norm_par →
  BackgroundModel.parameters h !! BackgroundModel.tilt sm = Some tilt_par →
  BackgroundModel.parameters h !! BackgroundModel.reference sm
    = Some reference_par →
  BackgroundModel.spectral_call h sm energy
    = Some (BackgroundModel.spectral_evaluate norm_par tilt_par reference_par
              <$> energy).
Proof.
  intros Hn Ht Hr. unfold BackgroundModel.spectral_call.
  by rewrite Hn, Ht, Hr.
Qed.

(** The evaluated map, pixel by pixel: the plane of every energy bin
    times the spectral model at the centre of the bin. *)
Lemma evaluate_allocated h (m : BackgroundModel.t num Geom)
    (sm : BackgroundModel.SpectralModel)
    (norm_par tilt_par reference_par : ParameterObj num) :
  BackgroundModel.spectral_models h !! BackgroundModel.spectral_model m
    = Some sm →
  BackgroundModel.parameters h !! BackgroundModel.norm sm = Some norm_par →
  BackgroundModel.parameters h !! BackgroundModel.tilt sm = Some tilt_par →
  BackgroundModel.parameters h !! BackgroundModel.reference sm
    = Some reference_par →
  BackgroundModel.evaluate h m =
    Some {| BackgroundModel.geom :=
              BackgroundModel.geom (BackgroundModel.map m);
            BackgroundModel.data :=
              zip_with
                (λ plane e,
                   (λ x, nmul x (BackgroundModel.spectral_evaluate
                                   norm_par tilt_par reference_par e))
                     <$> plane)
                (BackgroundModel.data (BackgroundModel.map m))
                (BackgroundModel.energy_axis_center
                   (BackgroundModel.geom (BackgroundModel.map m))) |}.
Proof.
  intros Hsm Hn Ht Hr. unfold BackgroundModel.evaluate.
  rewrite Hsm. simpl.
  rewrite (spectral_call_allocated _ _ _ _ _ _ Hn Ht Hr). simpl.
  unfold BackgroundModel.scaled. f_equal. f_equal.
  apply zip_with_fmap_r.
Qed.

(** C10.  For two background models of the store — which may be one
    object, share their spectral model or share [Parameter] objects —
    [self.stack(other)] returns, and afterwards the [norm] parameter of the
    spectral model of [self] has the value 1 and its [tilt] parameter the
    value 0, and the map of [self] is the map obtained by stacking the
    evaluated map of [other] on the evaluated map of [self].  Both are
    evaluated before the reset: every pixel of the plane of an energy bin
    is multiplied by the model's spectral model, at its values of [norm],
    [tilt] and [reference] before the call, at the centre of the bin.
    [norm] and [tilt] are two [Parameter] objects of the spectral
    model. *)
Theorem stack_resets_and_stacks h (self other : BackgroundModel.loc)
    (weights : option Weights)
    (self_obj other_obj : BackgroundModel.t num Geom)
    (self_sm other_sm : BackgroundModel.SpectralModel)
    (self_norm self_tilt self_reference : ParameterObj num)
    (other_norm other_tilt other_reference : ParameterObj num) :
  BackgroundModel.background_models h !! self = Some self_obj →
  BackgroundModel.background_models h !! other = Some other_obj →
  BackgroundModel.spectral_models h
    !! BackgroundModel.spectral_model self_obj = Some self_sm →
  BackgroundModel.spectral_models h
    !! BackgroundModel.spectral_model other_obj = Some other_sm →
  BackgroundModel.parameters h !! BackgroundModel.norm self_sm
    = Some self_norm →
  BackgroundModel.parameters h !! BackgroundModel.tilt self_sm
    = Some self_tilt →
  BackgroundModel.parameters h !! BackgroundModel.reference self_sm
    = Some self_reference →
  BackgroundModel.parameters h !! BackgroundModel.norm other_sm
    = Some other_norm →
  BackgroundModel.parameters h !! BackgroundModel.tilt other_sm
    = Some other_tilt →
  BackgroundModel.parameters h !! BackgroundModel.reference other_sm
    = Some other_reference →
  BackgroundModel.norm self_sm ≠ BackgroundModel.tilt self_sm →
  ∃ h' self_obj' norm' tilt',
    BackgroundModel.stack h self other weights = Some h'
    ∧ BackgroundModel.background_models h' !! self = Some self_obj'
    ∧ BackgroundModel.spectral_models h'
        !! BackgroundModel.spectral_model self_obj' = Some self_sm
    ∧ BackgroundModel.parameters h' !! BackgroundModel.norm self_sm
        = Some norm'
    ∧ BackgroundModel.parameters h' !! BackgroundModel.tilt self_sm
        = Some tilt'
    ∧ value norm' = of_Z 1
    ∧ value tilt' = of_Z 0
    ∧ BackgroundModel.map self_obj' =
        BackgroundModel.map_stack
          {| BackgroundModel.geom :=
               BackgroundModel.geom (BackgroundModel.map self_obj);
             BackgroundModel.data :=
               zip_with
                 (λ plane e,
                    (λ x, nmul x (BackgroundModel.spectral_evaluate
                                    self_norm self_tilt self_reference e))
                      <$> plane)
                 (BackgroundModel.data (BackgroundModel.map self_obj))
                 (BackgroundModel.energy_axis_center
                    (BackgroundModel.geom (BackgroundModel.map self_obj))) |}
          {| BackgroundModel.geom :=
               BackgroundModel.geom (BackgroundModel.map other_obj);
             BackgroundModel.data :=
               zip_with
                 (λ plane e,
                    (λ x, nmul x (BackgroundModel.spectral_evaluate
                                    other_norm other_tilt other_reference e))
                      <$> plane)
                 (BackgroundModel.data (BackgroundModel.map other_obj))
                 (BackgroundModel.energy_axis_center
                    (BackgroundModel.geom (BackgroundModel.map other_obj))) |}
          weights.
Proof.
  intros Hself Hother Hsm Hosm Hn Ht Hr Hon Hot Hor Hne.
  unfold BackgroundModel.stack.
  rewrite Hself, Hother. simpl.
  rewrite (evaluate_allocated _ _ _ _ _ _ Hsm Hn Ht Hr).
  rewrite (evaluate_allocated _ _ _ _ _ _ Hosm Hon Hot Hor).
  simpl. rewrite Hsm. simpl.
  unfold BackgroundModel.assign_value at 2. simpl. rewrite Hn. simpl.
  rewrite Hsm. simpl.
  unfold BackgroundModel.assign_value. simpl.
  rewrite lookup_insert_ne by done. rewrite Ht. simpl.
  eexists _, _, _, _. split; [reflexivity|]. simpl.
  split; [apply lookup_insert_eq|]. simpl.
  split; [exact Hsm|].
  split; [rewrite lookup_insert_ne by done; apply lookup_insert_eq|].
  split; [apply lookup_insert_eq|].
  repeat split; reflexivity.
Qed.
End BackgroundModel_properties.

(** ** [np.argmax] *)

Section argmax_properties.
Context {num : Type} `{!Arith num} `{!ArithOrder num}.

Lemma nleb_refl (x : num) : nisnan x = false → nleb x x = true.
Proof. intros Hx. by destruct (nleb_total x x Hx Hx). Qed.

Lemma argmax_from_first_max (l pre : list num) (best_i : nat) (best : num) :
  Forall (λ x, nisnan x = false) (pre ++ l) →
  is_first_max pre best_i best →
  ∃ v, is_first_max (pre ++ l)
         (argmax_from best_i best (length pre) l) v.
Proof.
  revert pre best_i best.
  induction l as [|x l IH]; intros pre best_i best Hnan Hfm.
  - simpl. rewrite app_nil_r. eauto.
  - destruct Hfm as (Hbest & Hmax & Hfirst).
    assert (nisnan best = false) as Hbn.
    { rewrite Forall_forall in Hnan. apply Hnan.
      apply elem_of_app. left. by eapply list_elem_of_lookup_2. }
    assert (nisnan x = false) as Hxn.
    { rewrite Forall_forall in Hnan. apply Hnan.
      apply elem_of_app. right. by left. }
    simpl. rewrite Hbn.
    replace (pre ++ x :: l) with ((pre ++ [x]) ++ l) in *
      by (by rewrite <- app_assoc).
    replace (S (length pre)) with (length (pre ++ [x]))
      by (rewrite length_app; simpl; lia).
    destruct (nleb x best) eqn:Hx; simpl; apply IH; try done.
    + split; [|split].
      * by apply lookup_app_l_Some.
      * intros j w Hj. apply lookup_app_Some in Hj as [Hj|[_ Hj]].
        -- by apply (Hmax j).
        -- apply list_lookup_singleton_Some in Hj as [_ <-]. done.
      * intros j w Hlt Hj. apply (Hfirst j w Hlt).
        apply lookup_lt_Some in Hbest.
        rewrite lookup_app_l in Hj by lia. done.
    + assert (nleb best x = true) as Hbx.
      { destruct (nleb_total best x Hbn Hxn) as [?|Hc]; [done|congruence]. }
      split; [|split].
      * by apply list_lookup_middle.
      * intros j w Hj. apply lookup_app_Some in Hj as [Hj|[_ Hj]].
        -- apply (nleb_trans w best x); [by apply (Hmax j)|done].
        -- apply list_lookup_singleton_Some in Hj as [_ <-].
           by apply nleb_refl.
      * intros j w Hlt Hj. rewrite lookup_app_l in Hj by done.
        destruct (nleb x w) eqn:Hxw; [|done].
        rewrite (nleb_trans x w best Hxw (Hmax j w Hj)) in Hx. done.
Qed.

Lemma np_argmax_first_max (l : list num) :
  l ≠ [] →
  Forall (λ x, nisnan x = false) l →
  ∃ idx v, np_argmax l = Ok idx ∧ is_first_max l idx v.
Proof.
  destruct l as [|x l]; [done|]. intros _ Hnan.
  destruct (argmax_from_first_max l [x] 0 x Hnan) as [v Hv].
  { split; [done|]. split.
    - intros [|j] w Hj; [|done]. injection Hj as <-.
      apply nleb_refl. by apply Forall_cons_1 in Hnan as [? _].
    - intros j w Hlt. lia. }
  exists (argmax_from 0 x 1 l), v. done.
Qed.
End argmax_properties.

(** ** [SafeMaskMaker] *)

Section SafeMaskMaker_properties.
Context {num : Type} `{!Arith num} `{!SafeMaskMaker.MapsApi num}.
Import SafeMaskMaker.

Lemma bind_Ok {A B : Type} (a : A) (f : A → outcome B) :
  (Ok a ≫= f) = f a.
Proof. reflexivity. Qed.

Lemma bind_Raise {A B : Type} (e : exn) (f : A → outcome B) :
  (Raise e ≫= f) = Raise e.
Proof. reflexivity. Qed.

(** *** Construction *)

(** C8, as amended.  [__init__] raises [ValueError] exactly when the
    methods are not a subset of the available ones, or [Angle(offset_max)]
    raises [ValueError], or — the conversion having succeeded — both
    [position] and [fixed_offset] are set.  When the methods are
    available, the conversion succeeds and [position] and [fixed_offset]
    are not both set, the maker is constructed. *)
Theorem init_raises_ValueError_iff (methods : list string)
    (aeff_percent bias_percent : num) (position : option SkyCoord)
    (fixed_offset : option num) (offset_max : AngleArg) :
  (init methods aeff_percent bias_percent position fixed_offset offset_max
     = Raise ValueError
   ↔ ¬ (list_to_set methods ⊆ available_methods)
     ∨ Angle offset_max = Raise ValueError
     ∨ (is_Some position ∧ is_Some fixed_offset
        ∧ ∃ a, Angle offset_max = Ok a))
  ∧ (∀ a,
       list_to_set methods ⊆ available_methods →
       Angle offset_max = Ok a →
       ¬ (is_Some position ∧ is_Some fixed_offset) →
       init methods aeff_percent bias_percent position fixed_offset offset_max
         = Ok {| SafeMaskMaker.methods := list_to_set methods;
                 SafeMaskMaker.aeff_percent := aeff_percent;
                 SafeMaskMaker.bias_percent := bias_percent;
                 SafeMaskMaker.position := position;
                 SafeMaskMaker.fixed_offset := fixed_offset;
                 SafeMaskMaker.offset_max := a |}).
Proof.
  unfold init. split.
  - case_bool_decide as Hsub; simpl.
    + destruct (Angle offset_max) as [a|e] eqn:Ha; simpl.
      * destruct position as [pos|], fixed_offset as [off|]; simpl.
        -- split; [intros _; right; right; eauto | done].
        -- split; [done|].
           intros [?|[?|(_ & Hf & _)]]; [done..|].
           by apply is_Some_None in Hf.
        -- split; [done|].
           intros [?|[?|(Hp & _ & _)]]; [done..|].
           by apply is_Some_None in Hp.
        -- split; [done|].
           intros [?|[?|(Hp & _ & _)]]; [done..|].
           by apply is_Some_None in Hp.
      * split; [intros [= ->]; by right; left|].
        intros [?|[[= ->]|(_ & _ & a & [=])]]; done.
    + split; [intros _; by left | done].
  - intros a Hsub Ha Hboth.
    rewrite bool_decide_eq_true_2 by done. simpl. rewrite Ha. simpl.
    destruct position, fixed_offset; simpl; try reflexivity.
    exfalso. apply Hboth. eauto.
Qed.

(** *** [run] with a fixed offset *)

Lemma make_mask_bkg_invalid_Some (dataset : Dataset) bkg :
  background dataset = Some bkg →
  ∃ m, make_mask_bkg_invalid dataset = Ok m.
Proof.
  intros Hb. unfold make_mask_bkg_invalid. rewrite Hb.
  destruct (negb _); eauto.
Qed.

Lemma make_mask_offset_max_cases (self : t) dataset observation :
  make_mask_offset_max self dataset observation = Raise ValueError
  ∨ ∃ m, make_mask_offset_max self dataset observation = Ok m.
Proof. destruct observation; simpl; eauto. Qed.

Lemma make_mask_energy_aeff_default_cases (dataset : Dataset) observation :
  make_mask_energy_aeff_default dataset observation = Raise ValueError
  ∨ ∃ m, make_mask_energy_aeff_default dataset observation = Ok m.
Proof.
  destruct observation as [obs|]; simpl; [right|by left].
  destruct (aeff_meta obs !! "HI_THRES"), (aeff_meta obs !! "LO_THRES"); eauto.
Qed.

Lemma make_mask_energy_aeff_max_fixed_offset (self : t) dataset off :
  fixed_offset self = Some off →
  make_mask_energy_aeff_max self dataset None = Raise ValueError.
Proof.
  intros Hoff. unfold make_mask_energy_aeff_max, aeff_max_position.
  rewrite Hoff. reflexivity.
Qed.

Lemma make_mask_energy_edisp_bias_fixed_offset (self : t) dataset off :
  fixed_offset self = Some off →
  make_mask_energy_edisp_bias self dataset None = Raise ValueError.
Proof.
  intros Hoff. unfold make_mask_energy_edisp_bias.
  rewrite Hoff. reflexivity.
Qed.

(** A step of [run] whose method can only raise [ValueError]. *)
Definition raises_at_most_ValueError {A : Type} (r : outcome A) : Prop :=
  r = Raise ValueError ∨ ∃ a, r = Ok a.

Lemma iand_if_raises_at_most_ValueError (c : bool) (ms : Mask) r :
  (c = true → raises_at_most_ValueError r) →
  raises_at_most_ValueError (iand_if c ms r).
Proof.
  unfold iand_if. destruct c; [|right; eauto].
  intros Hr. destruct (Hr eq_refl) as [->|[m ->]]; [by left|right; eauto].
Qed.

Lemma run_raises_with_fixed_offset (self : t) dataset observation off :
  fixed_offset self = Some off →
  "aeff-max" ∈ methods self ∨ "edisp-bias" ∈ methods self →
  run self dataset observation = Raise ValueError.
Proof.
  intros Hoff Hsel. unfold run.
  destruct (iand_if_raises_at_most_ValueError
              (truthy (background dataset)) (λ _ _, true)
              (make_mask_bkg_invalid dataset)) as [->|[m0 ->]];
    [|reflexivity|rewrite bind_Ok].
  { destruct (background dataset) as [bkg|] eqn:Hb; [|done].
    intros _. right. by apply (make_mask_bkg_invalid_Some dataset bkg). }
  destruct (iand_if_raises_at_most_ValueError
              (selected self "offset-max") m0
              (make_mask_offset_max self dataset observation))
    as [->|[m1 ->]]; [|reflexivity|rewrite bind_Ok].
  { intros _. apply make_mask_offset_max_cases. }
  destruct (iand_if_raises_at_most_ValueError
              (selected self "aeff-default") m1
              (make_mask_energy_aeff_default dataset observation))
    as [->|[m2 ->]]; [|reflexivity|rewrite bind_Ok].
  { intros _. apply make_mask_energy_aeff_default_cases. }
  rewrite (make_mask_energy_aeff_max_fixed_offset _ _ _ Hoff).
  rewrite (make_mask_energy_edisp_bias_fixed_offset _ _ _ Hoff).
  unfold selected, iand_if.
  destruct (bool_decide ("aeff-max" ∈ methods self)) eqn:Ham;
    [reflexivity|].
  rewrite bind_Ok. apply bool_decide_eq_false in Ham.
  destruct Hsel as [?|Hed]; [done|].
  rewrite (bool_decide_eq_true_2 _ Hed). reflexivity.
Qed.

Lemma init_Ok_fields (ms : list string) (aeff_percent bias_percent : num)
    (position : option SkyCoord) (fixed_offset : option num)
    (offset_max : AngleArg) (self : t) :
  init ms aeff_percent bias_percent position fixed_offset offset_max
    = Ok self →
  methods self = list_to_set ms
  ∧ SafeMaskMaker.fixed_offset self = fixed_offset
  ∧ SafeMaskMaker.position self = position
  ∧ methods self ⊆ available_methods
  ∧ ¬ (is_Some position ∧ is_Some fixed_offset).
Proof.
  unfold init. case_bool_decide as Hsub; simpl; [|done].
  destruct (Angle offset_max) as [a|e]; simpl; [|done].
  destruct (truthy position && truthy fixed_offset) eqn:Hb; [done|].
  intros [= <-]. simpl. repeat split; try done.
  intros [[? ->] [? ->]]. done.
Qed.

(** C9.  A maker constructed with [fixed_offset] set and with "aeff-max"
    or "edisp-bias" among its methods raises [ValueError] from [run] for
    every data set and every observation, also one that is not None:
    [run] calls [make_mask_energy_aeff_max] and
    [make_mask_energy_edisp_bias] without the observation. *)
Theorem run_fixed_offset_raises_ValueError (ms : list string)
    (aeff_percent bias_percent : num) (position : option SkyCoord)
    (off : num) (offset_max : AngleArg) (self : t)
    (dataset : Dataset) (observation : option Observation) :
  init ms aeff_percent bias_percent position (Some off) offset_max
    = Ok self →
  "aeff-max" ∈ ms ∨ "edisp-bias" ∈ ms →
  run self dataset observation = Raise ValueError
  ∧ make_mask_energy_aeff_max self dataset None = Raise ValueError
  ∧ make_mask_energy_edisp_bias self dataset None = Raise ValueError.
Proof.
  intros Hinit Hsel.
  destruct (init_Ok_fields _ _ _ _ _ _ _ Hinit) as (Hm & Hoff & _).
  split; [|split].
  - apply (run_raises_with_fixed_offset self dataset observation off Hoff).
    rewrite Hm. set_solver.
  - by apply (make_mask_energy_aeff_max_fixed_offset _ _ off).
  - by apply (make_mask_energy_edisp_bias_fixed_offset _ _ off).
Qed.

(** *** The mask set by [run] *)

Lemma iand_if_step (c : bool) (ms : Mask) (r : outcome Mask) :
  (c = true → ∃ m, r = Ok m) →
  ∃ m', iand_if c ms r = Ok m'
    ∧ ∀ e p, m' e p = true ↔
        ms e p = true ∧ (∀ m, c = true → r = Ok m → m e p = true).
Proof.
  intros Hr. destruct c; simpl.
  - destruct (Hr eq_refl) as [m ->]. eexists. split; [reflexivity|].
    intros e p. unfold mask_and. rewrite andb_true_iff.
    split; intros [H1 H2]; (split; [done|]).
    + intros m' _ Hm'. by simplify_eq.
    + by apply H2.
  - eexists. split; [reflexivity|]. intros e p. split; [|by intros [? _]].
    intros ?. split; [done|]. intros m Hc. discriminate Hc.
Qed.

Lemma available_methods_elem (method : string) :
  method ∈ available_methods ↔
  method = "aeff-default" ∨ method = "aeff-max" ∨ method = "edisp-bias"
  ∨ method = "offset-max" ∨ method = "bkg-peak".
Proof.
  unfold available_methods.
  rewrite !elem_of_union, !elem_of_singleton. tauto.
Qed.

(** C2.  When every selected method gives [run] a mask, [run] returns
    the data set with [mask_safe] set, and the mask it holds afterwards is
    the pointwise AND of these masks, and of the mask of the valid
    background values when the data set has a background: a pixel is safe
    exactly when the background mask (if any) and the mask of every
    selected method mark it safe. *)
Theorem run_mask_is_conjunction (self : t) (dataset : Dataset)
    (observation : option Observation) :
  (∀ method, method ∈ methods self → method ∈ available_methods →
     ∃ m, method_mask self dataset observation method = Ok m) →
  ∃ dataset' mask,
    run self dataset observation = Ok dataset'
    ∧ dataset' = set_mask_safe dataset mask
    ∧ mask_safe dataset' = Some mask
    ∧ ∀ e p, mask e p = true ↔
        (∀ m, is_Some (background dataset) →
              make_mask_bkg_invalid dataset = Ok m → m e p = true)
        ∧ (∀ method m, method ∈ methods self →
              method_mask self dataset observation method = Ok m →
              m e p = true).
Proof.
  intros Hall. unfold run.
  assert (∀ method, selected self method = true →
            method ∈ available_methods →
            ∃ m, method_mask self dataset observation method = Ok m) as Hsel.
  { intros method Hm. apply Hall. by apply bool_decide_eq_true in Hm. }
  destruct (iand_if_step (truthy (background dataset)) (λ _ _, true)
              (make_mask_bkg_invalid dataset)) as (m0 & -> & H0).
  { destruct (background dataset) as [bkg|] eqn:Hb; [|done].
    intros _. by apply (make_mask_bkg_invalid_Some dataset bkg). }
  rewrite bind_Ok.
  destruct (iand_if_step (selected self "offset-max") m0
              (make_mask_offset_max self dataset observation))
    as (m1 & -> & H1).
  { intros Hs. apply (Hsel "offset-max" Hs).
    apply available_methods_elem. auto 10. }
  rewrite bind_Ok.
  destruct (iand_if_step (selected self "aeff-default") m1
              (make_mask_energy_aeff_default dataset observation))
    as (m2 & -> & H2).
  { intros Hs. apply (Hsel "aeff-default" Hs).
    apply available_methods_elem. auto 10. }
  rewrite bind_Ok.
  destruct (iand_if_step (selected self "aeff-max") m2
              (make_mask_energy_aeff_max self dataset None))
    as (m3 & -> & H3).
  { intros Hs. apply (Hsel "aeff-max" Hs).
    apply available_methods_elem. auto 10. }
  rewrite bind_Ok.
  destruct (iand_if_step (selected self "edisp-bias") m3
              (make_mask_energy_edisp_bias self dataset None))
    as (m4 & -> & H4).
  { intros Hs. apply (Hsel "edisp-bias" Hs).
    apply available_methods_elem. auto 10. }
  rewrite bind_Ok.
  destruct (iand_if_step (selected self "bkg-peak") m4
              (make_mask_energy_bkg_peak dataset))
    as (m5 & -> & H5).
  { intros Hs. apply (Hsel "bkg-peak" Hs).
    apply available_methods_elem. auto 10. }
  rewrite bind_Ok.
  exists (set_mask_safe dataset m5), m5.
  split; [reflexivity|]. split; [reflexivity|]. split; [reflexivity|].
  intros e p.
  rewrite H5, H4, H3, H2, H1, H0. clear H0 H1 H2 H3 H4 H5.
  split.
  - intros ((((((_ & Hb) & Hom) & Had) & Ham) & Hed) & Hbp). split.
    + intros m Hbg. apply Hb. by destruct Hbg as [? ->].
    + intros method m Hin.
      assert (selected self method = true) as Hs
        by (unfold selected; by apply bool_decide_eq_true_2).
      unfold method_mask. repeat case_bool_decide; subst; try done.
      * by apply Hom.
      * by apply Had.
      * by apply Ham.
      * by apply Hed.
      * by apply Hbp.
  - intros [Hb Hm].
    assert (∀ method m, selected self method = true →
              method_mask self dataset observation method = Ok m →
              m e p = true) as Hm'.
    { intros method m Hs. apply Hm. by apply bool_decide_eq_true in Hs. }
    repeat split.
    + intros m Hbg. apply Hb. by destruct (background dataset).
    + intros m Hs. by apply (Hm' "offset-max").
    + intros m Hs. by apply (Hm' "aeff-default").
    + intros m Hs. by apply (Hm' "aeff-max").
    + intros m Hs. by apply (Hm' "edisp-bias").
    + intros m Hs. by apply (Hm' "bkg-peak").
Qed.

(** *** The threshold of "aeff-max" *)

Lemma first_positive_first (values : list num) (i : nat) (v : num) :
  values !! i = Some v →
  nltb (of_Z 0) v = true →
  (∀ j w, j < i → values !! j = Some w → nltb (of_Z 0) w = false) →
  first_positive values = Ok i.
Proof.
  revert i. induction values as [|x values IH]; intros i Hi Hv Hbefore.
  - done.
  - destruct i as [|i]; simpl in *.
    + injection Hi as ->. by rewrite Hv.
    + rewrite (Hbefore 0 x) by (done || lia).
      rewrite (IH i); [done..|].
      intros j w Hlt Hj. apply (Hbefore (S j) w); [lia|done].
Qed.

(** C3.  [make_mask_energy_aeff_max] takes the effective-area spectrum
    at the chosen position (the exposure spectrum divided by the live
    time), computes the threshold [aeff_percent / 100] times its maximum,
    inverts the spectrum at the threshold between the first energy with
    positive effective area and the first energy node, and masks below
    the result of the inversion, or below the first energy with positive
    effective area when that result is NaN. *)
Theorem aeff_max_threshold (self : t) (dataset : Dataset)
    (observation : option Observation) (position : SkyCoord)
    (exposure : ExposureMap) (livetime : num) (idx : nat)
    (aeff_idx energy_positive energy_first inversion0 : num) :
  aeff_max_position self dataset observation = Ok position →
  SafeMaskMaker.exposure dataset = Some exposure →
  exposure_meta exposure !! "livetime" = Some livetime →
  let aeff := region_div (get_spectrum exposure position) livetime in
  let model := from_region_map aeff in
  let aeff_thres :=
    nmul (ndiv (aeff_percent self) (of_Z 100)) (quantity_max aeff) in
  template_values model !! idx = Some aeff_idx →
  nltb (of_Z 0) aeff_idx = true →
  (∀ j w, j < idx → template_values model !! j = Some w →
          nltb (of_Z 0) w = false) →
  template_energy model !! idx = Some energy_positive →
  template_energy model !! 0 = Some energy_first →
  inverse model aeff_thres energy_positive energy_first !! 0
    = Some inversion0 →
  make_mask_energy_aeff_max self dataset observation =
    Ok (energy_mask (_geom dataset)
          (Some (if nisnan inversion0 then energy_positive else inversion0))
          None).
Proof.
  intros Hpos Hex Hlt aeff model aeff_thres Hidx Hv Hbefore He Hf Hinv.
  unfold make_mask_energy_aeff_max.
  rewrite Hpos, bind_Ok, Hex, bind_Ok.
  unfold dict_getitem. rewrite Hlt, bind_Ok.
  fold aeff. fold model.
  rewrite (first_positive_first _ _ _ Hidx Hv Hbefore), bind_Ok.
  unfold getitem. rewrite He, bind_Ok, Hf, bind_Ok.
  fold aeff_thres. rewrite Hinv, bind_Ok.
  by destruct (nisnan inversion0).
Qed.

(** *** The threshold of "bkg-peak" *)

(** C4.  For a predicted background spectrum with a value (not NaN) in
    every bin of the energy axis, "bkg-peak" selects the first bin at
    which the spectrum is largest — on a tie the lowest-energy one — and
    the mask it returns is the energy mask whose lower threshold is the
    upper edge of that bin.  The axis and the energy mask belong to
    [gammapy.maps]: what is used of them is that, at the threshold
    [pix_to_coord] gives for a bin, the energy mask is the one of the
    upper edge of the bin. *)
Theorem bkg_peak_threshold `{!ArithOrder num} (dataset : Dataset) :
  let spectrum := npred_background_spectrum dataset in
  let geom := _geom dataset in
  let axis := energy_axis geom in
  spectrum ≠ [] →
  Forall (λ x, nisnan x = false) spectrum →
  length (edges axis) = S (length spectrum) →
  (∀ i upper e p,
     edges axis !! S i = Some upper →
     energy_mask geom (Some (pix_to_coord axis i)) None e p
       = energy_mask geom (Some upper) None e p) →
  ∃ idx rate upper mask,
    is_first_max spectrum idx rate
    ∧ edges axis !! S idx = Some upper
    ∧ make_mask_energy_bkg_peak dataset = Ok mask
    ∧ ∀ e p, mask e p = energy_mask geom (Some upper) None e p.
Proof.
  intros spectrum geom axis Hne Hnan Hlen Hcontract.
  destruct (np_argmax_first_max spectrum Hne Hnan) as (idx & rate & Harg & Hfm).
  assert (is_Some (edges axis !! S idx)) as [upper Hup].
  { apply lookup_lt_is_Some. rewrite Hlen.
    destruct Hfm as (Hidx & _). apply lookup_lt_Some in Hidx. lia. }
  exists idx, rate, upper. eexists. split; [done|]. split; [done|].
  unfold make_mask_energy_bkg_peak. fold spectrum. rewrite Harg, bind_Ok.
  split; [reflexivity|]. intros e p. by apply Hcontract.
Qed.
End SafeMaskMaker_properties.

(** ** [EnergyDependenceEstimator] *)

Section EnergyDependenceEstimator_properties.
Context {num : Type} `{!Arith num} `{!EnergyDependenceEstimator.FitApi num}.
Import EnergyDependenceEstimator.
Local Abbreviation Slice := (SlicedDataset Sliced SkyModelObj).

Lemma mapM_Ok_fmap {A B : Type} (f : A → outcome B) (g : A → B)
    (l : list A) :
  (∀ x, x ∈ l → f x = Ok (g x)) → mapM f l = Ok (g <$> l).
Proof.
  induction l as [|x l IH]; intros Hf; [done|].
  simpl. rewrite (Hf x) by left. simpl.
  rewrite IH; [done|]. intros y Hy. apply Hf. by right.
Qed.

Lemma mapM_Ok_length {A B : Type} (f : A → outcome B) (l : list A)
    (k : list B) :
  mapM f l = Ok k → length k = length l.
Proof.
  revert k. induction l as [|x l IH]; intros k; simpl.
  - by intros [= <-].
  - destruct (f x) as [y|]; simpl; [|done].
    destruct (mapM f l) as [k'|]; simpl; [|done].
    intros [= <-]. simpl. by rewrite (IH k').
Qed.

Lemma mapM_Ok_lookup {A B : Type} (f : A → outcome B) (l : list A)
    (k : list B) (i : nat) (x : A) :
  mapM f l = Ok k → l !! i = Some x → ∃ y, k !! i = Some y ∧ f x = Ok y.
Proof.
  revert k i. induction l as [|x' l IH]; intros k i; simpl; [done|].
  destruct (f x') as [y|] eqn:Hy; simpl; [|done].
  destruct (mapM f l) as [k'|]; simpl; [|done].
  intros [= <-]. destruct i as [|i]; simpl.
  - intros [= <-]. eauto.
  - by apply IH.
Qed.

Lemma set_masks_Ok (self : t) (datasets : list MapDataset) (e0 : num) :
  energy_edges self !! 0 = Some e0 →
  set_masks self datasets = Ok ((λ d, set_mask_fit d e0) <$> datasets).
Proof.
  intros He. unfold set_masks. apply mapM_Ok_fmap.
  intros d _. unfold getitem. by rewrite He.
Qed.

Lemma set_masks_nil (self : t) : set_masks self [] = Ok [].
Proof. reflexivity. Qed.

Lemma make_slices_Ok (self : t) (datasets : list MapDataset)
    (model : SkyModelObj) :
  make_slices self datasets model = Ok (all_slices self datasets model).
Proof.
  unfold make_slices, all_slices.
  rewrite (mapM_Ok_fmap _ (λ band, slice_of model band <$> datasets));
    [done|].
  intros band _. by apply mapM_Ok_fmap.
Qed.

Lemma length_bands (self : t) :
  length (bands self) = Z.to_nat (num_energy_bands self).
Proof.
  unfold bands, num_energy_bands.
  rewrite length_zip, length_take, length_drop. lia.
Qed.

Lemma length_all_slices (self : t) (datasets : list MapDataset)
    (model : SkyModelObj) :
  length (all_slices self datasets model)
    = Z.to_nat (num_energy_bands self) * length datasets.
Proof.
  unfold all_slices. rewrite <- length_bands.
  induction (bands self) as [|band bs IH]; [done|].
  rewrite fmap_cons. cbn [concat].
  rewrite length_app, length_fmap, IH. done.
Qed.

Lemma length_fit_slices (self : t) (slices_src : list Slice) :
  length (fit_slices self slices_src).1 = length slices_src.
Proof. unfold fit_slices. simpl. by rewrite !length_fmap. Qed.

Lemma np_shape2_Ok {A : Type} (rows : list (list A)) (k : nat) :
  rows ≠ [] →
  Forall (λ r, length r = k) rows →
  np_shape2 rows = Ok (length rows, k)
  ∧ length rows * k = sum_list (length <$> rows).
Proof.
  destruct rows as [|r rest]; [done|]. intros _ Hall.
  apply Forall_cons_1 in Hall as [Hr Hrest]. unfold np_shape2.
  assert (forallb (λ r', Nat.eqb (length r') (length r)) rest = true) as ->.
  { apply forallb_forall. intros r' Hin. apply Nat.eqb_eq.
    rewrite Forall_forall in Hrest. rewrite Hr.
    apply Hrest. by apply list_elem_of_In. }
  rewrite Hr. split; [done|].
  rewrite fmap_cons. cbn [sum_list sum_list_with length]. unfold id.
  rewrite Hr. clear Hr. cbn [Nat.mul]. f_equal.
  induction Hrest as [|r' rest' Hr' _ IH]; [done|].
  rewrite fmap_cons. cbn [sum_list sum_list_with length Nat.mul].
  unfold id. lia.
Qed.

(** *** [estimate_energy_dependence] *)

(** C1, as amended.  For a [Datasets] of m >= 1 data sets and n >= 1
    energy bands, [estimate_energy_dependence] fits n * m slices
    individually, one per band and data set.  When the source model is
    found and has a spatial model, the sliced fits all report the same
    number of free parameters and the parameter look-ups succeed, it
    returns [delta_ts] equal to the total statistic of the joint fit minus
    the sum of the total statistics of these n * m sliced fits, and [df]
    equal to the number of free parameters summed over the sliced fits
    minus the number of free parameters of the jointly fitted slices. *)
Theorem estimate_energy_dependence_delta_ts_df (self : t)
    (datasets : list MapDataset) (e0 : num) (model : SkyModelObj)
    (spatial : list (ParameterObj num)) (k : nat) (linked : list Slice)
    (table : gmap string Column) :
  datasets ≠ [] →
  (1 ≤ num_energy_bands self)%Z →
  energy_edges self !! 0 = Some e0 →
  let datasets' := (λ d, set_mask_fit d e0) <$> datasets in
  models_getitem datasets' (source self) = Ok model →
  let slices_src := all_slices self datasets' model in
  let results_src := (fit_slices self slices_src).1 in
  let fitted := (fit_slices self slices_src).2 in
  Forall (λ r, length (free_names r) = k) results_src →
  spatial_parameters model = Ok spatial →
  let parameters := names (free_parameters spatial) in
  link_slices parameters fitted = Ok linked →
  let result_joint := (fit_run_datasets (fit self) linked).1 in
  let joint_slices := (fit_run_datasets (fit self) linked).2 in
  build_result self parameters result_joint results_src = Ok table →
  length results_src = Z.to_nat (num_energy_bands self) * length datasets
  ∧ estimate_energy_dependence self datasets =
      Ok (datasets',
          {| delta_ts :=
               nsub (total_stat result_joint)
                 (np_sum (total_stat <$> results_src));
             df :=
               (Z.of_nat
                  (sum_list ((λ r, length (free_names r)) <$> results_src))
                - Z.of_nat
                    (length (names (free_parameters
                                      (datasets_parameters joint_slices)))))%Z;
             result := table |}).
Proof.
  intros Hne Hn He0 datasets' Hmodel slices_src results_src fitted Hk
    Hspatial parameters Hlink result_joint joint_slices Htable.
  assert (length results_src
          = Z.to_nat (num_energy_bands self) * length datasets) as Hlen.
  { unfold results_src. rewrite length_fit_slices.
    unfold slices_src. rewrite length_all_slices.
    unfold datasets'. by rewrite length_fmap. }
  split; [done|].
  assert (results_src ≠ []) as Hres.
  { intros Hnil. rewrite Hnil in Hlen. simpl in Hlen.
    destruct datasets; [done|]. simpl in Hlen. lia. }
  destruct (np_shape2_Ok (free_names <$> results_src) k) as [Hshape Hsum].
  { by destruct results_src. }
  { by apply Forall_fmap. }
  rewrite length_fmap in Hshape, Hsum.
  rewrite <- list_fmap_compose in Hsum.
  unfold estimate_energy_dependence.
  rewrite (set_masks_Ok self datasets e0 He0), bind_Ok.
  fold datasets'. rewrite Hmodel, bind_Ok.
  rewrite make_slices_Ok, bind_Ok. fold slices_src.
  destruct (fit_slices self slices_src) as [rs fs] eqn:Hfit.
  simpl in results_src, fitted. subst results_src fitted.
  rewrite Hshape, bind_Ok. rewrite Hspatial, bind_Ok.
  fold parameters. rewrite Hlink, bind_Ok.
  destruct (fit_run_datasets (fit self) linked) as [rj js] eqn:Hjoint.
  simpl in result_joint, joint_slices. subst result_joint joint_slices.
  rewrite Htable, bind_Ok.
  rewrite Hsum. reflexivity.
Qed.

(** *** [estimate_source_significance] *)

Lemma all_slices_nil (self : t) (model : SkyModelObj) :
  all_slices self [] model = [].
Proof.
  unfold all_slices. induction (bands self) as [|band bs IH]; [done|].
  rewrite fmap_cons. cbn [concat]. by rewrite IH.
Qed.

Lemma all_slices_first (self : t) (datasets : list MapDataset)
    (model : SkyModelObj) (s0 : Slice) :
  all_slices self datasets model !! 0 = Some s0 →
  ∃ band d0,
    bands self !! 0 = Some band ∧ datasets !! 0 = Some d0
    ∧ s0 = slice_of model band d0.
Proof.
  destruct datasets as [|d0 ds].
  - by rewrite all_slices_nil.
  - unfold all_slices. destruct (bands self) as [|band bs]; [done|]. simpl.
    intros [= <-]. eauto.
Qed.

(** C5.  [estimate_source_significance] reports one and the same number
    of degrees of freedom for every energy band: the number of free
    parameters of the fit result of the first nested test — the test of
    the first energy band, on the slice of the first data set — minus
    one.  Every significance is [ts_to_sigma] of the matching [delta_ts]
    with this number. *)
Theorem estimate_source_significance_shared_df (self : t)
    (datasets : list MapDataset) (e0 : num) (model : SkyModelObj)
    (test_results : list (TestResult num)) (first : TestResult num) :
  energy_edges self !! 0 = Some e0 →
  let datasets' := (λ d, set_mask_fit d e0) <$> datasets in
  models_getitem datasets' (source self) = Ok model →
  let slices_src := all_slices self datasets' model in
  mapM (nested_test self) slices_src = Ok test_results →
  test_results !! 0 = Some first →
  let shared_df := (Z.of_nat (length (free_names (fit_results first))) - 1)%Z in
  ∃ r,
    estimate_source_significance self datasets = Ok (datasets', r)
    ∧ src_df r = replicate (Z.to_nat (num_energy_bands self)) shared_df
    ∧ (∀ i x, src_df r !! i = Some x → x = shared_df)
    ∧ src_delta_ts r = ts <$> test_results
    ∧ src_significance r = (λ x, ts_to_sigma x shared_df) <$> src_delta_ts r
    ∧ ∃ band d0,
        bands self !! 0 = Some band ∧ datasets' !! 0 = Some d0
        ∧ nested_test self (slice_of model band d0) = Ok first.
Proof.
  intros He0 datasets' Hmodel slices_src Htests Hfirst shared_df.
  eexists. split.
  { unfold estimate_source_significance.
    rewrite (set_masks_Ok self datasets e0 He0), bind_Ok.
    fold datasets'. rewrite Hmodel, bind_Ok.
    rewrite make_slices_Ok, bind_Ok. fold slices_src.
    rewrite Htests, bind_Ok.
    unfold getitem. rewrite list_lookup_fmap, Hfirst. simpl.
    reflexivity. }
  simpl. split; [done|]. split.
  { intros i x Hx. by apply lookup_replicate in Hx as [-> _]. }
  split; [done|]. split; [done|].
  assert (is_Some (slices_src !! 0)) as [s0 Hs0].
  { apply lookup_lt_is_Some. rewrite <- (mapM_Ok_length _ _ _ Htests).
    by apply lookup_lt_Some in Hfirst. }
  destruct (mapM_Ok_lookup _ _ _ _ _ Htests Hs0) as (y & Hy & Htest).
  rewrite Hfirst in Hy. injection Hy as <-.
  destruct (all_slices_first _ _ _ _ Hs0) as (band & d0 & Hb & Hd & ->).
  eauto.
Qed.

(** *** [run] *)

Lemma estimate_energy_dependence_nil (self : t) :
  ∃ e, estimate_energy_dependence self [] = Raise e.
Proof.
  unfold estimate_energy_dependence. rewrite set_masks_nil, bind_Ok.
  destruct (models_getitem [] (source self)) as [model|e]; [|by eexists].
  rewrite bind_Ok, make_slices_Ok, bind_Ok.
  rewrite all_slices_nil. simpl. by eexists.
Qed.

Lemma run_empty_Datasets_raises (self : t) :
  ∃ e, run self (IsDatasets []) = Raise e.
Proof.
  destruct (estimate_energy_dependence_nil self) as [e He].
  exists e. unfold run. by rewrite He.
Qed.

(** C7, as amended.  [run] raises [ValueError] for every argument that
    is not a [Datasets].  For a [Datasets] it runs the two estimators in
    turn: when both complete it returns a dictionary with exactly the keys
    "energy_dependence" and "src_above_bkg", holding their results;
    otherwise it raises the exception of the first that fails. *)
Theorem run_outcome (self : t) (dataset : PyObject) :
  match dataset with
  | IsDatasets datasets =>
      match estimate_energy_dependence self datasets with
      | Raise e => run self dataset = Raise e
      | Ok (datasets1, energy_dependence) =>
          match estimate_source_significance self datasets1 with
          | Raise e => run self dataset = Raise e
          | Ok (datasets2, src_above_bkg) =>
              ∃ results,
                run self dataset = Ok (datasets2, results)
                ∧ dom results = {[ "energy_dependence"; "src_above_bkg" ]}
                ∧ results !! "energy_dependence"
                    = Some (EnergyDependence energy_dependence)
                ∧ results !! "src_above_bkg"
                    = Some (SrcAboveBkg src_above_bkg)
          end
      end
  | _ => run self dataset = Raise ValueError
  end.
Proof.
  destruct dataset as [datasets|d|]; [|done..].
  unfold run.
  destruct (estimate_energy_dependence self datasets) as [[ds1 r1]|e];
    [|done].
  rewrite bind_Ok. simpl.
  destruct (estimate_source_significance self ds1) as [[ds2 r2]|e];
    [|done].
  rewrite bind_Ok. simpl.
  eexists. split; [reflexivity|]. split; [|split].
  - rewrite !dom_insert_L, dom_empty_L. set_solver.
  - rewrite lookup_insert_ne by done. by rewrite lookup_insert_eq.
  - by rewrite lookup_insert_eq.
Qed.
End EnergyDependenceEstimator_properties.

(** ** The code on concrete data *)

Section Runs.
Import Demo.

#[local] Instance xq_order : ArithOrder xq.
Proof.
  split.
  - intros [|a] [|b]; simpl; try done. intros _ _.
    unfold xleb. rewrite !Qle_bool_iff.
    destruct (Qlt_le_dec a b) as [Hlt|Hle]; [left|by right].
    by apply Qlt_le_weak.
  - intros [|a] [|b] [|c]; simpl; try done.
    unfold xleb. rewrite !Qle_bool_iff. apply Qle_trans.
Qed.

(** [stack] on two background models that share their spectral model,
    with [norm] 2 and [tilt] 1 at the reference energy 1: the planes of
    the bins centred at 1 and 2 are multiplied by 2 and 1. *)
Lemma stack_shared_spectral_model :
  ∃ h' self_obj' norm' tilt',
    BackgroundModel.stack heap 0 1 None = Some h'
    ∧ BackgroundModel.background_models h' !! 0 = Some self_obj'
    ∧ BackgroundModel.spectral_models h'
        !! BackgroundModel.spectral_model self_obj' = Some spectral_model_0
    ∧ BackgroundModel.parameters h' !! 0 = Some norm'
    ∧ BackgroundModel.parameters h' !! 1 = Some tilt'
    ∧ value norm' = xz 1
    ∧ value tilt' = xz 0
    ∧ BackgroundModel.map self_obj' =
        {| BackgroundModel.geom := [xz 1; xz 2];
           BackgroundModel.data := [[xz 22; xz 44]; [xz 33; xz 44]] |}.
Proof.
  destruct (stack_resets_and_stacks heap 0 1 None background_a background_b
              spectral_model_0 spectral_model_0
              (par "norm" 2 false) (par "tilt" 1 true)
              (par "reference" 1 true)
              (par "norm" 2 false) (par "tilt" 1 true)
              (par "reference" 1 true)
              eq_refl eq_refl eq_refl eq_refl eq_refl eq_refl eq_refl
              eq_refl eq_refl eq_refl ltac:(discriminate))
    as (h' & self_obj' & norm' & tilt' & Hstack & Hobj & Hsm & Hn & Ht
        & Hnv & Htv & Hmap).
  exists h', self_obj', norm', tilt'.
  repeat (split; [assumption|]).
  rewrite Hmap. vm_compute. reflexivity.
Defined.

(** A conversion of [offset_max] that raises [ValueError]: [__init__]
    raises [ValueError] although the methods are available and neither
    [position] nor [fixed_offset] is set. *)
Lemma init_offset_max_not_an_angle :
  SafeMaskMaker.init ["aeff-default"] (xz 10) (xz 10) None None "abc"
    = Raise ValueError
  ∧ ¬ (¬ ((list_to_set ["aeff-default"] : gset string)
            ⊆ SafeMaskMaker.available_methods)
       ∨ (is_Some (None : option xq) ∧ is_Some (None : option xq))).
Proof.
  split; [reflexivity|].
  intros [Hsub|[Hp _]]; [|by apply is_Some_None in Hp].
  apply Hsub. intros x Hx. apply available_methods_elem.
  rewrite elem_of_list_to_set in Hx. apply list_elem_of_In in Hx.
  simpl in Hx. destruct Hx as [<-|[]]. by left.
Qed.

(** A maker constructed with a fixed offset and "aeff-max". *)
Lemma run_fixed_offset_observation :
  SafeMaskMaker.run maker_fixed_offset dataset (Some observation)
    = Raise ValueError.
Proof.
  refine (proj1 (run_fixed_offset_raises_ValueError ["aeff-max"]
                   (xz 10) (xz 10) None (xz 1) "3 deg" maker_fixed_offset
                   dataset (Some observation) _ _)).
  - reflexivity.
  - left. apply list_elem_of_In. simpl. by left.
Defined.

(** [run] with "aeff-default" and "bkg-peak" on a data set with a
    background. *)
Lemma run_mask_two_methods :
  ∃ dataset' mask,
    SafeMaskMaker.run maker dataset (Some observation) = Ok dataset'
    ∧ dataset' = SafeMaskMaker.set_mask_safe dataset mask
    ∧ SafeMaskMaker.mask_safe dataset' = Some mask
    ∧ ∀ e p, mask e p = true ↔
        (∀ m, is_Some (SafeMaskMaker.background dataset) →
              SafeMaskMaker.make_mask_bkg_invalid dataset = Ok m →
              m e p = true)
        ∧ (∀ method m, method ∈ SafeMaskMaker.methods maker →
              SafeMaskMaker.method_mask maker dataset (Some observation)
                method = Ok m →
              m e p = true).
Proof.
  apply (run_mask_is_conjunction maker dataset (Some observation)).
  intros method Hin _. unfold maker in Hin. simpl in Hin.
  apply elem_of_union in Hin as [Hin|Hin];
    apply elem_of_singleton in Hin; subst method; eexists; reflexivity.
Defined.

(** "aeff-max" on an exposure that is positive at its first node. *)
Lemma aeff_max_first_node :
  SafeMaskMaker.make_mask_energy_aeff_max maker dataset None
    = Ok (SafeMaskMaker.energy_mask geom (Some (xz 1)) None).
Proof.
  refine (aeff_max_threshold maker dataset None (xz 0) exposure (xz 10) 0
            (xz 5) (xz 1) (xz 1) (xz 1) _ _ _ _ _ _ _ _ _);
    try reflexivity.
  intros j w Hlt. lia.
Defined.

(** "bkg-peak" on a spectrum whose second and third bin tie. *)
Lemma bkg_peak_tie :
  ∃ idx rate upper mask,
    is_first_max (SafeMaskMaker.npred_background_spectrum dataset) idx rate
    ∧ SafeMaskMaker.edges (SafeMaskMaker.energy_axis geom) !! S idx
        = Some upper
    ∧ SafeMaskMaker.make_mask_energy_bkg_peak dataset = Ok mask
    ∧ ∀ e p, mask e p = SafeMaskMaker.energy_mask geom (Some upper) None e p.
Proof.
  refine (bkg_peak_threshold dataset _ _ _ _).
  - discriminate.
  - repeat constructor.
  - reflexivity.
  - intros i upper e p Hup.
    destruct i as [|[|[|i]]]; simpl in Hup; try discriminate Hup;
      injection Hup as <-; destruct e as [|[|[|e]]]; reflexivity.
Defined.

Example np_argmax_tie : np_argmax [xz 3; xz 7; xz 7] = Ok 1.
Proof. reflexivity. Qed.

(** Two data sets and one energy band: two slices are fitted. *)
Lemma estimate_energy_dependence_two_datasets :
  ∃ datasets' r,
    EnergyDependenceEstimator.estimate_energy_dependence estimator
      [dataset_a; dataset_b] = Ok (datasets', r)
    ∧ EnergyDependenceEstimator.delta_ts r = xz 3
    ∧ EnergyDependenceEstimator.df r = 3%Z.
Proof.
  edestruct (estimate_energy_dependence_delta_ts_df estimator
               [dataset_a; dataset_b] (xz 1) source_model)
    as [_ Hrun].
  - discriminate.
  - vm_compute. discriminate.
  - reflexivity.
  - reflexivity.
  - repeat constructor.
  - reflexivity.
  - reflexivity.
  - reflexivity.
  - eexists _, _. split; [exact Hrun|]. split; reflexivity.
Defined.

(** With two data sets and one energy band (n = 1) the estimator fits two
    slices, with total statistics 5 and 7; the joint fit has total
    statistic 15.  [delta_ts] is 15 - (5 + 7) = 3: it is not the joint
    statistic minus the statistic of one sliced fit. *)
Lemma estimate_energy_dependence_sums_every_slice :
  let datasets' :=
    (λ d, EnergyDependenceEstimator.set_mask_fit d (xz 1))
      <$> [dataset_a; dataset_b] in
  let slices_src :=
    EnergyDependenceEstimator.all_slices estimator datasets' source_model in
  let results_src :=
    (EnergyDependenceEstimator.fit_slices estimator slices_src).1 in
  let fitted :=
    (EnergyDependenceEstimator.fit_slices estimator slices_src).2 in
  EnergyDependenceEstimator.num_energy_bands estimator = 1%Z
  ∧ EnergyDependenceEstimator.total_stat <$> results_src = [xz 5; xz 7]
  ∧ ∃ r linked,
      EnergyDependenceEstimator.estimate_energy_dependence estimator
        [dataset_a; dataset_b] = Ok (datasets', r)
      ∧ EnergyDependenceEstimator.link_slices ["lon_0"; "lat_0"; "sigma"]
          fitted = Ok linked
      ∧ EnergyDependenceEstimator.total_stat
          (EnergyDependenceEstimator.fit_run_datasets () linked).1 = xz 15
      ∧ EnergyDependenceEstimator.delta_ts r = xz 3
      ∧ EnergyDependenceEstimator.delta_ts r ≠ nsub (xz 15) (np_sum [xz 5])
      ∧ EnergyDependenceEstimator.delta_ts r ≠ nsub (xz 15) (np_sum [xz 7]).
Proof.
  split; [reflexivity|]. split; [reflexivity|].
  eexists _, _. split; [reflexivity|]. split; [reflexivity|].
  split; [reflexivity|]. split; [reflexivity|].
  split; intros Heq; vm_compute in Heq; discriminate Heq.
Qed.

(** The significance of the source in the same input. *)
Lemma estimate_source_significance_two_datasets :
  ∃ datasets' r,
    EnergyDependenceEstimator.estimate_source_significance estimator
      [dataset_a; dataset_b] = Ok (datasets', r)
    ∧ EnergyDependenceEstimator.src_df r = [5%Z]
    ∧ EnergyDependenceEstimator.src_delta_ts r = [xz 5; xz 7]
    ∧ EnergyDependenceEstimator.src_significance r
        = [ndiv (xz 5) (xz 5); ndiv (xz 7) (xz 5)].
Proof.
  edestruct (estimate_source_significance_shared_df estimator
               [dataset_a; dataset_b] (xz 1) source_model)
    as (r & Hrun & Hdf & _ & Hts & Hsig & _).
  - reflexivity.
  - reflexivity.
  - reflexivity.
  - reflexivity.
  - eexists _, r. split; [exact Hrun|].
    rewrite Hsig, Hts, Hdf. repeat split; reflexivity.
Defined.

(** An empty [Datasets] is a [Datasets], and [run] raises on it. *)
Lemma run_raises_on_empty_Datasets :
  EnergyDependenceEstimator.run estimator
    (EnergyDependenceEstimator.IsDatasets []) = Raise ValueError.
Proof. reflexivity. Qed.
End Runs.

(** * Further properties *)

(** ** [SafeMaskMaker]: how [run] combines and fails *)

Section SafeMaskMaker_run_properties.
Context {num : Type} `{!Arith num} `{!SafeMaskMaker.MapsApi num}.
Import SafeMaskMaker.

Lemma iand_if_Ok_inv (c : bool) (ms : Mask) (r : outcome Mask) (m' : Mask) :
  iand_if c ms r = Ok m' →
  ∀ e p, m' e p = true ↔
    ms e p = true ∧ (∀ m, c = true → r = Ok m → m e p = true).
Proof.
  intros Hr.
  destruct (iand_if_step c ms r) as (m'' & Hm'' & Hiff).
  - intros ->. destruct r as [m|err]; [eauto|discriminate Hr].
  - rewrite Hm'' in Hr. by simplify_eq.
Qed.

(** The masks that [run] receives do not depend on the methods
    selected. *)
Lemma method_mask_fields (self1 self2 : t) (dataset : Dataset)
    (observation : option Observation) (method : string) :
  aeff_percent self1 = aeff_percent self2 →
  bias_percent self1 = bias_percent self2 →
  position self1 = position self2 →
  fixed_offset self1 = fixed_offset self2 →
  offset_max self1 = offset_max self2 →
  method_mask self1 dataset observation method
    = method_mask self2 dataset observation method.
Proof.
  destruct self1, self2. simpl. intros -> -> -> -> ->. reflexivity.
Qed.

(** What a successful [run] returns. *)
Lemma run_Ok_inv (self : t) (dataset dataset' : Dataset)
    (observation : option Observation) :
  run self dataset observation = Ok dataset' →
  ∃ mask,
    dataset' = set_mask_safe dataset mask
    ∧ ∀ e p, mask e p = true ↔
        (∀ m, is_Some (background dataset) →
              make_mask_bkg_invalid dataset = Ok m → m e p = true)
        ∧ (∀ method m, method ∈ methods self →
              method_mask self dataset observation method = Ok m →
              m e p = true).
Proof.
  unfold run. intros Hrun.
  destruct (iand_if (truthy (background dataset)) (λ _ _, true)
              (make_mask_bkg_invalid dataset)) as [m0|] eqn:E0;
    [rewrite bind_Ok in Hrun|discriminate Hrun].
  destruct (iand_if (selected self "offset-max") m0
              (make_mask_offset_max self dataset observation))
    as [m1|] eqn:E1; [rewrite bind_Ok in Hrun|discriminate Hrun].
  destruct (iand_if (selected self "aeff-default") m1
              (make_mask_energy_aeff_default dataset observation))
    as [m2|] eqn:E2; [rewrite bind_Ok in Hrun|discriminate Hrun].
  destruct (iand_if (selected self "aeff-max") m2
              (make_mask_energy_aeff_max self dataset None))
    as [m3|] eqn:E3; [rewrite bind_Ok in Hrun|discriminate Hrun].
  destruct (iand_if (selected self "edisp-bias") m3
              (make_mask_energy_edisp_bias self dataset None))
    as [m4|] eqn:E4; [rewrite bind_Ok in Hrun|discriminate Hrun].
  destruct (iand_if (selected self "bkg-peak") m4
              (make_mask_energy_bkg_peak dataset))
    as [m5|] eqn:E5; [rewrite bind_Ok in Hrun|discriminate Hrun].
  injection Hrun as <-. exists m5. split; [reflexivity|]. intros e p.
  rewrite (iand_if_Ok_inv _ _ _ _ E5), (iand_if_Ok_inv _ _ _ _ E4),
    (iand_if_Ok_inv _ _ _ _ E3), (iand_if_Ok_inv _ _ _ _ E2),
    (iand_if_Ok_inv _ _ _ _ E1), (iand_if_Ok_inv _ _ _ _ E0).
  clear E0 E1 E2 E3 E4 E5.
  split.
  - intros ((((((_ & Hb) & Hom) & Had) & Ham) & Hed) & Hbp). split.
    + intros m Hbg. apply Hb. by destruct Hbg as [? ->].
    + intros method m Hin.
      assert (selected self method = true) as Hs
        by (unfold selected; by apply bool_decide_eq_true_2).
      unfold method_mask. repeat case_bool_decide; subst; try done.
      * by apply Hom.
      * by apply Had.
      * by apply Ham.
      * by apply Hed.
      * by apply Hbp.
  - intros [Hb Hm].
    assert (∀ method m, selected self method = true →
              method_mask self dataset observation method = Ok m →
              m e p = true) as Hm'.
    { intros method m Hs. apply Hm. by apply bool_decide_eq_true in Hs. }
    repeat split.
    + intros m Hbg. apply Hb. by destruct (background dataset).
    + intros m Hs. by apply (Hm' "offset-max").
    + intros m Hs. by apply (Hm' "aeff-default").
    + intros m Hs. by apply (Hm' "aeff-max").
    + intros m Hs. by apply (Hm' "edisp-bias").
    + intros m Hs. by apply (Hm' "bkg-peak").
Qed.

Lemma run_set_mask_safe (self : t) (dataset : Dataset) (mask : Mask)
    (observation : option Observation) :
  run self (set_mask_safe dataset mask) observation
    = run self dataset observation.
Proof. reflexivity. Qed.

(** X1.  [run] does not read the safe mask a data set already has: a
    successful [run] changes no attribute but [mask_safe], and running the
    maker again on its own result returns that result. *)
Theorem run_idempotent (self : t) (dataset dataset' : Dataset)
    (observation : option Observation) :
  run self dataset observation = Ok dataset' →
  run self dataset' observation = Ok dataset'
  ∧ _geom dataset' = _geom dataset
  ∧ exposure dataset' = exposure dataset
  ∧ background dataset' = background dataset
  ∧ edisp dataset' = edisp dataset
  ∧ stat_type dataset' = stat_type dataset
  ∧ npred_background_spectrum dataset' = npred_background_spectrum dataset
  ∧ is_Some (mask_safe dataset').
Proof.
  intros Hrun.
  destruct (run_Ok_inv _ _ _ _ Hrun) as (mask & -> & _).
  rewrite run_set_mask_safe. repeat split; done.
Qed.

(** X2.  Selecting more methods can only remove pixels: of two makers
    that differ in their methods only, the one with the larger set of
    methods returns a safe mask contained in the mask of the other. *)
Theorem run_more_methods_smaller_mask (self1 self2 : t)
    (dataset dataset1 dataset2 : Dataset)
    (observation : option Observation) (mask1 mask2 : Mask) :
  methods self1 ⊆ methods self2 →
  aeff_percent self1 = aeff_percent self2 →
  bias_percent self1 = bias_percent self2 →
  position self1 = position self2 →
  fixed_offset self1 = fixed_offset self2 →
  offset_max self1 = offset_max self2 →
  run self1 dataset observation = Ok dataset1 →
  run self2 dataset observation = Ok dataset2 →
  mask_safe dataset1 = Some mask1 →
  mask_safe dataset2 = Some mask2 →
  ∀ e p, mask2 e p = true → mask1 e p = true.
Proof.
  intros Hsub Ha Hb Hp Hf Ho Hrun1 Hrun2 Hm1 Hm2 e p.
  destruct (run_Ok_inv _ _ _ _ Hrun1) as (m1 & -> & H1).
  destruct (run_Ok_inv _ _ _ _ Hrun2) as (m2 & -> & H2).
  simpl in Hm1, Hm2. simplify_eq.
  rewrite H1, H2. intros [Hbkg Hall]. split; [done|].
  intros method m Hin Hmask. apply (Hall method m); [by apply Hsub|].
  by rewrite <- (method_mask_fields self1 self2).
Qed.

(** X3.  "offset-max" and "aeff-default" need the observation: with
    either of them selected, [run] without an observation raises
    [ValueError], whatever the data set. *)
Theorem run_requires_observation (self : t) (dataset : Dataset) :
  "offset-max" ∈ methods self ∨ "aeff-default" ∈ methods self →
  run self dataset None = Raise ValueError.
Proof.
  intros Hsel. unfold run.
  destruct (iand_if_raises_at_most_ValueError
              (truthy (background dataset)) (λ _ _, true)
              (make_mask_bkg_invalid dataset)) as [->|[m0 ->]];
    [|reflexivity|rewrite bind_Ok].
  { destruct (background dataset) as [bkg|] eqn:Hb; [|done].
    intros _. right. by apply (make_mask_bkg_invalid_Some dataset bkg). }
  unfold selected, iand_if.
  destruct (bool_decide ("offset-max" ∈ methods self)) eqn:Hom;
    [reflexivity|].
  rewrite bind_Ok. apply bool_decide_eq_false in Hom.
  destruct Hsel as [?|Had]; [done|].
  rewrite (bool_decide_eq_true_2 _ Had). reflexivity.
Qed.


(** X5.  Without a fixed offset neither "aeff-max" nor "edisp-bias"
    looks at the observation, so the masks [run] obtains by calling them
    without it are those it would obtain by passing it on. *)
Theorem observation_unused_without_fixed_offset (self : t)
    (dataset : Dataset) (observation : option Observation) :
  fixed_offset self = None →
  make_mask_energy_aeff_max self dataset observation
    = method_mask self dataset observation "aeff-max"
  ∧ make_mask_energy_edisp_bias self dataset observation
    = method_mask self dataset observation "edisp-bias".
Proof.
  intros Hoff. split.
  - change (method_mask self dataset observation "aeff-max")
      with (make_mask_energy_aeff_max self dataset None).
    unfold make_mask_energy_aeff_max, aeff_max_position. by rewrite Hoff.
  - change (method_mask self dataset observation "edisp-bias")
      with (make_mask_energy_edisp_bias self dataset None).
    unfold make_mask_energy_edisp_bias. by rewrite Hoff.
Qed.

Lemma first_positive_none (values : list num) :
  Forall (λ v, nltb (of_Z 0) v = false) values →
  first_positive values = Raise IndexError.
Proof.
  induction 1 as [|v values Hv _ IH]; [done|].
  simpl. by rewrite Hv, IH.
Qed.

(** X6.  When the effective area at the chosen position is positive at
    no energy node, "aeff-max" has no threshold to return: it raises
    [IndexError]. *)
Theorem aeff_max_no_positive_area (self : t) (dataset : Dataset)
    (observation : option Observation) (position : SkyCoord)
    (exposure : ExposureMap) (livetime : num) :
  aeff_max_position self dataset observation = Ok position →
  SafeMaskMaker.exposure dataset = Some exposure →
  exposure_meta exposure !! "livetime" = Some livetime →
  Forall (λ v, nltb (of_Z 0) v = false)
    (template_values
       (from_region_map
          (region_div (get_spectrum exposure position) livetime))) →
  make_mask_energy_aeff_max self dataset observation = Raise IndexError.
Proof.
  intros Hpos Hex Hlt Hall. unfold make_mask_energy_aeff_max.
  rewrite Hpos, bind_Ok, Hex, bind_Ok.
  unfold dict_getitem. rewrite Hlt, bind_Ok.
  by rewrite (first_positive_none _ Hall).
Qed.
End SafeMaskMaker_run_properties.

Section SafeMaskMaker_runs.
Import Demo.

Lemma run_twice :
  ∃ dataset',
    SafeMaskMaker.run maker dataset (Some observation) = Ok dataset'
    ∧ SafeMaskMaker.run maker dataset' (Some observation) = Ok dataset'.
Proof.
  eexists. split; [reflexivity|].
  refine (proj1 (run_idempotent maker dataset _ (Some observation) _)).
  reflexivity.
Defined.

Lemma run_three_methods_smaller_mask :
  ∃ dataset1 dataset2 mask1 mask2,
    SafeMaskMaker.run maker dataset (Some observation) = Ok dataset1
    ∧ SafeMaskMaker.run maker_three_methods dataset (Some observation)
        = Ok dataset2
    ∧ SafeMaskMaker.mask_safe dataset1 = Some mask1
    ∧ SafeMaskMaker.mask_safe dataset2 = Some mask2
    ∧ ∀ e p, mask2 e p = true → mask1 e p = true.
Proof.
  eexists _, _, _, _.
  split; [reflexivity|]. split; [reflexivity|].
  split; [reflexivity|]. split; [reflexivity|].
  refine (run_more_methods_smaller_mask maker maker_three_methods dataset
            _ _ (Some observation) _ _ _ _ _ _ _ _ _ _ _ _);
    try reflexivity.
  unfold maker, maker_three_methods. simpl.
  intros x. rewrite !elem_of_union. tauto.
Defined.

Lemma run_without_observation :
  SafeMaskMaker.run maker dataset None = Raise ValueError.
Proof.
  refine (run_requires_observation maker dataset _).
  right. unfold maker. simpl. rewrite elem_of_union, elem_of_singleton.
  by left.
Defined.


Lemma maker_observation_unused :
  SafeMaskMaker.make_mask_energy_aeff_max maker dataset (Some observation)
    = SafeMaskMaker.method_mask maker dataset (Some observation) "aeff-max"
  ∧ SafeMaskMaker.make_mask_energy_edisp_bias maker dataset
      (Some observation)
    = SafeMaskMaker.method_mask maker dataset (Some observation)
        "edisp-bias".
Proof.
  exact (observation_unused_without_fixed_offset maker dataset
           (Some observation) eq_refl).
Defined.

Lemma aeff_max_zero_exposure :
  SafeMaskMaker.make_mask_energy_aeff_max maker dataset_zero_exposure None
    = Raise IndexError.
Proof.
  refine (aeff_max_no_positive_area maker dataset_zero_exposure None
            (xz 0) exposure_zero (xz 10) _ _ _ _); try reflexivity.
  repeat constructor.
Defined.
End SafeMaskMaker_runs.

(** ** [BackgroundModel.stack]: what it leaves alone *)

Section BackgroundModel_frame.
Context {num : Type} `{!Arith num}.
Context {Geom Weights : Type} `{!BackgroundModel.MapApi num Geom Weights}.
Implicit Types h : BackgroundModel.Heap num Geom.

(** X7.  [self.stack(other)] writes to three objects only: the model
    [self], whose map it replaces, and the [Parameter] objects [norm] and
    [tilt] of its spectral model, whose values it assigns.  Every other
    background model — also [other], unless it is [self] — is unchanged,
    no spectral model is made to refer to other parameters, and every
    other [Parameter] object is unchanged; [self] keeps its name and its
    spectral model, and the two parameters keep their name, error, unit
    and frozen flag.  So another spectral model is affected exactly when
    it refers to one of these two [Parameter] objects. *)
Theorem stack_frame h h' (self other : BackgroundModel.loc)
    (weights : option Weights) :
  BackgroundModel.stack h self other weights = Some h' →
  BackgroundModel.spectral_models h' = BackgroundModel.spectral_models h
  ∧ (∀ l, l ≠ self →
       BackgroundModel.background_models h' !! l
         = BackgroundModel.background_models h !! l)
  ∧ ∃ obj obj' sm,
      BackgroundModel.background_models h !! self = Some obj
      ∧ BackgroundModel.background_models h' !! self = Some obj'
      ∧ BackgroundModel.spectral_model obj' = BackgroundModel.spectral_model obj
      ∧ BackgroundModel.name obj' = BackgroundModel.name obj
      ∧ BackgroundModel.spectral_models h
          !! BackgroundModel.spectral_model obj = Some sm
      ∧ (∀ p, p ≠ BackgroundModel.norm sm → p ≠ BackgroundModel.tilt sm →
           BackgroundModel.parameters h' !! p
             = BackgroundModel.parameters h !! p)
      ∧ (∀ p, p = BackgroundModel.norm sm ∨ p = BackgroundModel.tilt sm →
           ∃ par par',
             BackgroundModel.parameters h !! p = Some par
             ∧ BackgroundModel.parameters h' !! p = Some par'
             ∧ par_name par' = par_name par
             ∧ error par' = error par
             ∧ unit par' = unit par
             ∧ frozen par' = frozen par).
Proof.
  unfold BackgroundModel.stack, BackgroundModel.evaluate. intros Hstack.
  destruct (BackgroundModel.background_models h !! self) as [obj|] eqn:Hs;
    [|done].
  destruct (BackgroundModel.background_models h !! other) as [oobj|];
    [|done].
  simpl in Hstack.
  destruct (BackgroundModel.spectral_models h
              !! BackgroundModel.spectral_model obj) as [sm|] eqn:Hsm;
    [|done].
  simpl in Hstack.
  destruct (BackgroundModel.spectral_call h sm _) as [v|]; [|done].
  simpl in Hstack.
  destruct (BackgroundModel.spectral_models h
              !! BackgroundModel.spectral_model oobj) as [osm|];
    [|done].
  simpl in Hstack.
  destruct (BackgroundModel.spectral_call h osm _) as [ov|]; [|done].
  simpl in Hstack.
  unfold BackgroundModel.assign_value at 2 in Hstack. simpl in Hstack.
  destruct (BackgroundModel.parameters h !! BackgroundModel.norm sm)
    as [np|] eqn:Hnp; [|done].
  simpl in Hstack. rewrite Hsm in Hstack. simpl in Hstack.
  unfold BackgroundModel.assign_value in Hstack. simpl in Hstack.
  destruct (<[BackgroundModel.norm sm := BackgroundModel.set_value np _]>
              (BackgroundModel.parameters h) !! BackgroundModel.tilt sm)
    as [tp|] eqn:Htp; [|done].
  simpl in Hstack. injection Hstack as <-. simpl.
  split; [done|]. split.
  { intros l Hl. by rewrite lookup_insert_ne. }
  eexists obj, _, sm. split; [done|].
  split; [apply lookup_insert_eq|]. simpl.
  split; [done|]. split; [done|]. split; [done|]. split.
  { intros p Hn Ht. by rewrite !lookup_insert_ne. }
  intros p [->| ->].
  - exists np. destruct (decide (BackgroundModel.norm sm
                                 = BackgroundModel.tilt sm)) as [Heq|Hne].
    + rewrite <- Heq in Htp |- *. rewrite lookup_insert_eq in Htp.
      injection Htp as <-. eexists. split; [done|].
      split; [apply lookup_insert_eq|]. done.
    + eexists. split; [done|].
      split; [rewrite lookup_insert_ne by done; apply lookup_insert_eq|].
      done.
  - destruct (decide (BackgroundModel.norm sm
                      = BackgroundModel.tilt sm)) as [Heq|Hne].
    + rewrite <- Heq in Htp |- *. rewrite lookup_insert_eq in Htp.
      injection Htp as <-. exists np. eexists. split; [done|].
      split; [apply lookup_insert_eq|]. done.
    + rewrite lookup_insert_ne in Htp by done. exists tp. eexists.
      split; [done|]. split; [apply lookup_insert_eq|]. done.
Qed.
End BackgroundModel_frame.

(** ** [EnergyDependenceEstimator]: when the estimators return *)

Section EnergyDependenceEstimator_edges.
Context {num : Type} `{!Arith num} `{!EnergyDependenceEstimator.FitApi num}.
Import EnergyDependenceEstimator.
Local Abbreviation Slice := (SlicedDataset Sliced SkyModelObj).

Lemma np_shape2_Ok_inv {A : Type} (rows : list (list A)) (x y : nat) :
  np_shape2 rows = Ok (x, y) →
  rows ≠ [] ∧ x = length rows ∧ Forall (λ r, length r = y) rows.
Proof.
  destruct rows as [|r rest]; [done|]. unfold np_shape2.
  destruct (forallb _ rest) eqn:Hall; [|done].
  intros [= <- <-]. split; [done|]. split; [done|].
  constructor; [done|]. apply Forall_forall. intros r' Hin.
  rewrite forallb_forall in Hall. apply Nat.eqb_eq. apply Hall.
  by apply list_elem_of_In.
Qed.

Lemma set_masks_Ok_inv (self : t) (datasets datasets' : list MapDataset) :
  set_masks self datasets = Ok datasets' →
  length datasets' = length datasets
  ∧ (datasets ≠ [] → is_Some (energy_edges self !! 0)).
Proof.
  intros Hm. split; [by apply (mapM_Ok_length _ _ _ Hm)|].
  destruct datasets as [|d ds]; [done|]. intros _.
  unfold set_masks in Hm. simpl in Hm. unfold getitem in Hm.
  destruct (energy_edges self !! 0); [by eexists|done].
Qed.

Lemma slices_nonempty (self : t) (datasets : list MapDataset)
    (model : SkyModelObj) :
  all_slices self datasets model ≠ [] →
  datasets ≠ [] ∧ (1 ≤ num_energy_bands self)%Z.
Proof.
  intros Hne. split.
  - intros ->. by rewrite all_slices_nil in Hne.
  - assert (length (all_slices self datasets model) ≠ 0) as Hlen.
    { by destruct (all_slices self datasets model). }
    rewrite length_all_slices in Hlen.
    destruct (Z.to_nat (num_energy_bands self)) eqn:Hn; [done|]. lia.
Qed.

(** What a successful [estimate_energy_dependence] has gone through. *)
Lemma estimate_energy_dependence_Ok_inv (self : t)
    (datasets datasets' : list MapDataset) (r : EdepResult) :
  estimate_energy_dependence self datasets = Ok (datasets', r) →
  ∃ model y,
    length datasets' = length datasets
    ∧ models_getitem datasets' (source self) = Ok model
    ∧ all_slices self datasets' model ≠ []
    ∧ Forall (λ fr, length (free_names fr) = y)
        (fit_slices self (all_slices self datasets' model)).1.
Proof.
  unfold estimate_energy_dependence. intros Hrun.
  destruct (set_masks self datasets) as [ds1|] eqn:Hmask; [|done].
  rewrite bind_Ok in Hrun.
  destruct (models_getitem ds1 (source self)) as [model|] eqn:Hmodel;
    [|done].
  rewrite bind_Ok, make_slices_Ok, bind_Ok in Hrun.
  destruct (fit_slices self (all_slices self ds1 model)) as [rs fs] eqn:Hfit.
  destruct (np_shape2 (free_names <$> rs)) as [[x y]|] eqn:Hshape; [|done].
  rewrite bind_Ok in Hrun.
  destruct (spatial_parameters model) as [spatial|]; [|done].
  rewrite bind_Ok in Hrun.
  destruct (link_slices _ fs) as [linked|]; [|done].
  rewrite bind_Ok in Hrun.
  destruct (fit_run_datasets (fit self) linked) as [rj js].
  destruct (build_result _ _ rj rs) as [table|]; [|done].
  rewrite bind_Ok in Hrun. injection Hrun as <- <-.
  apply np_shape2_Ok_inv in Hshape as (Hne & _ & Hall).
  exists model, y. split; [by apply (set_masks_Ok_inv self)|].
  split; [done|]. split.
  - intros Hnil. rewrite Hnil in Hfit. unfold fit_slices in Hfit.
    simpl in Hfit. injection Hfit as <- <-. by apply Hne.
  - rewrite Hfit. simpl. apply Forall_fmap in Hall. exact Hall.
Qed.

(** X8.  [run] returns only for a [Datasets] with at least one data set
    and an estimator with at least one energy band (two energy edges),
    and only when the source model is found among the models of the data
    sets and the individual fits of the slices made with this model all
    report the same number of free parameters. *)
Theorem run_returns_only_if (self : t) (dataset : PyObject)
    (datasets' : list MapDataset) (results : gmap string RunEntry) :
  run self dataset = Ok (datasets', results) →
  ∃ datasets model y,
    dataset = IsDatasets datasets
    ∧ datasets ≠ []
    ∧ (1 ≤ num_energy_bands self)%Z
    ∧ models_getitem
        ((λ d, set_mask_fit d (default (of_Z 0) (energy_edges self !! 0)))
           <$> datasets) (source self) = Ok model
    ∧ Forall (λ fr, length (free_names fr) = y)
        (fit_slices self
           (all_slices self
              ((λ d, set_mask_fit d (default (of_Z 0)
                                       (energy_edges self !! 0)))
                 <$> datasets) model)).1.
Proof.
  destruct dataset as [datasets|d|]; [|done..]. unfold run. intros Hrun.
  destruct (estimate_energy_dependence self datasets) as [[ds1 r1]|] eqn:He;
    [|done].
  unfold estimate_energy_dependence in He.
  destruct (estimate_energy_dependence_Ok_inv _ _ _ _ He)
    as (model & y & Hlen & Hmodel & Hne & Hall).
  apply slices_nonempty in Hne as Hnm. destruct Hnm as [Hds1 Hn].
  assert (datasets ≠ []) as Hds.
  { intros ->. destruct ds1; [done|]. simpl in Hlen. lia. }
  assert (∃ e0, energy_edges self !! 0 = Some e0) as [e0 He0].
  { unfold num_energy_bands in Hn.
    destruct (energy_edges self) as [|e0 es]; simpl in *; [lia|eauto]. }
  exists datasets, model, y. rewrite He0. simpl.
  assert (ds1 = (λ d, set_mask_fit d e0) <$> datasets) as ->; [|done].
  unfold estimate_energy_dependence in He.
  rewrite (set_masks_Ok self datasets e0 He0), bind_Ok in He.
  destruct (models_getitem _ (source self)) as [model'|]; [|done].
  rewrite bind_Ok, make_slices_Ok, bind_Ok in He.
  destruct (fit_slices self _) as [rs fs].
  destruct (np_shape2 (free_names <$> rs)) as [[x' y']|]; [|done].
  rewrite bind_Ok in He.
  destruct (spatial_parameters model') as [spatial|]; [|done].
  rewrite bind_Ok in He.
  destruct (link_slices _ fs) as [linked|]; [|done].
  rewrite bind_Ok in He.
  destruct (fit_run_datasets (fit self) linked) as [rj js].
  destruct (build_result _ _ rj rs) as [table|]; [|done].
  rewrite bind_Ok in He. by injection He as <- _.
Qed.

(** X9.  The columns that [estimate_source_significance] returns do not
    all have one length: "delta_ts" and "significance" have an entry for
    every slice, that is n * m for n energy bands and m data sets, while
    "Emin", "Emax" and "df" have n entries. *)
Theorem significance_column_lengths (self : t)
    (datasets datasets' : list MapDataset) (r : BkgSrcResult) :
  estimate_source_significance self datasets = Ok (datasets', r) →
  let n := Z.to_nat (num_energy_bands self) in
  let m := length datasets in
  (1 ≤ n)%nat ∧ (1 ≤ m)%nat
  ∧ length (src_delta_ts r) = n * m
  ∧ length (src_significance r) = n * m
  ∧ length (src_df r) = n
  ∧ length (src_Emin r) = n
  ∧ length (src_Emax r) = n.
Proof.
  unfold estimate_source_significance. intros Hrun. cbv zeta.
  destruct (set_masks self datasets) as [ds1|] eqn:Hmask; [|done].
  rewrite bind_Ok in Hrun.
  destruct (models_getitem ds1 (source self)) as [model|]; [|done].
  rewrite bind_Ok, make_slices_Ok, bind_Ok in Hrun.
  destruct (mapM (nested_test self) (all_slices self ds1 model))
    as [test_results|] eqn:Htests; [|done].
  rewrite bind_Ok in Hrun. unfold getitem in Hrun.
  rewrite list_lookup_fmap in Hrun.
  destruct (test_results !! 0) as [first|] eqn:Hfirst; [|done].
  simpl in Hrun. injection Hrun as <- <-. simpl.
  apply mapM_Ok_length in Htests as Hlen.
  rewrite length_all_slices in Hlen.
  apply set_masks_Ok_inv in Hmask as [Hm _]. rewrite Hm in Hlen.
  apply lookup_lt_Some in Hfirst.
  rewrite !length_fmap, length_replicate, length_take, length_drop.
  unfold num_energy_bands in *. repeat split; nia.
Qed.

(** X10.  With no energy edge at all and at least one data set, both
    estimators and [run] raise [IndexError], from the first statement that
    reads [energy_edges[0]]; [num_energy_bands] is then -1. *)
Theorem no_energy_edge_raises_IndexError (self : t)
    (datasets : list MapDataset) :
  energy_edges self = [] →
  datasets ≠ [] →
  num_energy_bands self = (-1)%Z
  ∧ estimate_energy_dependence self datasets = Raise IndexError
  ∧ estimate_source_significance self datasets = Raise IndexError
  ∧ run self (IsDatasets datasets) = Raise IndexError.
Proof.
  intros Hedges Hds. destruct datasets as [|d ds]; [done|].
  assert (set_masks self (d :: ds) = Raise IndexError) as Hmask.
  { unfold set_masks. simpl. by rewrite Hedges. }
  assert (estimate_energy_dependence self (d :: ds) = Raise IndexError)
    as Hedep.
  { unfold estimate_energy_dependence. by rewrite Hmask. }
  split; [unfold num_energy_bands; by rewrite Hedges|].
  split; [done|]. split.
  - unfold estimate_source_significance. by rewrite Hmask.
  - unfold run. by rewrite Hedep.
Qed.

(** X11.  With a single energy edge there is no energy band and no
    slice: when the source model is found, [estimate_energy_dependence]
    raises [ValueError] (the shape of an empty list of fit results cannot
    be unpacked) and [estimate_source_significance] raises [IndexError]
    (there is no first test result). *)
Theorem single_energy_edge_raises (self : t) (datasets : list MapDataset)
    (e0 : num) (model : SkyModelObj) :
  energy_edges self = [e0] →
  models_getitem ((λ d, set_mask_fit d e0) <$> datasets) (source self)
    = Ok model →
  estimate_energy_dependence self datasets = Raise ValueError
  ∧ estimate_source_significance self datasets = Raise IndexError.
Proof.
  intros Hedges Hmodel.
  assert (energy_edges self !! 0 = Some e0) as He0 by (by rewrite Hedges).
  assert (∀ ds, all_slices self ds model = []) as Hnil.
  { intros ds. unfold all_slices, bands. by rewrite Hedges. }
  split.
  - unfold estimate_energy_dependence.
    rewrite (set_masks_Ok self datasets e0 He0), bind_Ok, Hmodel, bind_Ok.
    by rewrite make_slices_Ok, bind_Ok, Hnil.
  - unfold estimate_source_significance.
    rewrite (set_masks_Ok self datasets e0 He0), bind_Ok, Hmodel, bind_Ok.
    by rewrite make_slices_Ok, bind_Ok, Hnil.
Qed.
End EnergyDependenceEstimator_edges.

Section Further_runs.
Import Demo.

(** [background_c] is not written to, but its spectral model shares the
    [norm] parameter with that of [background_a]: after the call it reads
    the value 1 there, and its own [tilt] as before. *)
Lemma stack_frame_shared_spectral_model :
  ∃ h',
    BackgroundModel.stack heap 0 1 None = Some h'
    ∧ BackgroundModel.background_models h' !! 1 = Some background_b
    ∧ BackgroundModel.background_models h' !! 2 = Some background_c
    ∧ BackgroundModel.spectral_models h' !! 1 = Some spectral_model_1
    ∧ BackgroundModel.parameters h' !! 3 = Some (par "tilt" 2 true)
    ∧ BackgroundModel.parameters h' !! BackgroundModel.norm spectral_model_1
        = Some (par "norm" 1 false)
    ∧ BackgroundModel.evaluate heap background_c
        = Some {| BackgroundModel.geom := [xz 1; xz 2];
                  BackgroundModel.data :=
                    [[xz 10; xz 12]; [XQ (7 # 2); xz 4]] |}
    ∧ BackgroundModel.evaluate h' background_c
        = Some {| BackgroundModel.geom := [xz 1; xz 2];
                  BackgroundModel.data :=
                    [[xz 5; xz 6]; [XQ (7 # 4); xz 2]] |}.
Proof.
  eexists. split; [reflexivity|].
  destruct (stack_frame heap _ 0 1 None eq_refl)
    as (Hsms & Hbm & obj & obj' & sm & Ho & _ & _ & _ & Hsm & Hpar & _).
  vm_compute in Ho. injection Ho as <-.
  vm_compute in Hsm. injection Hsm as <-.
  split; [by rewrite Hbm|]. split; [by rewrite Hbm|].
  split; [by rewrite Hsms|].
  split; [by rewrite Hpar|].
  split; [reflexivity|]. split; vm_compute; reflexivity.
Defined.

Lemma run_two_datasets_returns :
  ∃ (datasets : list DDataset) (model : DModel) (y : nat),
    [dataset_a; dataset_b] = datasets
    ∧ datasets ≠ []
    ∧ (1 ≤ EnergyDependenceEstimator.num_energy_bands estimator)%Z
    ∧ d_models_getitem
        ((λ d, EnergyDependenceEstimator.set_mask_fit d (xz 1)) <$> datasets)
        "source" = Ok model
    ∧ Forall
        (λ fr, length (EnergyDependenceEstimator.free_names fr) = y)
        (EnergyDependenceEstimator.fit_slices estimator
           (EnergyDependenceEstimator.all_slices estimator
              ((λ d, EnergyDependenceEstimator.set_mask_fit d (xz 1))
                 <$> datasets) model)).1.
Proof.
  edestruct (run_returns_only_if estimator
               (EnergyDependenceEstimator.IsDatasets (FitApi0:=fit_api)
                  [dataset_a; dataset_b]))
    as (datasets & model & y & Hds & Hne & Hn & Hmodel & Hall).
  - reflexivity.
  - injection Hds as <-. by exists [dataset_a; dataset_b], model, y.
Defined.

(** Two data sets and one band: two values of "delta_ts", one of "df". *)
Lemma significance_columns_two_datasets :
  ∃ datasets' r,
    EnergyDependenceEstimator.estimate_source_significance estimator
      [dataset_a; dataset_b] = Ok (datasets', r)
    ∧ length (EnergyDependenceEstimator.src_delta_ts r) = 2
    ∧ length (EnergyDependenceEstimator.src_df r) = 1.
Proof.
  eexists _, _. split; [reflexivity|].
  edestruct (significance_column_lengths estimator [dataset_a; dataset_b])
    as (_ & _ & Hts & _ & Hdf & _); [reflexivity|].
  split; [exact Hts|exact Hdf].
Defined.

Lemma no_energy_edge_two_datasets :
  EnergyDependenceEstimator.run estimator_no_edge
    (EnergyDependenceEstimator.IsDatasets (FitApi0:=fit_api)
                  [dataset_a; dataset_b])
    = Raise IndexError.
Proof.
  refine (proj2 (proj2 (proj2
            (no_energy_edge_raises_IndexError estimator_no_edge
               [dataset_a; dataset_b] _ _)))); [reflexivity|discriminate].
Defined.

Lemma single_energy_edge_two_datasets :
  EnergyDependenceEstimator.estimate_energy_dependence estimator_one_edge
    [dataset_a; dataset_b] = Raise ValueError
  ∧ EnergyDependenceEstimator.estimate_source_significance
      estimator_one_edge [dataset_a; dataset_b] = Raise IndexError.
Proof.
  refine (single_energy_edge_raises estimator_one_edge
            [dataset_a; dataset_b] (xz 1) source_model _ _); reflexivity.
Defined.
End Further_runs.

(** ** The table of fitted values and [weighted_chi2_parameter] *)

Section Table_properties.
Context {num : Type} `{!Arith num} `{!EnergyDependenceEstimator.FitApi num}.
Context `{!WeightedChi2.NumpyApi num}.
Import EnergyDependenceEstimator WeightedChi2.
Local Abbreviation Column := (@EnergyDependenceEstimator.Column num).

(** The table before the columns of the parameters are added. *)
Local Abbreviation base_table self e_first e_last :=
  (<["Emax" := Values (e_last :: drop 1 (energy_edges self))]>
     (<["Emin" :=
          Values (e_first ::
                  take (length (energy_edges self) - 1) (energy_edges self))]>
        (<["Hypothesis" :=
             Strings ("H0" ::
                      replicate (Z.to_nat (num_energy_bands self)) "H1")]>
           (∅ : gmap string Column)))).

Lemma build_result_Ok_inv (self : t) (parameters : list string)
    (result_joint : FitResult num) (results_src : list (FitResult num))
    (table : gmap string Column) :
  build_result self parameters result_joint results_src = Ok table →
  ∃ joint_values joint_errors units per_band e_first e_last,
    length per_band = Z.to_nat (num_energy_bands self)
    ∧ (0 ≤ num_energy_bands self)%Z
    ∧ foldlM (add_parameter_columns parameters joint_values joint_errors
                units per_band)
        (base_table self e_first e_last) (seq 0 (length parameters))
      = Ok table
    ∧ parameter_column value result_joint parameters = Ok joint_values
    ∧ parameter_column error result_joint parameters = Ok joint_errors
    ∧ parameter_column unit result_joint parameters = Ok units
    ∧ mapM (λ i,
              r ← getitem results_src i;
              vs ← parameter_column value r parameters;
              es ← parameter_column error r parameters;
              Ok (vs, es))
        (seq 0 (Z.to_nat (num_energy_bands self))) = Ok per_band
    ∧ energy_edges self !! 0 = Some e_first
    ∧ energy_edges self !! (length (energy_edges self) - 1) = Some e_last.
Proof.
  unfold build_result. intros Hb.
  destruct (parameter_column value result_joint parameters) as [jv|];
    [|done].
  rewrite bind_Ok in Hb.
  destruct (parameter_column error result_joint parameters) as [je|];
    [|done].
  rewrite bind_Ok in Hb.
  destruct (num_energy_bands self <? 0)%Z eqn:Hn; [done|].
  rewrite bind_Ok in Hb.
  destruct (mapM _ (seq 0 (Z.to_nat (num_energy_bands self))))
    as [per_band|] eqn:Hpb; [|done].
  rewrite bind_Ok in Hb. unfold getitem in Hb.
  destruct (energy_edges self !! 0) as [e_first|]; [|done].
  rewrite bind_Ok in Hb.
  destruct (energy_edges self !! (length (energy_edges self) - 1))
    as [e_last|]; [|done].
  rewrite bind_Ok in Hb.
  destruct (parameter_column unit result_joint parameters) as [us|];
    [|done].
  rewrite bind_Ok in Hb.
  exists jv, je, us, per_band, e_first, e_last.
  split; [|split; [lia|split; [exact Hb|done]]].
  apply mapM_Ok_length in Hpb. by rewrite length_seq in Hpb.
Qed.

Lemma add_parameter_columns_Ok_inv (parameters : list string)
    (joint_values joint_errors : list num) (units : list string)
    (per_band : list (list num * list num))
    (result result' : gmap string Column) (i : nat) :
  add_parameter_columns parameters joint_values joint_errors units per_band
    result i = Ok result' →
  ∃ p x y u row_values row_errors,
    parameters !! i = Some p
    ∧ length row_values = length per_band
    ∧ length row_errors = length per_band
    ∧ result' =
        <[p +:+ "_err" := Quantities (y :: row_errors) u]>
          (<[p := Quantities (x :: row_values) u]> result)
    ∧ joint_values !! i = Some x
    ∧ joint_errors !! i = Some y
    ∧ units !! i = Some u
    ∧ mapM (λ ve : list num * list num, getitem ve.1 i) per_band
        = Ok row_values
    ∧ mapM (λ ve : list num * list num, getitem ve.2 i) per_band
        = Ok row_errors.
Proof.
  unfold add_parameter_columns, getitem. intros Ha.
  destruct (parameters !! i) as [p|]; [|done]. rewrite bind_Ok in Ha.
  destruct (joint_values !! i) as [x|] eqn:Hx; [|done].
  rewrite bind_Ok in Ha.
  destruct (joint_errors !! i) as [y|] eqn:Hy; [|done].
  rewrite bind_Ok in Ha.
  destruct (units !! i) as [u|] eqn:Hu; [|done]. rewrite bind_Ok in Ha.
  destruct (mapM (λ ve : list num * list num,
                    match ve.1 !! i with
                    | Some x => Ok x
                    | None => Raise IndexError
                    end) per_band) as [rv|] eqn:Hrv;
    [|discriminate Ha].
  rewrite bind_Ok in Ha.
  destruct (mapM (λ ve : list num * list num,
                    match ve.2 !! i with
                    | Some x => Ok x
                    | None => Raise IndexError
                    end) per_band) as [re|] eqn:Hre;
    [|discriminate Ha].
  rewrite bind_Ok in Ha. injection Ha as <-.
  exists p, x, y, u, rv, re. split; [done|].
  split; [by apply (mapM_Ok_length _ _ _ Hrv)|].
  split; [by apply (mapM_Ok_length _ _ _ Hre)|done].
Qed.

(** The columns of the parameter of index [i] are those written at the
    step [i] of the loop, when no other step writes to a column of these
    names; a column that no step writes to is kept. *)
Lemma parameter_columns_content (parameters : list string)
    (joint_values joint_errors : list num) (units : list string)
    (per_band : list (list num * list num)) (indices : list nat)
    (result result' : gmap string Column) :
  foldlM (add_parameter_columns parameters joint_values joint_errors units
            per_band) result indices = Ok result' →
  (∀ key,
     (∀ j q, j ∈ indices → parameters !! j = Some q →
        q ≠ key ∧ q +:+ "_err" ≠ key) →
     result' !! key = result !! key)
  ∧ ∀ i p, i ∈ indices → parameters !! i = Some p →
      (∀ j q, j ∈ indices → parameters !! j = Some q → j ≠ i →
         (q ≠ p ∧ q +:+ "_err" ≠ p)
         ∧ (q ≠ p +:+ "_err" ∧ q +:+ "_err" ≠ p +:+ "_err")) →
      p +:+ "_err" ≠ p →
      ∃ x y u row_values row_errors,
        joint_values !! i = Some x
        ∧ joint_errors !! i = Some y
        ∧ units !! i = Some u
        ∧ mapM (λ ve : list num * list num, getitem ve.1 i) per_band
            = Ok row_values
        ∧ mapM (λ ve : list num * list num, getitem ve.2 i) per_band
            = Ok row_errors
        ∧ result' !! p = Some (Quantities (x :: row_values) u)
        ∧ result' !! (p +:+ "_err") = Some (Quantities (y :: row_errors) u).
Proof.
  revert result. induction indices as [|k indices IH]; intros result.
  - simpl. intros [= <-]. split; [done|].
    intros i p Hi. by apply elem_of_nil in Hi.
  - simpl. destruct (add_parameter_columns _ _ _ _ _ result k)
      as [result1|] eqn:Hstep; [|done].
    rewrite bind_Ok. intros Hfold.
    apply add_parameter_columns_Ok_inv in Hstep
      as (pk & x & y & u & rv & re & Hpk & _ & _ & -> & Hx & Hy & Hu
          & Hrv & Hre).
    destruct (IH _ Hfold) as [IHkeep IHcol]. split.
    + intros key Hkey. rewrite IHkeep.
      * destruct (Hkey k pk) as [Hk1 Hk2]; [by left|done|].
        by rewrite !lookup_insert_ne.
      * intros j q Hj. apply Hkey. by right.
    + intros i p Hi Hp Hother Hself.
      destruct (decide (i ∈ indices)) as [Hin|Hnotin].
      { apply IHcol; [done..| |done].
        intros j q Hj. apply Hother. by right. }
      apply elem_of_cons in Hi as [->|Hi]; [|done].
      rewrite Hp in Hpk. injection Hpk as <-.
      exists x, y, u, rv, re. repeat (split; [done|]).
      assert (∀ j q, j ∈ indices → parameters !! j = Some q →
                (q ≠ p ∧ q +:+ "_err" ≠ p)
                ∧ (q ≠ p +:+ "_err" ∧ q +:+ "_err" ≠ p +:+ "_err")) as Hrest.
      { intros j q Hj Hq. apply (Hother j q); [by right|done|].
        intros ->. done. }
      split.
      * rewrite IHkeep by (intros j q Hj Hq; apply (Hrest j q Hj Hq)).
        rewrite lookup_insert_ne by done. apply lookup_insert_eq.
      * rewrite IHkeep by (intros j q Hj Hq; apply (Hrest j q Hj Hq)).
        apply lookup_insert_eq.
Qed.

Lemma parameter_column_lookup {X : Type} (attr : ParameterObj num → X)
    (r : FitResult num) (parameters : list string) (l : list X) (i : nat)
    (p : string) :
  parameter_column attr r parameters = Ok l →
  parameters !! i = Some p →
  ∃ par,
    parameters_getitem (EnergyDependenceEstimator.parameters r) p = Ok par
    ∧ l !! i = Some (attr par).
Proof.
  intros Hl Hp. unfold parameter_column in Hl.
  destruct (mapM_Ok_lookup _ _ _ _ _ Hl Hp) as (y & Hy & Hf).
  destruct (parameters_getitem _ p) as [par|]; [|done].
  rewrite bind_Ok in Hf. injection Hf as <-. by exists par.
Qed.

Lemma parameter_columns_shape (parameters : list string)
    (joint_values joint_errors : list num) (units : list string)
    (per_band : list (list num * list num)) (indices : list nat)
    (result result' : gmap string Column) :
  foldlM (add_parameter_columns parameters joint_values joint_errors units
            per_band) result indices = Ok result' →
  ((∀ key col, result !! key = Some col →
      column_length col = S (length per_band)) →
   ∀ key col, result' !! key = Some col →
      column_length col = S (length per_band))
  ∧ ∀ key, is_Some (result' !! key) ↔
      is_Some (result !! key)
      ∨ ∃ i p, i ∈ indices ∧ parameters !! i = Some p
               ∧ (key = p ∨ key = p +:+ "_err").
Proof.
  revert result. induction indices as [|i indices IH]; intros result.
  - simpl. intros [= <-]. split; [done|]. intros key. split; [by left|].
    intros [?|(i & p & Hi & _)]; [done|]. by apply elem_of_nil in Hi.
  - simpl. destruct (add_parameter_columns _ _ _ _ _ result i)
      as [result1|] eqn:Hstep; [|done].
    rewrite bind_Ok. intros Hfold.
    apply add_parameter_columns_Ok_inv in Hstep
      as (p & x & y & u & rv & re & Hp & Hrv & Hre & -> & _).
    destruct (IH _ Hfold) as [IHlen IHdom]. split.
    + intros Hlen. apply IHlen. intros key col.
      rewrite lookup_insert. case_decide.
      { intros [= <-]. simpl. by rewrite Hre. }
      rewrite lookup_insert. case_decide.
      { intros [= <-]. simpl. by rewrite Hrv. }
      apply Hlen.
    + intros key. rewrite IHdom, !lookup_insert_is_Some'. split.
      * intros [[<-|[<-|?]]|(j & q & Hj & Hq & Hkey)].
        -- right. exists i, p. split; [left|]. by split; [|right].
        -- right. exists i, p. split; [left|]. by split; [|left].
        -- by left.
        -- right. exists j, q. split; [by right|done].
      * intros [?|(j & q & Hj & Hq & Hkey)]; [by left; right; right|].
        apply elem_of_cons in Hj as [->|Hj].
        -- left. rewrite Hp in Hq. injection Hq as <-.
           destruct Hkey as [->| ->]; [right; by left|by left].
        -- right. by exists j, q.
Qed.

Lemma base_table_shape (self : t) (e_first e_last : num) :
  (∀ key col, base_table self e_first e_last !! key = Some col →
     column_length col
       = S (Z.to_nat (Z.of_nat (length (energy_edges self)) - 1)))
  ∧ ∀ key, is_Some (base_table self e_first e_last !! key) ↔
      key = "Hypothesis" ∨ key = "Emin" ∨ key = "Emax".
Proof.
  split.
  - intros key col. unfold num_energy_bands.
    rewrite lookup_insert. case_decide.
    { intros [= <-]. simpl. rewrite length_drop. lia. }
    rewrite lookup_insert. case_decide.
    { intros [= <-]. simpl. rewrite length_take. lia. }
    rewrite lookup_insert. case_decide; [|by rewrite lookup_empty].
    intros [= <-]. simpl. by rewrite length_replicate.
  - intros key. rewrite !lookup_insert_is_Some', lookup_empty.
    split.
    + intros [<-|[<-|[<-|Hn]]]; auto. by apply is_Some_None in Hn.
    + intros [->|[->| ->]]; auto.
Qed.

Lemma build_result_shape (self : t) (parameters : list string)
    (result_joint : FitResult num) (results_src : list (FitResult num))
    (table : gmap string Column) :
  build_result self parameters result_joint results_src = Ok table →
  (0 ≤ num_energy_bands self)%Z
  ∧ (∀ key, is_Some (table !! key) ↔
       key = "Hypothesis" ∨ key = "Emin" ∨ key = "Emax"
       ∨ ∃ p, p ∈ parameters ∧ (key = p ∨ key = p +:+ "_err"))
  ∧ ∀ key col, table !! key = Some col →
      column_length col = S (Z.to_nat (num_energy_bands self)).
Proof.
  intros Hb.
  apply build_result_Ok_inv in Hb
    as (jv & je & us & pb & e_first & e_last & Hpb & Hn & Hfold & _).
  apply parameter_columns_shape in Hfold as [Hlen Hdom].
  destruct (base_table_shape self e_first e_last) as [Hblen Hbdom].
  split; [done|]. split.
  - intros key. rewrite Hdom, Hbdom. split.
    + intros [[?|[?|?]]|(i & p & _ & Hp & Hkey)]; auto.
      do 3 right. exists p. split; [|done].
      by eapply list_elem_of_lookup_2.
    + intros [?|[?|[?|(p & Hp & Hkey)]]]; auto.
      right. apply list_elem_of_lookup_1 in Hp as [i Hi].
      exists i, p. split; [|done].
      apply elem_of_seq. apply lookup_lt_Some in Hi. lia.
  - rewrite <- Hpb. apply Hlen. rewrite Hpb. exact Hblen.
Qed.

(** The rows of the table: the joint fit, then the individual fits in
    the order of [results_src]. *)
Lemma build_result_rows (self : t) (parameters : list string)
    (result_joint : FitResult num) (results_src : list (FitResult num))
    (table : gmap string Column) :
  build_result self parameters result_joint results_src = Ok table →
  NoDup (["Hypothesis"; "Emin"; "Emax"] ++ parameters
         ++ ((λ p, p +:+ "_err") <$> parameters)) →
  table !! "Hypothesis" =
    Some (Strings ("H0" :: replicate (Z.to_nat (num_energy_bands self)) "H1"))
  ∧ (∃ e_first e_last,
       energy_edges self !! 0 = Some e_first
       ∧ energy_edges self !! (length (energy_edges self) - 1) = Some e_last
       ∧ table !! "Emin" =
           Some (Values (e_first ::
                         take (length (energy_edges self) - 1)
                           (energy_edges self)))
       ∧ table !! "Emax" =
           Some (Values (e_last :: drop 1 (energy_edges self))))
  ∧ ∀ p, p ∈ parameters →
      ∃ joint_par values errors,
        parameters_getitem
          (EnergyDependenceEstimator.parameters result_joint) p = Ok joint_par
        ∧ table !! p =
            Some (Quantities (value joint_par :: values) (unit joint_par))
        ∧ table !! (p +:+ "_err") =
            Some (Quantities (error joint_par :: errors) (unit joint_par))
        ∧ ∀ i, (i < Z.to_nat (num_energy_bands self))%nat →
            ∃ r par,
              results_src !! i = Some r
              ∧ parameters_getitem
                  (EnergyDependenceEstimator.parameters r) p = Ok par
              ∧ values !! i = Some (value par)
              ∧ errors !! i = Some (error par).
Proof.
  intros Hb Hnodup.
  apply build_result_Ok_inv in Hb
    as (jv & je & us & pb & e_first & e_last & Hpb & Hn & Hfold
        & Hjv & Hje & Hus & Hrows & Hfirst & Hlast).
  apply parameter_columns_content in Hfold as [Hkeep Hcol].
  apply NoDup_app in Hnodup as (_ & Hfixed & Hnodup).
  apply NoDup_app in Hnodup as (Hpars & Hcross & Herrs).
  assert (∀ key, key ∈ ["Hypothesis"; "Emin"; "Emax"] →
            ∀ j q, j ∈ seq 0 (length parameters) → parameters !! j = Some q →
              q ≠ key ∧ q +:+ "_err" ≠ key) as Hnot.
  { intros key Hkey j q _ Hq.
    apply list_elem_of_lookup_2 in Hq.
    split; intros <-; apply (Hfixed _ Hkey); apply elem_of_app;
      [by left|right]. by apply (list_elem_of_fmap_2 (λ p, p +:+ "_err")). }
  split; [|split].
  - rewrite Hkeep by (apply Hnot; repeat constructor). done.
  - exists e_first, e_last. split; [done|]. split; [done|]. split.
    + rewrite Hkeep by (apply Hnot; repeat constructor). done.
    + rewrite Hkeep by (apply Hnot; repeat constructor). done.
  - intros p Hp. apply list_elem_of_lookup_1 in Hp as [i0 Hi0].
    destruct (Hcol i0 p) as (x & y & u & rv & re & Hx & Hy & Hu & Hrv & Hre
                             & Hcolv & Hcole).
    { apply elem_of_seq. apply lookup_lt_Some in Hi0. lia. }
    { done. }
    { intros j q _ Hq Hji.
      assert (q ≠ p) as Hqp.
      { intros ->. apply Hji. by apply (NoDup_lookup _ _ _ _ Hpars Hq). }
      assert (q ∈ parameters) as Hqin by (by eapply list_elem_of_lookup_2).
      assert (p ∈ parameters) as Hpin by (by eapply list_elem_of_lookup_2).
      repeat split; [done| | |].
      - intros Heq. apply (Hcross p Hpin). rewrite <- Heq.
        by apply (list_elem_of_fmap_2 (λ p, p +:+ "_err")).
      - intros Heq. apply (Hcross q Hqin). rewrite Heq.
        by apply (list_elem_of_fmap_2 (λ p, p +:+ "_err")).
      - intros Heq. apply Hji.
        apply (NoDup_lookup _ _ _ (p +:+ "_err") Herrs).
        + by rewrite list_lookup_fmap, Hq, <- Heq.
        + by rewrite list_lookup_fmap, Hi0. }
    { intros Heq. apply (Hcross p); [by eapply list_elem_of_lookup_2|].
      rewrite <- Heq at 1.
      apply (list_elem_of_fmap_2 (λ p, p +:+ "_err")).
      by eapply list_elem_of_lookup_2. }
    destruct (parameter_column_lookup _ _ _ _ _ _ Hjv Hi0)
      as (jp & Hjp & Hjv0).
    destruct (parameter_column_lookup _ _ _ _ _ _ Hje Hi0)
      as (jp' & Hjp' & Hje0).
    destruct (parameter_column_lookup _ _ _ _ _ _ Hus Hi0)
      as (jp'' & Hjp'' & Hus0).
    rewrite Hjp in Hjp', Hjp''.
    injection Hjp' as <-. injection Hjp'' as <-.
    rewrite Hx in Hjv0. injection Hjv0 as ->.
    rewrite Hy in Hje0. injection Hje0 as ->.
    rewrite Hu in Hus0. injection Hus0 as ->.
    exists jp, rv, re. split; [done|]. split; [done|]. split; [done|].
    intros i Hi.
    destruct (mapM_Ok_lookup _ _ _ i i Hrows) as ([vs es] & Hpbi & Hband).
    { by apply lookup_seq_lt. }
    unfold getitem in Hband.
    destruct (results_src !! i) as [r|]; [|done].
    rewrite bind_Ok in Hband.
    destruct (parameter_column value r parameters) as [vs'|] eqn:Hvs;
      [|done].
    rewrite bind_Ok in Hband.
    destruct (parameter_column error r parameters) as [es'|] eqn:Hes;
      [|done].
    rewrite bind_Ok in Hband. injection Hband as -> ->.
    destruct (parameter_column_lookup _ _ _ _ _ _ Hvs Hi0)
      as (par & Hpar & Hv).
    destruct (parameter_column_lookup _ _ _ _ _ _ Hes Hi0)
      as (par' & Hpar' & He).
    rewrite Hpar in Hpar'. injection Hpar' as <-.
    destruct (mapM_Ok_lookup _ _ _ _ _ Hrv Hpbi) as (v & Hrvi & Hgv).
    destruct (mapM_Ok_lookup _ _ _ _ _ Hre Hpbi) as (e & Hrei & Hge).
    unfold getitem in Hgv, Hge. simpl in Hgv, Hge.
    rewrite Hv in Hgv. rewrite He in Hge.
    injection Hgv as <-. injection Hge as <-.
    by exists r, par.
Qed.

(** X12.  The table that [estimate_energy_dependence] returns has the
    columns "Hypothesis", "Emin", "Emax" and, for every free spatial
    parameter [p] of the source model, [p] and [p_err], and no other, and
    every column has [num_energy_bands + 1] rows.  When these column names
    are pairwise distinct, the first row is the joint fit — "H0", the
    first and the last energy edge, and value, error and unit of the
    parameter in the joint result — and the row [i + 1] is "H1", the edges
    of the band [i], and value and error of the parameter in
    [results_src[i]], the result of the individual fit of the slice
    [i]. *)
Theorem build_result_table_shape (self : t) (parameters : list string)
    (result_joint : FitResult num) (results_src : list (FitResult num))
    (table : gmap string Column) :
  build_result self parameters result_joint results_src = Ok table →
  (∀ key, key ∈ dom table ↔
     key = "Hypothesis" ∨ key = "Emin" ∨ key = "Emax"
     ∨ ∃ p, p ∈ parameters ∧ (key = p ∨ key = p +:+ "_err"))
  ∧ (∀ key col, table !! key = Some col →
       column_length col = S (Z.to_nat (num_energy_bands self)))
  ∧ (NoDup (["Hypothesis"; "Emin"; "Emax"] ++ parameters
            ++ ((λ p, p +:+ "_err") <$> parameters)) →
     table !! "Hypothesis" =
       Some (Strings
               ("H0" :: replicate (Z.to_nat (num_energy_bands self)) "H1"))
     ∧ (∃ e_first e_last,
          energy_edges self !! 0 = Some e_first
          ∧ energy_edges self !! (length (energy_edges self) - 1)
              = Some e_last
          ∧ table !! "Emin" =
              Some (Values (e_first ::
                            take (length (energy_edges self) - 1)
                              (energy_edges self)))
          ∧ table !! "Emax" =
              Some (Values (e_last :: drop 1 (energy_edges self))))
     ∧ ∀ p, p ∈ parameters →
         ∃ joint_par values errors,
           parameters_getitem
             (EnergyDependenceEstimator.parameters result_joint) p
             = Ok joint_par
           ∧ table !! p =
               Some (Quantities (value joint_par :: values)
                       (unit joint_par))
           ∧ table !! (p +:+ "_err") =
               Some (Quantities (error joint_par :: errors)
                       (unit joint_par))
           ∧ ∀ i, (i < Z.to_nat (num_energy_bands self))%nat →
               ∃ r par,
                 results_src !! i = Some r
                 ∧ parameters_getitem
                     (EnergyDependenceEstimator.parameters r) p = Ok par
                 ∧ values !! i = Some (value par)
                 ∧ errors !! i = Some (error par)).
Proof.
  intros Hb. pose proof (build_result_rows _ _ _ _ _ Hb) as Hrows.
  apply build_result_shape in Hb as (_ & Hdom & Hlen).
  split; [|split; [done|exact Hrows]].
  intros key. by rewrite elem_of_dom, Hdom.
Qed.

Lemma Table_Ok (data : gmap string Column) (rows : nat) :
  (∀ key col, data !! key = Some col → column_length col = rows) →
  Table data = Ok data.
Proof.
  intros Hlen. unfold Table.
  destruct (map_to_list data) as [|[k c] rest] eqn:Hl; [done|].
  assert (∀ kc, kc ∈ map_to_list data → column_length kc.2 = rows) as Hall.
  { intros [k' c'] Hin. apply elem_of_map_to_list in Hin.
    by apply (Hlen k'). }
  rewrite Hl in Hall.
  assert (forallb (λ kc : string * Column,
                     Nat.eqb (column_length kc.2) (column_length c)) rest
          = true) as ->; [|done].
  apply forallb_forall. intros kc Hin. apply Nat.eqb_eq.
  rewrite (Hall kc) by (right; by apply list_elem_of_In).
  symmetry. apply (Hall (k, c)). by left.
Qed.

(** X13.  On the table of [estimate_energy_dependence],
    [weighted_chi2_parameter] leaves the row of the joint fit out and
    compares the values of the energy bands with their weighted mean: the
    number of degrees of freedom it reports is the number of energy bands
    minus one, and the dictionary it returns has the three keys
    "chi2 <parameter>", "df" and "significance". *)
Theorem weighted_chi2_degrees_of_freedom (self : t)
    (parameters : list string) (result_joint : FitResult num)
    (results_src : list (FitResult num)) (table : gmap string Column)
    (parameter : string) (values errors : list num) (u u' : string)
    (avg : num) :
  build_result self parameters result_joint results_src = Ok table →
  table !! parameter = Some (Quantities values u) →
  table !! (parameter +:+ "_err") = Some (Quantities errors u') →
  np_average (drop 1 values)
    ((λ e, ndiv (of_Z 1) (nmul e e)) <$> drop 1 errors) = Ok avg →
  ∃ chi2_result,
    weighted_chi2_parameter table parameter = Ok chi2_result
    ∧ length (drop 1 values) = Z.to_nat (num_energy_bands self)
    ∧ length (drop 1 errors) = Z.to_nat (num_energy_bands self)
    ∧ chi2_result !! "df" = Some (Ints [(num_energy_bands self - 1)%Z])
    ∧ chi2_result !! ("chi2 " +:+ parameter) =
        Some (Floats
                [np_sum (zip_with
                           (λ v e, ndiv (nmul (nsub v avg) (nsub v avg))
                                     (nmul e e))
                           (drop 1 values) (drop 1 errors))])
    ∧ dom chi2_result = {[ "chi2 " +:+ parameter; "df"; "significance" ]}.
Proof.
  intros Hb Hv He Havg.
  apply build_result_shape in Hb as (Hn & _ & Hlen).
  assert (length (drop 1 values) = Z.to_nat (num_energy_bands self)) as Hlv.
  { apply Hlen in Hv. simpl in Hv. rewrite length_drop. lia. }
  assert (length (drop 1 errors) = Z.to_nat (num_energy_bands self)) as Hle.
  { apply Hlen in He. simpl in He. rewrite length_drop. lia. }
  eexists. split.
  { unfold weighted_chi2_parameter.
    rewrite (Table_Ok table _ Hlen), bind_Ok.
    unfold SafeMaskMaker.dict_getitem. rewrite Hv, bind_Ok, He, bind_Ok.
    simpl column_tail. rewrite !bind_Ok, Havg, bind_Ok. reflexivity. }
  split; [done|]. split; [done|].
  assert ("chi2 " +:+ parameter ≠ "df") as Hne1
    by (intros Heq; discriminate Heq).
  assert ("chi2 " +:+ parameter ≠ "significance") as Hne2
    by (intros Heq; discriminate Heq).
  split; [|split].
  - rewrite lookup_insert_ne by done. rewrite lookup_insert_eq.
    do 3 f_equal. rewrite Hlv. lia.
  - rewrite !lookup_insert_ne by done. by rewrite lookup_insert_eq.
  - rewrite !dom_insert_L, dom_empty_L. apply set_eq. intros x.
    rewrite !elem_of_union, !elem_of_singleton, elem_of_empty. tauto.
Qed.
End Table_properties.

Section Table_runs.
Import Demo DemoStats.

(** Two energy bands and two data sets: the two rows "H1" hold the fits
    of the first two slices, which are both slices of the first band. *)
Lemma table_two_bands :
  ∃ table,
    EnergyDependenceEstimator.build_result estimator_two_bands ["sigma"]
      (fit_result_sigma 15) results_two_datasets = Ok table
    ∧ table !! "Emin" =
        Some (EnergyDependenceEstimator.Values [xz 1; xz 1; xz 10])
    ∧ table !! "Emax" =
        Some (EnergyDependenceEstimator.Values [xz 100; xz 10; xz 100])
    ∧ table !! "sigma" =
        Some (EnergyDependenceEstimator.Quantities [xz 15; xz 11; xz 12]
                "deg")
    ∧ NoDup (["Hypothesis"; "Emin"; "Emax"] ++ ["sigma"]
             ++ ((λ p, p +:+ "_err") <$> ["sigma"]))
    ∧ (∀ key,
         key ∈ dom table ↔
         key = "Hypothesis" ∨ key = "Emin" ∨ key = "Emax"
         ∨ ∃ p, p ∈ ["sigma"] ∧ (key = p ∨ key = p +:+ "_err"))
    ∧ (∀ key col,
         table !! key = Some col → WeightedChi2.column_length col = 3)
    ∧ ∀ p, p ∈ ["sigma"] →
        ∃ joint_par values errors,
          EnergyDependenceEstimator.parameters_getitem
            (EnergyDependenceEstimator.parameters (fit_result_sigma 15)) p
            = Ok joint_par
          ∧ table !! p =
              Some (EnergyDependenceEstimator.Quantities
                      (value joint_par :: values) (unit joint_par))
          ∧ table !! (p +:+ "_err") =
              Some (EnergyDependenceEstimator.Quantities
                      (error joint_par :: errors) (unit joint_par))
          ∧ ∀ i, (i < 2)%nat →
              ∃ r par,
                results_two_datasets !! i = Some r
                ∧ EnergyDependenceEstimator.parameters_getitem
                    (EnergyDependenceEstimator.parameters r) p = Ok par
                ∧ values !! i = Some (value par)
                ∧ errors !! i = Some (error par).
Proof.
  exists table_of_two_datasets.
  assert (NoDup (["Hypothesis"; "Emin"; "Emax"] ++ ["sigma"]
                 ++ ((λ p, p +:+ "_err") <$> ["sigma"]))) as Hnodup
    by (by apply (bool_decide_unpack _)).
  destruct (build_result_table_shape estimator_two_bands ["sigma"]
              (fit_result_sigma 15) results_two_datasets
              table_of_two_datasets eq_refl)
    as (Hdom & Hlen & Hrows).
  destruct (Hrows Hnodup) as (_ & _ & Hpars).
  split; [reflexivity|].
  split; [vm_compute; reflexivity|].
  split; [vm_compute; reflexivity|].
  split; [vm_compute; reflexivity|].
  split; [exact Hnodup|]. split; [exact Hdom|]. split; [exact Hlen|].
  exact Hpars.
Defined.

Lemma weighted_chi2_two_bands :
  ∃ table chi2_result,
    EnergyDependenceEstimator.build_result estimator_two_bands ["sigma"]
      joint_two_bands results_two_bands = Ok table
    ∧ WeightedChi2.weighted_chi2_parameter table "sigma" = Ok chi2_result
    ∧ chi2_result !! "df" = Some (WeightedChi2.Ints [1%Z])
    ∧ chi2_result !! "chi2 sigma" = Some (WeightedChi2.Floats [xz 0]).
Proof.
  exists table_of_two_bands.
  edestruct (weighted_chi2_degrees_of_freedom estimator_two_bands ["sigma"]
               joint_two_bands results_two_bands table_of_two_bands "sigma"
               [xz 3; xz 3; xz 3] [xz 1; xz 1; xz 1] "deg" "deg" (xz 3))
    as (res & Hres & _ & _ & Hdf & Hchi2 & _);
    [reflexivity|vm_compute; reflexivity|vm_compute; reflexivity
    |reflexivity|].
  exists res. split; [reflexivity|]. split; [exact Hres|].
  split; [exact Hdf|exact Hchi2].
Defined.
End Table_runs.

(** ** [to_dict] and [from_dict] of the models of cube.py *)

Section ModelDict_properties.
Context `{!ModelDict.ModelsApi}.
Import ModelDict.

Ltac lookup_inserts :=
  repeat first
    [ rewrite lookup_insert_eq
    | rewrite lookup_insert_ne by (intros Hkey; discriminate Hkey)
    | rewrite lookup_empty ].

(** *** [FoVBackgroundModel] *)

(** X14.  A [FoVBackgroundModel] made by [__init__] survives the round
    trip through its dictionary whenever its spectral model does: 
    [from_dict(to_dict())] returns the model, with the same name
    [<dataset name>-bkg]. *)
Theorem FoVBackground_from_dict_to_dict
    (spectral : option SpectralModel) (dataset_name : string)
    (self : FoVBackground.t) (full_output : bool) :
  FoVBackground.init spectral (Some dataset_name) = Ok self →
  spectral_from_dict
    (spectral_to_dict (FoVBackground.spectral_model self) full_output)
    = Ok (FoVBackground.spectral_model self) →
  FoVBackground.from_dict (FoVBackground.to_dict self full_output) = Ok self
  ∧ FoVBackground.name self = Ok (dataset_name +:+ "-bkg").
Proof.
  intros Hinit Hspec. simpl in Hinit. injection Hinit as <-.
  simpl in Hspec. split; [|reflexivity].
  unfold FoVBackground.from_dict, FoVBackground.to_dict,
    decode_optional_spectral, get.
  lookup_inserts. simpl. rewrite Hspec. simpl. lookup_inserts. reflexivity.
Qed.

(** X15.  [FoVBackgroundModel.from_dict] needs exactly one data set
    name.  When the spectral entry can be read, it raises [ValueError]
    without the entry "datasets_names" and with two names or more,
    [IndexError] with an empty list of names, and with one name it
    returns the model of that data set, whose spectral model is the
    default when the dictionary has none. *)
Theorem FoVBackground_from_dict_names (data : gmap string Value)
    (spectral : option SpectralModel) :
  decode_optional_spectral data = Ok spectral →
  (get data "datasets_names" = VNone →
     FoVBackground.from_dict data = Raise ValueError)
  ∧ (get data "datasets_names" = VNames [] →
     FoVBackground.from_dict data = Raise IndexError)
  ∧ (∀ n, get data "datasets_names" = VNames [n] →
       FoVBackground.from_dict data =
         Ok {| FoVBackground.spectral_model :=
                 default PowerLawNormSpectralModel spectral;
               FoVBackground.datasets_names := [n] |})
  ∧ (∀ n n' l, get data "datasets_names" = VNames (n :: n' :: l) →
       FoVBackground.from_dict data = Raise ValueError).
Proof.
  intros Hspec. unfold FoVBackground.from_dict. rewrite Hspec. simpl.
  repeat split.
  - by intros ->.
  - by intros ->.
  - intros n ->. simpl. by destruct spectral.
  - by intros n n' l ->.
Qed.

(** *** [BackgroundModel] *)


(** *** [SkyModel] *)

(** X17.  A [SkyModel] whose unit check passes survives the round trip
    through its dictionary whenever its component models do:
    [from_dict(to_dict())] returns the model, with or without a spatial
    and a temporal model, with the default or another [apply_irf] (the
    default one is not written to the dictionary), and with or without
    data set names. *)
Theorem SkyModel_from_dict_to_dict (self : SkyModelDict.t)
    (full_output : bool) :
  spectral_from_dict
    (spectral_to_dict (SkyModelDict.spectral_model self) full_output)
    = Ok (SkyModelDict.spectral_model self) →
  (∀ m, SkyModelDict.spatial_model self = Some m →
        spatial_from_dict (spatial_to_dict m full_output) = Ok m) →
  (∀ m, SkyModelDict.temporal_model self = Some m →
        temporal_from_dict (temporal_to_dict m full_output) = Ok m) →
  make_name (Some (SkyModelDict.name self)) = SkyModelDict.name self →
  unit_is_equivalent (SkyModelDict.spectral_model self)
    (SkyModelDict.spatial_model self) (SkyModelDict.temporal_model self)
    = true →
  SkyModelDict.from_dict (SkyModelDict.to_dict self full_output) = Ok self
  ∧ (SkyModelDict.to_dict self full_output !! "apply_irf" = None ↔
     SkyModelDict.apply_irf self = SkyModelDict._apply_irf_default).
Proof.
  intros Hspec Hspat Htemp Hname Hunit. destruct self as [sp sa te n ai dn].
  simpl in *.
  unfold SkyModelDict.from_dict, SkyModelDict.to_dict, get,
    SafeMaskMaker.dict_getitem. simpl.
  destruct sa as [sa|], te as [te|], dn as [dn|];
    destruct (decide (ai = SkyModelDict._apply_irf_default)) as [->|Hai];
    try rewrite (bool_decide_eq_false_2
                   (SkyModelDict._apply_irf_default
                    ≠ SkyModelDict._apply_irf_default)) by (by intros ?);
    try rewrite (bool_decide_eq_true_2 _ Hai);
    lookup_inserts; simpl; rewrite Hspec; simpl;
    try rewrite (Hspat _ eq_refl); try rewrite (Htemp _ eq_refl); simpl;
    unfold SkyModelDict.init; rewrite Hname, Hunit; simpl;
    (split; [reflexivity|]); (split; [done|]); try done.
Qed.
End ModelDict_properties.

Section ModelDict_runs.
Import DemoModels.

Lemma fov_background_round_trip :
  FoVBackground.from_dict (FoVBackground.to_dict fov_background false)
    = Ok fov_background
  ∧ FoVBackground.name fov_background = Ok "dataset-1-bkg".
Proof.
  refine (FoVBackground_from_dict_to_dict None "dataset-1" fov_background
            false _ _); reflexivity.
Defined.

(** A dictionary without a spectral model and with two data set names. *)
Lemma fov_background_two_names :
  FoVBackground.from_dict
    (<["datasets_names" := ModelDict.VNames ["a"; "b"]]> ∅)
    = Raise ValueError.
Proof.
  refine (proj2 (proj2 (proj2
            (FoVBackground_from_dict_names
               (<["datasets_names" := ModelDict.VNames ["a"; "b"]]> ∅)
               None _))) "a" "b" [] _); reflexivity.
Defined.


Lemma sky_model_round_trip :
  SkyModelDict.from_dict (SkyModelDict.to_dict sky_model false)
    = Ok sky_model.
Proof.
  refine (proj1 (SkyModel_from_dict_to_dict sky_model false _ _ _ _ _));
    try reflexivity.
  - intros m [= <-]. reflexivity.
  - intros m [=].
Defined.
End ModelDict_runs.

(** ** [estimate_energy_dependence]: the linking of the slices *)

Section Linking_properties.
Context {num : Type} `{!Arith num} `{!EnergyDependenceEstimator.FitApi num}.
Import EnergyDependenceEstimator.
Local Abbreviation Slice := (SlicedDataset Sliced SkyModelObj).

(** What linking may change of a slice: the first of its models. *)
Definition same_but_first_model (s s' : Slice) : Prop :=
  sliced s' = sliced s
  ∧ length (models s') = length (models s)
  ∧ ∀ k, 0 < k → models s' !! k = models s !! k.

Lemma same_but_first_model_refl (s : Slice) : same_but_first_model s s.
Proof. done. Qed.

Lemma link_parameter_same (slice0 slice_j s' : Slice) (param : string) :
  link_parameter slice0 slice_j param = Ok s' →
  same_but_first_model slice_j s'.
Proof.
  unfold link_parameter. intros Hl.
  destruct (slice_sky_model slice_j) as [mj|]; [|done].
  rewrite bind_Ok in Hl.
  destruct (slice_spatial_parameters slice0) as [ps0|]; [|done].
  rewrite bind_Ok in Hl.
  destruct (parameters_getitem ps0 param) as [p|]; [|done].
  rewrite bind_Ok in Hl. injection Hl as <-.
  unfold same_but_first_model. cbn [sliced models].
  split; [done|]. split; [by rewrite length_insert|].
  intros k Hk. apply list_lookup_insert_ne. lia.
Qed.

Lemma link_parameters_same (slice0 slice_j s' : Slice)
    (parameters : list string) :
  foldlM (link_parameter slice0) slice_j parameters = Ok s' →
  same_but_first_model slice_j s'.
Proof.
  revert slice_j. induction parameters as [|param ps IH]; intros slice_j.
  - simpl. by intros [= <-].
  - simpl. destruct (link_parameter slice0 slice_j param) as [s1|] eqn:H1;
      [|done].
    rewrite bind_Ok. intros Hf.
    apply link_parameter_same in H1 as (Hs1 & Hl1 & Hm1).
    apply IH in Hf as (Hs & Hl & Hm).
    split; [congruence|]. split; [congruence|].
    intros k Hk. by rewrite Hm, Hm1.
Qed.

(** X18.  Linking the spatial parameters for the joint fit keeps every
    slice in its place: the linked list has the length of the list of
    slices, its first slice is the first slice unchanged, and of the other
    slices only the first model — the copy of the source model — is
    replaced, the sliced data and the background model being kept.
    Without a free spatial parameter nothing is changed. *)
Theorem link_slices_keeps_slices (parameters : list string)
    (slices_src linked : list Slice) :
  link_slices parameters slices_src = Ok linked →
  length linked = length slices_src
  ∧ linked !! 0 = slices_src !! 0
  ∧ (∀ j s, slices_src !! j = Some s →
       ∃ s', linked !! j = Some s' ∧ same_but_first_model s s')
  ∧ (parameters = [] → linked = slices_src).
Proof.
  unfold link_slices, getitem. intros Hl.
  destruct slices_src as [|slice0 rest]; [done|]. simpl in Hl.
  destruct (mapM _ rest) as [rest'|] eqn:Hrest; [|done].
  simpl in Hl. injection Hl as <-.
  split; [simpl; by rewrite (mapM_Ok_length _ _ _ Hrest)|].
  split; [done|]. split.
  - intros [|j] s Hs; simpl in *.
    + injection Hs as <-. eexists. split; [done|].
      apply same_but_first_model_refl.
    + destruct (mapM_Ok_lookup _ _ _ _ _ Hrest Hs) as (s' & Hs' & Hf).
      exists s'. split; [done|]. by apply link_parameters_same in Hf.
  - intros ->. f_equal.
    rewrite (mapM_Ok_fmap _ id) in Hrest by done.
    injection Hrest as <-. by rewrite list_fmap_id.
Qed.
End Linking_properties.

Section Linking_runs.
Import Demo.

Lemma link_two_slices :
  ∃ linked,
    EnergyDependenceEstimator.link_slices ["lon_0"; "lat_0"; "sigma"]
      (EnergyDependenceEstimator.all_slices estimator
         [dataset_a; dataset_b] source_model) = Ok linked
    ∧ length linked = 2.
Proof.
  eexists. split; [reflexivity|].
  refine (proj1 (link_slices_keeps_slices ["lon_0"; "lat_0"; "sigma"]
                   (EnergyDependenceEstimator.all_slices estimator
                      [dataset_a; dataset_b] source_model) _ _)).
  reflexivity.
Defined.
End Linking_runs.
